(** * EasyBuild compiler toolkits: a shallow embedding of
      [easybuild/tools/toolkit.py] and of the logger of
      [easybuild/tools/build_log.py].

    The [Toolkit] instance, the process environment and the module system are
    threaded explicitly through a state-and-exception monad; Python dicts are
    finite maps, Python lists are lists. *)

From Stdlib Require Import Ascii String.
From stdpp Require Import base option list gmap strings fin_maps sorting pretty.

Local Open Scope stdpp_scope.

(** ** Python [str] operations used by the toolkit *)

Module Str.

(** [c.lower()] on one byte: only [A]..[Z] change. *)
Definition lower_ascii (c : ascii) : ascii :=
  let n := nat_of_ascii c in
  if (65 <=? n)%nat && (n <=? 90)%nat then ascii_of_nat (n + 32) else c.

(** [s.lower()] *)
Fixpoint lower (s : string) : string :=
  match s with
  | EmptyString => EmptyString
  | String c r => String (lower_ascii c) (lower r)
  end.

(** [s.startswith(p)] *)
Fixpoint startswith (p s : string) : bool :=
  match p, s with
  | EmptyString, _ => true
  | String _ _, EmptyString => false
  | String a p', String b s' => Ascii.eqb a b && startswith p' s'
  end.

(** [s.endswith(p)] *)
Definition endswith (p s : string) : bool :=
  startswith (String.rev p) (String.rev s).

(** [sub in s] *)
Fixpoint contains (sub s : string) : bool :=
  match s with
  | EmptyString => startswith sub EmptyString
  | String _ r => startswith sub s || contains sub r
  end.

(** [s.split(sep)] for a one-character separator: the pieces between the
    separators, empty pieces included; never the empty list. *)
Fixpoint split (sep : ascii) (s : string) : list string :=
  match s with
  | EmptyString => [EmptyString]
  | String c r =>
      if Ascii.eqb c sep then EmptyString :: split sep r
      else match split sep r with
           | [] => [String c EmptyString]
           | w :: ws => String c w :: ws
           end
  end.

(** [sep.join(l)] *)
Fixpoint join (sep : string) (l : list string) : string :=
  match l with
  | [] => EmptyString
  | [x] => x
  | x :: xs => x +:+ sep +:+ join sep xs
  end.

(** [s.replace(old, new)] for a non-empty [old]: scan from the left, and
    after a match continue behind it ([skip] counts the characters of the
    match still to be dropped). *)
Fixpoint replace_from (old new : string) (skip : nat) (s : string) : string :=
  match s with
  | EmptyString => EmptyString
  | String c r =>
      match skip with
      | S k => replace_from old new k r
      | O =>
          if startswith old s
          then new +:+ replace_from old new (String.length old - 1) r
          else String c (replace_from old new 0 r)
      end
  end.

(** With an empty [old], Python puts [new] before every character and at
    the end. *)
Fixpoint intersperse (new s : string) : string :=
  match s with
  | EmptyString => new
  | String c r => new +:+ String c (intersperse new r)
  end.

Definition replace (old new s : string) : string :=
  match old with
  | EmptyString => intersperse new s
  | String _ _ => replace_from old new 0 s
  end.

(** [tmpl % arg] for one string argument: [%s] takes the argument, [%%] is a
    percent sign; [None] stands for the [TypeError] or [ValueError] that
    Python raises when the argument is not used exactly once or the
    conversion is incomplete. Conversions other than [%s] do not occur in the
    toolkit and are answered by [None] too. *)
Fixpoint format_go (t : string) (arg : option string) : option string :=
  match t with
  | EmptyString =>
      match arg with
      | None => Some EmptyString
      | Some _ => None
      end
  | String c r =>
      if Ascii.eqb c "%" then
        match r with
        | String d r' =>
            if Ascii.eqb d "s" then
              match arg with
              | Some a => String.append a <$> format_go r' None
              | None => None
              end
            else if Ascii.eqb d "%" then String "%" <$> format_go r' arg
            else None
        | EmptyString => None
        end
      else String c <$> format_go r arg
  end.

Definition format1 (tmpl arg : string) : option string := format_go tmpl (Some arg).

(** [os.path.join(a, b)] of [posixpath] *)
Definition path_join (a b : string) : string :=
  if startswith "/" b then b
  else if String.eqb a EmptyString || endswith "/" a then a +:+ b
  else a +:+ "/" +:+ b.

End Str.

(** ** Python values, dicts and exceptions *)

(** The values that options and dependency descriptors hold. *)
Inductive value :=
  | VNone
  | VBool (b : bool)
  | VStr (s : string).

Global Instance value_eq_dec : EqDecision value.
Proof. solve_decision. Defined.

(** [bool(v)] *)
Definition truthy (v : value) : bool :=
  match v with
  | VNone => false
  | VBool b => b
  | VStr s => negb (String.eqb s EmptyString)
  end.

(** ["%s" % v] *)
Definition str_of (v : value) : string :=
  match v with
  | VNone => "None"
  | VBool true => "True"
  | VBool false => "False"
  | VStr s => s
  end.

(** ["%s" % os.getenv(k)] *)
Definition str_of_opt (o : option string) : string :=
  match o with
  | None => "None"
  | Some s => s
  end.

(** A module or dependency descriptor: a dict with string keys such as
    [name], [version], [dummy], [suffix], [tk]. *)
Abbreviation dict := (gmap string value).

Inductive exn :=
  | EasyBuildError (msg : string)
  | KeyError (key : string)
  | AttributeError (what : string)
  | TypeError (what : string).

Global Instance exn_eq_dec : EqDecision exn.
Proof. solve_decision. Defined.

Inductive result (A : Type) :=
  | Ok (a : A)
  | Raise (e : exn).
Arguments Ok {A} a.
Arguments Raise {A} e.

Inductive level := WARNING | ERROR.

Global Instance level_eq_dec : EqDecision level.
Proof. solve_decision. Defined.

(** ** The host: what the toolkit reads from outside itself

    The module system ([easybuild.tools.modules]), [distutils]' version
    comparison, the file system and the logger's stack inspection are not
    part of the toolkit; they are taken as given. *)

(** What [Modules.addModule] is handed: a [(name, version)] tuple for the
    toolkit itself, a descriptor dict for a dependency. *)
Inductive modreq :=
  | ReqTuple (name version : string)
  | ReqDict (d : dict).

Record Host := mkHost {
  (** [os.path.isdir] *)
  isdir : string -> bool;
  (** [getSoftwareRoot(name)], under the current [os.environ] *)
  getSoftwareRoot : gmap string string -> value -> option string;
  (** [EasyBuildLog.callerInfo()] when [log.error] is called from the
      function of that name *)
  callerInfo : string -> string;
  (** [LooseVersion(a) < LooseVersion(b)] *)
  LooseVersion_lt : string -> string -> bool;
  (** the [vendorid] group of the [vendor_id] regexp on [/proc/cpuinfo],
      [None] when the search finds nothing *)
  vendor_id : option string;
  (** [Modules().exists(name, version)] *)
  mod_exists : value -> value -> bool;
  (** [Modules().available(name, suffix)] *)
  mod_available : value -> string -> list string;
  (** [addModule(reqs)] followed by [load()]: the new [os.environ] and the
      new list of loaded modules *)
  mod_load : list modreq -> gmap string string -> list dict ->
             gmap string string * list dict;
  (** [str(d)] of a dict, as ["%s" % d] prints it *)
  dict_repr : dict -> string
}.

(** ** The state: the [Toolkit] instance and the process around it *)

Record State := mkState {
  name : string;
  version : string;
  dependencies : list dict;
  vars : gmap string string;
  arch : option string;
  toolkit_deps : list dict;
  m32flag : string;
  opts : gmap string value;
  (** [os.environ] *)
  environ : gmap string string;
  (** what [Modules().loaded_modules()] returns *)
  loaded_modules : list dict;
  (** the warnings and errors handed to the logger, oldest first *)
  log : list (level * string)
}.


Definition set_vars (f : gmap string string -> gmap string string) (st : State) : State :=
  mkState st.(name) st.(version) st.(dependencies) (f st.(vars)) st.(arch)
          st.(toolkit_deps) st.(m32flag) st.(opts) st.(environ)
          st.(loaded_modules) st.(log).

Definition set_arch (a : option string) (st : State) : State :=
  mkState st.(name) st.(version) st.(dependencies) st.(vars) a
          st.(toolkit_deps) st.(m32flag) st.(opts) st.(environ)
          st.(loaded_modules) st.(log).

Definition set_toolkit_deps (l : list dict) (st : State) : State :=
  mkState st.(name) st.(version) st.(dependencies) st.(vars) st.(arch)
          l st.(m32flag) st.(opts) st.(environ)
          st.(loaded_modules) st.(log).

Definition set_opts (f : gmap string value -> gmap string value) (st : State) : State :=
  mkState st.(name) st.(version) st.(dependencies) st.(vars) st.(arch)
          st.(toolkit_deps) st.(m32flag) (f st.(opts)) st.(environ)
          st.(loaded_modules) st.(log).

Definition set_environ (f : gmap string string -> gmap string string) (st : State) : State :=
  mkState st.(name) st.(version) st.(dependencies) st.(vars) st.(arch)
          st.(toolkit_deps) st.(m32flag) st.(opts) (f st.(environ))
          st.(loaded_modules) st.(log).

Definition set_process (p : gmap string string * list dict) (st : State) : State :=
  mkState st.(name) st.(version) st.(dependencies) st.(vars) st.(arch)
          st.(toolkit_deps) st.(m32flag) st.(opts) p.1 p.2 st.(log).

Definition add_log (lv : level) (msg : string) (st : State) : State :=
  mkState st.(name) st.(version) st.(dependencies) st.(vars) st.(arch)
          st.(toolkit_deps) st.(m32flag) st.(opts) st.(environ)
          st.(loaded_modules) (st.(log) ++ [(lv, msg)]).

(** ** The monad: state that survives an exception *)

Definition M (A : Type) : Type := State -> result A * State.

Definition ret {A} (a : A) : M A := fun st => (Ok a, st).

Definition bind {A B} (m : M A) (k : A -> M B) : M B :=
  fun st =>
    match m st with
    | (Ok a, st') => k a st'
    | (Raise e, st') => (Raise e, st')
    end.

Definition raise {A} (e : exn) : M A := fun st => (Raise e, st).

Definition get : M State := fun st => (Ok st, st).

Definition modify (f : State -> State) : M unit := fun st => (Ok tt, f st).

Declare Scope py_scope.
Delimit Scope py_scope with py.
Notation "'let!' x ':=' m 'in' k" := (bind m (fun x => k))
  (at level 10, x name, m at level 100, k at level 200) : py_scope.
Notation "m '>>' k" := (bind m (fun _ => k))
  (at level 90, right associativity) : py_scope.
Local Open Scope py_scope.

(** [for x in l: body(x)] over a list that the body does not change *)
Fixpoint for_each {A} (l : list A) (body : A -> M unit) : M unit :=
  match l with
  | [] => ret tt
  | x :: r => body x >> for_each r body
  end.

(** [d[k]] *)
Definition getitem {A} (d : gmap string A) (k : string) : M A :=
  match d !! k with
  | Some v => ret v
  | None => raise (KeyError k)
  end.

(** [d.keys()] and [d.items()]. Python visits a dict in the order of its
    hash table; the model visits the map in its own order, and the loops
    over [keys] and [items] that the statements are about take the order as
    an argument and are proved for every order. *)
Definition keys {A} (d : gmap string A) : list string := (map_to_list d).*1.
Definition items {A} (d : gmap string A) : list (string * A) := map_to_list d.

(** [self.vars[k]], [self.vars[k] = v], [self.vars[k] += v], [self.opts[k]] *)
Definition var (k : string) : M string :=
  let! st := get in getitem st.(vars) k.

Definition setvar (k v : string) : M unit := modify (set_vars <[k := v]>).

Definition addvar (k v : string) : M unit :=
  let! old := var k in setvar k (old +:+ v).

Definition opt (k : string) : M value :=
  let! st := get in getitem st.(opts) k.

(** [os.getenv(k)], [os.environ[k]] *)
Definition getenv (k : string) : M (option string) :=
  let! st := get in ret (st.(environ) !! k).

Definition environ_getitem (k : string) : M string :=
  let! st := get in getitem st.(environ) k.

(** The double quote, for the literals of the source that contain one. *)
Definition dq : string := String "034"%char EmptyString.

Section Toolkit.

Context (h : Host).

(** ** [build_log.py]: the logger *)

(** [EasyBuildLog.error], called from the function [fn]: the message is
    logged and an [EasyBuildError] carrying it is raised. The class attribute
    [raiseError] is [True] whenever the toolkit calls it (only
    [EasyBuildLog.exception] clears it, for the time of its own logging call,
    and the toolkit never calls that). *)
Definition log_error {A} (fn msg : string) : M A :=
  fun st =>
    let newMsg :=
      "EasyBuild crashed with an error " +:+ callerInfo h fn +:+ ": " +:+ msg in
    (Raise (EasyBuildError newMsg), add_log ERROR newMsg st).

(** [log.warning] *)
Definition log_warning (msg : string) : M unit := modify (add_log WARNING msg).

(** ** [Toolkit.__init__] *)

Definition default_opts : gmap string value :=
  list_to_map
    [("usempi", VBool false); ("cciscxx", VBool false); ("pic", VBool false);
     ("opt", VBool false); ("noopt", VBool false); ("lowopt", VBool false);
     ("debug", VBool false); ("optarch", VBool true); ("i8", VBool false);
     ("unroll", VBool false); ("verbose", VBool false); ("cstd", VNone);
     ("shared", VBool false); ("static", VBool false);
     ("intel-static", VBool false); ("loop", VBool false); ("f2c", VBool false);
     ("no-icc", VBool false); ("packed-groups", VBool false);
     ("32bit", VBool false)].

(** [Toolkit(name, version)] in a process with the given environment and
    loaded modules. *)
Definition init (name version : string)
    (env : gmap string string) (loaded : list dict) : State :=
  let is32 := Str.endswith "32bit" version in
  mkState name version [] ∅ None []
          (if is32 then " -m32" else EmptyString)
          (if is32 then <["32bit" := VBool true]> default_opts else default_opts)
          env loaded [].

(** ** [_toolkitExists], with the defaults of its two arguments *)
Definition _toolkitExists : M bool :=
  let! st := get in
  if String.eqb st.(name) "dummy" then ret true
  else ret (mod_exists h (VStr st.(name)) (VStr st.(version))).

(** ** [setOptions] *)

Definition setOptions_body (options : gmap string value) (o : string) : M unit :=
  let! st := get in
  match st.(opts) !! o with
  | Some _ =>
      let! v := getitem options o in
      modify (set_opts <[o := v]>)
  | None => log_warning ("Undefined toolkit option " +:+ o +:+ " specified.")
  end.

(** The loop of [setOptions] over the keys in a given order. *)
Definition setOptions_over (ks : list string) (options : gmap string value) : M unit :=
  for_each ks (setOptions_body options).

Definition setOptions (options : gmap string value) : M unit :=
  setOptions_over (keys options) options.

(** ** [getDependencyVersion] *)

(** The toolkit part of the version string, lines 87 to 95. *)
Definition toolkit_suffix (st : State) (dependency : dict) : string :=
  let toolkit :=
    if negb (String.eqb st.(name) "dummy")
    then "-" +:+ st.(name) +:+ "-" +:+ st.(version)
    else if negb (String.eqb st.(version) "dummy") then st.(version)
    else EmptyString in
  match dependency !! "dummy" with
  | Some v => if truthy v then EmptyString else toolkit
  | None => toolkit
  end.

Definition getDependencyVersion (dependency : dict) : M string :=
  let! st := get in
  let toolkit := toolkit_suffix st dependency in
  let suffix := str_of (default (VStr EmptyString) (dependency !! "suffix")) in
  match dependency !! "version" with
  | Some v => ret (str_of v +:+ toolkit +:+ suffix)
  | None =>
      let! n := getitem dependency "name" in
      let matches := mod_available h n (toolkit +:+ suffix) in
      match last matches with
      | Some m => ret m
      | None =>
          log_error "getDependencyVersion"
            ("No toolkit version for dependency name " +:+ str_of n +:+
             " (suffix " +:+ toolkit +:+ suffix +:+ ") found")
      end
  end.

(** ** [addDependencies] *)



(** ** [_flagsForSubdirs] *)

(** The loop that collects [flags]. *)
Fixpoint _flagsForSubdirs_loop (base : string) (subdirs : list string)
    (flag : string) (flags : list string) : M (list string) :=
  match subdirs with
  | [] => ret flags
  | subdir :: rest =>
      let directory := Str.path_join base subdir in
      if isdir h directory then
        match Str.format1 flag directory with
        | Some f => _flagsForSubdirs_loop base rest flag (flags ++ [f])
        | None => raise (TypeError "string formatting")
        end
      else
        log_warning ("Directory " +:+ directory +:+ " was not found") >>
        _flagsForSubdirs_loop base rest flag flags
  end.

Definition _flagsForSubdirs (base : string) (subdirs : list string)
    (flag : string) (varskey : string) : M unit :=
  let! flags := _flagsForSubdirs_loop base subdirs flag [] in
  let! st := get in
  match st.(vars) !! varskey with
  | None => setvar varskey EmptyString
  | Some _ => ret tt
  end >>
  addvar varskey (" " +:+ Str.join " " flags).

(** ** [_addDependencyVariables] *)

(** What the callers pass as [dep]: nothing, one descriptor, or (from
    [prepareACML]) a list of descriptors. *)
Inductive deparg :=
  | DepNone
  | DepDict (d : dict)
  | DepList (l : list dict).

Definition _addDependencyVariables_body (dep : deparg) : M unit :=
  match dep with
  | DepDict dep =>
      let! n := getitem dep "name" in
      let! st := get in
      let softwareRoot := getSoftwareRoot h st.(environ) n in
      let! root :=
        match softwareRoot with
        | Some r =>
            if negb (String.eqb r EmptyString) then ret r
            else log_error "_addDependencyVariables"
                   (str_of n +:+ " was not found in environment (dep: " +:+
                    dict_repr h dep +:+ ")")
        | None =>
            log_error "_addDependencyVariables"
              (str_of n +:+ " was not found in environment (dep: " +:+
               dict_repr h dep +:+ ")")
        end in
      _flagsForSubdirs root ["include"] "-I%s" "CPPFLAGS" >>
      _flagsForSubdirs root ["lib64"; "lib"] "-L%s" "LDFLAGS"
  | DepList _ | DepNone =>
      (* [dep['name']] on a list or on [None] *)
      raise (TypeError "indices must be integers, not str")
  end.

Definition _addDependencyVariables (dep : deparg) : M unit :=
  let! st := get in
  let deps :=
    match dep with
    | DepNone => DepDict <$> st.(dependencies)
    | DepDict d => if bool_decide (d = ∅) then DepDict <$> st.(dependencies) else [dep]
    | DepList l => if bool_decide (l = []) then DepDict <$> st.(dependencies) else [dep]
    end in
  for_each deps _addDependencyVariables_body.

(** ** [_setVariables] *)

(** What [prepare] gets as [onlymod] and [_setVariables] as [dontset]. *)
Inductive pyarg :=
  | ANone
  | ABool (b : bool)
  | AStr (s : string)
  | AList (l : list string).

Definition dontsetlist (dontset : pyarg) : list string :=
  match dontset with
  | AStr s => Str.split "," s
  | AList l => l
  | ANone | ABool _ => []
  end.

Definition _setVariables_body (dontset : pyarg) (kv : string * string) : M unit :=
  let '(key, val) := kv in
  if bool_decide (key ∈ dontsetlist dontset) then ret tt
  else
    modify (set_environ <[key := val]>) >>
    modify (set_environ <["SOFTVAR" +:+ key := val]>).

(** The loop of [_setVariables] over the items in a given order. *)
Definition _setVariables_over (kvs : list (string * string)) (dontset : pyarg) : M unit :=
  for_each kvs (_setVariables_body dontset).

Definition _setVariables (dontset : pyarg) : M unit :=
  let! st := get in
  _setVariables_over (items st.(vars)) dontset.

(** ** Architecture and optimisation level *)

Definition archd : gmap string string :=
  list_to_map [("GenuineIntel", "Intel"); ("AuthenticAMD", "AMD")].

Definition _determineArchitecture : M unit :=
  match vendor_id h with
  | None => raise (AttributeError "'NoneType' object has no attribute 'groupdict'")
  | Some a =>
      match archd !! a with
      | Some v => modify (set_arch (Some v))
      | None => log_error "_determineArchitecture"
                  ("Unknown architecture detected: " +:+ a)
      end
  end.

Definition optarchs : gmap string string :=
  list_to_map [("Intel", "xHOST"); ("AMD", "msse3")].

Definition _getOptimalArchitecture : M string :=
  let! st := get in
  match st.(arch) ≫= (optarchs !!.) with
  | Some optarch => ret optarch
  | None => log_error "_getOptimalArchitecture"
              ("Don't know how to set optarch for " +:+ str_of_opt st.(arch) +:+ ".")
  end.

Definition _getOptimizationLevel : M string :=
  let! noopt := opt "noopt" in
  if truthy noopt then ret "O0"
  else
    let! o := opt "opt" in
    if truthy o then ret "O3"
    else
      let! lowopt := opt "lowopt" in
      if truthy lowopt then ret "O1" else ret "O2".

(** ** [_flagsForOptions] *)

(** A flag table holds one flag or a list of flags per option. *)
Inductive flagval :=
  | FStr (s : string)
  | FList (l : list string).

Definition flagOptions : gmap string flagval :=
  list_to_map
    [("pic", FStr "fPIC"); ("debug", FStr "g"); ("i8", FStr "i8");
     ("static", FStr "static"); ("unroll", FStr "unroll"); ("verbose", FStr "v");
     ("shared", FStr "shared")].

Fixpoint _flagsForOptions_loop (kvs : list (string * flagval))
    (flags : list string) : M (list string) :=
  match kvs with
  | [] => ret flags
  | (key, newFlags) :: rest =>
      let! v := opt key in
      if truthy v then
        match newFlags with
        | FList l => _flagsForOptions_loop rest (flags ++ l)
        | FStr s => _flagsForOptions_loop rest (flags ++ [s])
        end
      else _flagsForOptions_loop rest flags
  end.

(** [flagOptions.update(override)]: the entries of [override] win. *)
Definition _flagsForOptions (override : gmap string flagval) : M (list string) :=
  _flagsForOptions_loop (items (override ∪ flagOptions)) [].

(** ** The preparation rules *)

(** [bool(os.getenv(k))] *)
Definition env_set (k : string) : M bool :=
  let! v := getenv k in
  ret (match v with
       | Some s => negb (String.eqb s EmptyString)
       | None => false
       end).

(** [for i in ['CC', 'CXX', 'F77', 'F90']: self.vars[i] = self.vars["MPI%s" % i]] *)
Definition use_mpi_compilers : M unit :=
  for_each ["CC"; "CXX"; "F77"; "F90"]
    (fun i => let! v := var ("MPI" +:+ i) in setvar i v).

(** [if c: body] *)
Definition when (c : bool) (body : M unit) : M unit :=
  if c then body else ret tt.

Definition prepareACML : M unit :=
  let! b32 := opt "32bit" in
  when (truthy b32) (log_error "prepareACML" "ERROR: 32-bit not supported (yet) for ACML.") >>
  _addDependencyVariables (DepList [{["name" := VStr "ACML"]}]) >>
  let! gcc := env_set "SOFTROOTGCC" in
  let! compiler :=
    if gcc then ret "gfortran"
    else log_error "prepareACML"
           "Don't know which compiler-specific subdir for ACML to use." in
  let! acml := environ_getitem "SOFTROOTACML" in
  setvar "LIBBLAS"
    (acml +:+ "/" +:+ compiler +:+ "64/lib/libacml_mv.a " +:+
     acml +:+ "/" +:+ compiler +:+ "64/lib/libacml.a -lpthread") >>
  let! v := var "LIBBLAS" in
  setvar "LIBBLAS_MT" v.

Definition prepareATLAS : M unit :=
  setvar "LIBBLAS" " -latlas -llapack -lcblas -lf77blas" >>
  setvar "LIBBLAS_MT" " -latlas -llapack -lptcblas -lptf77blas -lpthread" >>
  _addDependencyVariables (DepDict {["name" := VStr "ATLAS"]}).

Definition prepareBLACS : M unit :=
  setvar "LIBSCALAPACK" " -lblacsF77init -lblacs " >>
  let! v := var "LIBSCALAPACK" in
  setvar "LIBSCALAPACK_MT" v >>
  _addDependencyVariables (DepDict {["name" := VStr "BLACS"]}).

Definition prepareFLAME : M unit :=
  addvar "LIBLAPACK" " -llapack2flame -lflame " >>
  addvar "LIBLAPACK_MT" " -llapack2flame -lflame " >>
  _addDependencyVariables (DepDict {["name" := VStr "FLAME"]}).

Definition prepareFFTW : M unit :=
  let! ver := getenv "SOFTVERSIONFFTW" in
  let! ver :=
    match ver with
    | Some v => ret v
    | None => raise (AttributeError "'NoneType' object has no attribute 'startswith'")
    end in
  let suffix := if Str.startswith "3." ver then "3" else EmptyString in
  setvar "LIBFFT" (" -lfftw" +:+ suffix +:+ " ") >>
  let! usempi := opt "usempi" in
  when (truthy usempi) (addvar "LIBFFT" (" -lfftw" +:+ suffix +:+ "_mpi ")) >>
  _addDependencyVariables (DepDict {["name" := VStr "FFTW"]}).

(** ['-' + ' -'.join(l)] *)
Definition dashed (l : list string) : string := "-" +:+ Str.join " -" l.

Definition prepareGCC : M unit :=
  let! b32 := opt "32bit" in
  when (truthy b32)
    (log_error "prepareGCC" "ERROR: 32-bit not supported yet for GCC based toolkits.") >>
  let! st := get in
  setvar "CC" ("gcc " +:+ st.(m32flag)) >>
  setvar "CXX" ("g++ " +:+ st.(m32flag)) >>
  setvar "F77" ("gfortran " +:+ st.(m32flag) +:+ " ") >>
  setvar "F90" ("gfortran " +:+ st.(m32flag)) >>
  let! cciscxx := opt "cciscxx" in
  when (truthy cciscxx) (let! cc := var "CC" in setvar "CXX" cc) >>
  let! optarch := opt "optarch" in
  let flags := if truthy optarch then ["march=native"] else [] in
  let! lvl := _getOptimizationLevel in
  let flags := flags ++ [lvl] in
  let! more :=
    _flagsForOptions
      (list_to_map
         [("i8", FStr "fdefault-integer-8"); ("unroll", FStr "funroll-loops");
          ("f2c", FStr "ff2c");
          ("loop", FList ["ftree-switch-conversion"; "floop-interchange";
                          "floop-strip-mine"; "floop-block"])]) in
  let flags := flags ++ more in
  let! cstd := opt "cstd" in
  let copts := if truthy cstd then ["std=" +:+ str_of cstd] else [] in
  when (0 <? length (flags ++ copts))%nat (setvar "CFLAGS" (dashed (flags ++ copts))) >>
  when (0 <? length flags)%nat (setvar "CXXFLAGS" (dashed flags)) >>
  when (0 <? length flags)%nat (setvar "FFLAGS" (dashed flags)) >>
  when (0 <? length flags)%nat (setvar "F90FLAGS" (dashed flags)) >>
  setvar "FLIBS" "-lgfortran".

Definition prepareGotoBLAS : M unit :=
  setvar "LIBBLAS" "-lgoto" >>
  let! v := var "LIBBLAS" in
  setvar "LIBBLAS_MT" v >>
  _addDependencyVariables (DepDict {["name" := VStr "GotoBLAS"]}).

Definition prepareIcc : M unit :=
  let! st := get in
  setvar "CC" ("icc" +:+ st.(m32flag)) >>
  setvar "CXX" ("icpc" +:+ st.(m32flag)) >>
  setvar "F77" ("ifort" +:+ st.(m32flag)) >>
  setvar "F90" ("ifort" +:+ st.(m32flag)) >>
  let! cciscxx := opt "cciscxx" in
  when (truthy cciscxx) (let! cc := var "CC" in setvar "CXX" cc) >>
  let! optarch := opt "optarch" in
  let! flags :=
    if truthy optarch
    then let! a := _getOptimalArchitecture in ret [a]
    else ret [] in
  let! lvl := _getOptimizationLevel in
  let flags := flags ++ [lvl] in
  let! more :=
    _flagsForOptions
      (list_to_map
         [("intel-static", FStr "static-intel"); ("no-icc", FStr "no-icc")]) in
  let flags := flags ++ more in
  let! cstd := opt "cstd" in
  let copts := if truthy cstd then ["std=" +:+ str_of cstd] else [] in
  when (0 <? length (flags ++ copts))%nat (setvar "CFLAGS" (dashed (flags ++ copts))) >>
  when (0 <? length flags)%nat (setvar "CXXFLAGS" (dashed flags)) >>
  when (0 <? length flags)%nat (setvar "FFLAGS" (dashed flags)) >>
  let! icc := environ_getitem "SOFTVERSIONICC" in
  if LooseVersion_lt h icc "2011"
  then addvar "LIBS" " -liomp5 -lguide -lpthread"
  else addvar "LIBS" " -liomp5 -lpthread".

(** [self.vars[k] = self.vars[k].replace(old, new)] *)
Definition replace_in_var (old new k : string) : M unit :=
  let! v := var k in setvar k (Str.replace old new v).

Definition prepareIMKL : M unit :=
  let! mkl := getenv "MKLROOT" in
  let! mklRoot :=
    match mkl with
    | Some r =>
        if negb (String.eqb r EmptyString) then ret r
        else log_error "prepareIMKL" "MKLROOT not found in environment"
    | None => log_error "prepareIMKL" "MKLROOT not found in environment"
    end in
  let! b32 := opt "32bit" in
  let libsuffix := if truthy b32 then EmptyString else "_lp64" in
  let libsuffixsl := if truthy b32 then "_core" else "_lp64" in
  let libdir := if truthy b32 then "32" else "em64t" in
  let d := mklRoot +:+ "/lib/" +:+ libdir in
  setvar "LIBLAPACK"
    ("-Wl,--start-group " +:+ d +:+ "/libmkl_intel" +:+ libsuffix +:+ ".a " +:+
     d +:+ "/libmkl_sequential.a " +:+
     d +:+ "/libmkl_core.a -Wl,--end-group") >>
  let! v := var "LIBLAPACK" in
  setvar "LIBBLAS" v >>
  setvar "LIBLAPACK_MT"
    ("-Wl,--start-group " +:+ d +:+ "/libmkl_intel" +:+ libsuffix +:+ ".a " +:+
     d +:+ "/libmkl_intel_thread.a " +:+
     d +:+ "/libmkl_core.a -Wl,--end-group " +:+
     "-liomp5 -lpthread") >>
  let! v := var "LIBLAPACK_MT" in
  setvar "LIBBLAS_MT" v >>
  setvar "LIBSCALAPACK"
    (d +:+ "/libmkl_scalapack" +:+ libsuffixsl +:+ ".a " +:+
     d +:+ "/libmkl_solver" +:+ libsuffix +:+ "_sequential.a " +:+
     "-Wl,--start-group  " +:+ d +:+ "/libmkl_intel" +:+ libsuffix +:+ ".a " +:+
     d +:+ "/libmkl_sequential.a " +:+
     d +:+ "/libmkl_core.a " +:+
     d +:+ "/libmkl_blacs_intelmpi" +:+ libsuffix +:+ ".a -Wl,--end-group") >>
  let! packed := opt "packed-groups" in
  when (truthy packed)
    (for_each ["LIBLAPACK"; "LIBBLAS"; "LIBLAPACK_MT"; "LIBSCALAPACK"]
       (fun i =>
          let! v := var i in
          setvar i (Str.replace "-Wl,--end-group" "--end-group"
                      (Str.replace " " "," v)))) >>
  let! lib := var "LIBSCALAPACK" in
  let lib := Str.replace ("libmkl_solver" +:+ libsuffix +:+ "_sequential")
                         "libmkl_solver" lib in
  let lib := Str.replace "libmkl_sequential" "libmkl_intel_thread" lib
             +:+ " -liomp5 -lpthread" in
  setvar "LIBSCALAPACK_MT" lib >>
  let! imkl := environ_getitem "SOFTVERSIONIMKL" in
  let! dirs :=
    if LooseVersion_lt h imkl "10.3" then
      ret (if truthy b32 then ["lib/32"] else ["lib/em64t"],
           ["include"; "include/fftw"])
    else
      (* [os.environ("SOFTROOTIMKL")] calls the environment object *)
      when (truthy b32)
        (raise (AttributeError "_Environ instance has no __call__ method")) >>
      for_each ["LIBBLAS"; "LIBBLAS_MT"; "LIBLAPACK"; "LIBLAPACK_MT";
                "LIBSCALAPACK"; "LIBSCALAPACK_MT"]
        (replace_in_var "/lib/em64t/" "/mkl/lib/intel64/") >>
      ret (["lib/intel64"; "mkl/lib/intel64"],
           ["mkl/include"; "mkl/include/fftw"]) in
  let '(mklld, mklcpp) := dirs in
  _flagsForSubdirs mklRoot mklld "-L%s" "LDFLAGS" >>
  _flagsForSubdirs mklRoot mklcpp "-I%s" "CPPFLAGS" >>
  let! gcc := env_set "SOFTROOTGCC" in
  when gcc
    (let! gcc1 := env_set "SOFTROOTGCC" in
     let! gcc2 := env_set "SOFTROOTGCC" in
     if negb (gcc1 || gcc2) then
       for_each ["LIBLAPACK"; "LIBLAPACK_MT"; "LIBSCALAPACK"; "LIBSCALAPACK_MT"]
         (replace_in_var "mkl_intel_lp64" "mkl_gf_lp64")
     else
       log_error "prepareIMKL"
         "Toolkit preparation with both GCC and Intel compilers loaded is not supported.").

Definition prepareIMPI : M unit :=
  let! icc := env_set "SOFTROOTICC" in
  let! ifort := env_set "SOFTROOTIFORT" in
  let! gcc := env_set "SOFTROOTGCC" in
  let! st := get in
  if icc && ifort && negb gcc then
    setvar "MPICC" ("mpiicc " +:+ st.(m32flag)) >>
    setvar "MPICXX" ("mpiicpc " +:+ st.(m32flag)) >>
    setvar "MPIF77" ("mpiifort " +:+ st.(m32flag)) >>
    setvar "MPIF90" ("mpiifort " +:+ st.(m32flag)) >>
    let! usempi := opt "usempi" in
    when (truthy usempi) use_mpi_compilers >>
    setvar "I_MPI_CXX" "icpc" >>
    setvar "I_MPI_CC" "icc" >>
    let! cciscxx := opt "cciscxx" in
    when (truthy cciscxx) (let! cc := var "MPICC" in setvar "MPICXX" cc)
  else
    let! cc := var "CC" in
    setvar "MPICC" ("mpicc -cc=" +:+ cc +:+ " " +:+ st.(m32flag) +:+ " ") >>
    let! cxx := var "CXX" in
    setvar "MPICXX" ("mpicxx -cxx=" +:+ cxx +:+ " " +:+ st.(m32flag) +:+ " ") >>
    let! f77 := var "F77" in
    setvar "MPIF77" ("mpif77 -fc=" +:+ f77 +:+ " " +:+ st.(m32flag) +:+ " ") >>
    let! f90 := var "F90" in
    setvar "MPIF90" ("mpif90 -fc=" +:+ f90 +:+ " " +:+ st.(m32flag) +:+ " ").

Definition prepareQLogicMPI : M unit :=
  let! cc := getenv "CC" in
  setvar "MPICC" ("mpicc -cc=" +:+ dq +:+ str_of_opt cc +:+ dq) >>
  let! cxx := getenv "CXX" in
  setvar "MPICXX" ("mpicxx -CC=" +:+ dq +:+ str_of_opt cxx +:+ dq) >>
  let! f77 := getenv "F77" in
  setvar "MPIF77" ("mpif77 -fc=" +:+ dq +:+ str_of_opt f77 +:+ dq) >>
  let! f90 := getenv "F90" in
  setvar "MPIF90" ("mpif90 -f90=" +:+ dq +:+ str_of_opt f90 +:+ dq) >>
  let! usempi := opt "usempi" in
  when (truthy usempi) use_mpi_compilers.

Definition prepareLAPACK : M unit :=
  let! blas := var "LIBBLAS" in
  setvar "LIBLAPACK" (blas +:+ " -llapack") >>
  let! blas_mt := var "LIBBLAS_MT" in
  setvar "LIBLAPACK_MT" (blas_mt +:+ " -llapack -lpthread") >>
  _addDependencyVariables (DepDict {["name" := VStr "LAPACK"]}).

Definition prepareMPICH2 : M unit :=
  let! ver := getenv "SOFTVERSIONMPICH2" in
  let! ver :=
    match ver with
    | Some v => ret v
    | None => raise (TypeError "argument of type 'NoneType' is not iterable")
    end in
  if Str.contains "vSMP" ver then
    let! st := get in
    let! cc := getenv "CC" in
    setvar "MPICC"
      ("mpicc -cc=" +:+ dq +:+ str_of_opt cc +:+ " " +:+ st.(m32flag) +:+ dq) >>
    let! cxx := getenv "CXX" in
    setvar "MPICXX"
      ("mpicxx -CC=" +:+ dq +:+ str_of_opt cxx +:+ " " +:+ st.(m32flag) +:+ dq) >>
    let! f77 := getenv "F77" in
    setvar "MPIF77"
      ("mpif77 -fc=" +:+ dq +:+ str_of_opt f77 +:+ " " +:+ st.(m32flag) +:+ dq) >>
    let! f90 := getenv "F90" in
    setvar "MPIF90"
      ("mpif90 -f90=" +:+ dq +:+ str_of_opt f90 +:+ " " +:+ st.(m32flag) +:+ dq) >>
    let! cciscxx := opt "cciscxx" in
    when (truthy cciscxx) (let! cc := var "MPICC" in setvar "MPICXX" cc) >>
    let! usempi := opt "usempi" in
    when (truthy usempi) use_mpi_compilers
  else
    (* [self.log]: the instance has no such attribute, [log] is a global of
       the module *)
    raise (AttributeError "Toolkit instance has no attribute 'log'").

Definition prepareSimpleMPI : M unit :=
  let! st := get in
  setvar "MPICC" ("mpicc " +:+ st.(m32flag)) >>
  setvar "MPICXX" ("mpicxx " +:+ st.(m32flag)) >>
  setvar "MPIF77" ("mpif77 " +:+ st.(m32flag)) >>
  setvar "MPIF90" ("mpif90 " +:+ st.(m32flag)) >>
  let! cciscxx := opt "cciscxx" in
  when (truthy cciscxx) (let! cc := var "MPICC" in setvar "MPICXX" cc) >>
  let! usempi := opt "usempi" in
  when (truthy usempi) use_mpi_compilers.

Definition prepareMVAPICH2 : M unit := prepareSimpleMPI.

Definition prepareOpenMPI : M unit := prepareSimpleMPI.

Definition prepareScaLAPACK : M unit :=
  addvar "LIBSCALAPACK" " -lscalapack" >>
  let! old := var "LIBSCALAPACK_MT" in
  let! lib := var "LIBSCALAPACK" in
  setvar "LIBSCALAPACK_MT" (old +:+ " " +:+ lib +:+ " -lpthread") >>
  _addDependencyVariables (DepDict {["name" := VStr "ScaLAPACK"]}).

(** ** [_generate_variables] *)

(** The bound methods that the rule table holds. *)
Inductive method :=
  | m_prepareGCC | m_prepareIcc
  | m_prepareIMPI | m_prepareMPICH2 | m_prepareMVAPICH2 | m_prepareOpenMPI
  | m_prepareQLogicMPI
  | m_prepareATLAS | m_prepareFFTW | m_prepareGotoBLAS | m_prepareIMKL
  | m_prepareLAPACK
  | m_prepareBLACS | m_prepareFLAME
  | m_prepareScaLAPACK.

(** Calling a bound method. *)
Definition call (m : method) : M unit :=
  match m with
  | m_prepareGCC => prepareGCC
  | m_prepareIcc => prepareIcc
  | m_prepareIMPI => prepareIMPI
  | m_prepareMPICH2 => prepareMPICH2
  | m_prepareMVAPICH2 => prepareMVAPICH2
  | m_prepareOpenMPI => prepareOpenMPI
  | m_prepareQLogicMPI => prepareQLogicMPI
  | m_prepareATLAS => prepareATLAS
  | m_prepareFFTW => prepareFFTW
  | m_prepareGotoBLAS => prepareGotoBLAS
  | m_prepareIMKL => prepareIMKL
  | m_prepareLAPACK => prepareLAPACK
  | m_prepareBLACS => prepareBLACS
  | m_prepareFLAME => prepareFLAME
  | m_prepareScaLAPACK => prepareScaLAPACK
  end.

Definition known_preparation_methods : gmap string method :=
  list_to_map
    [("1_GCC", m_prepareGCC); ("1_icc", m_prepareIcc);
     ("2_impi", m_prepareIMPI); ("2_MPICH2", m_prepareMPICH2);
     ("2_MVAPICH2", m_prepareMVAPICH2); ("2_OpenMPI", m_prepareOpenMPI);
     ("2_QLogicMPI", m_prepareQLogicMPI);
     ("3_ATLAS", m_prepareATLAS); ("3_FFTW", m_prepareFFTW);
     ("3_GotoBLAS", m_prepareGotoBLAS); ("3_imkl", m_prepareIMKL);
     ("4_LAPACK", m_prepareLAPACK);
     ("5_BLACS", m_prepareBLACS); ("5_FLAME", m_prepareFLAME);
     ("6_ScaLAPACK", m_prepareScaLAPACK)].

(** [meth_keys] after [meth_keys.sort()] *)
Definition meth_keys : list string :=
  merge_sort String.le (keys known_preparation_methods).

(** ['_'.join(meth.split('_')[1:])] *)
Definition meth_name (meth : string) : string :=
  Str.join "_" (tail (Str.split "_" meth)).

(** The inner loop: the first key whose name matches [dep], if any. *)
Fixpoint find_meth (dep : string) (ks : list string) : option string :=
  match ks with
  | [] => None
  | meth :: rest =>
      if String.eqb (Str.lower dep) (Str.lower (meth_name meth)) then Some meth
      else find_meth dep rest
  end.

(** [depnames]: the lower-cased [name] of every toolkit dependency. *)
Fixpoint depnames_of (deps : list dict) : M (list string) :=
  match deps with
  | [] => ret []
  | dep :: rest =>
      let! n := getitem dep "name" in
      match n with
      | VStr s =>
          let! r := depnames_of rest in
          ret (Str.lower s :: r)
      | VNone | VBool _ => raise (AttributeError "object has no attribute 'lower'")
      end
  end.

(** The outer loop: one method per dependency name, in the order of the
    names; an unknown name is fatal. *)
Fixpoint select_methods (depnames : list string) (acc : list method) : M (list method) :=
  match depnames with
  | [] => ret acc
  | dep :: rest =>
      match find_meth dep meth_keys with
      | Some meth =>
          let! m := getitem known_preparation_methods meth in
          select_methods rest (acc ++ [m])
      | None =>
          log_error "_generate_variables"
            ("Don't know how to prepare for toolkit dependency " +:+ dep)
      end
  end.

Definition _generate_variables : M unit :=
  let! st := get in
  let! depnames := depnames_of st.(toolkit_deps) in
  let! preparation_methods := select_methods depnames [] in
  setvar "LDFLAGS" EmptyString >>
  setvar "CPPFLAGS" EmptyString >>
  setvar "LIBS" EmptyString >>
  for_each preparation_methods call >>
  match preparation_methods with
  | [] =>
      match known_preparation_methods !! st.(name) with
      | Some m => call m
      | None =>
          log_error "_generate_variables"
            ("Don't know how to prepare toolkit '" +:+ st.(name) +:+ "'.")
      end
  | _ :: _ => ret tt
  end.

(** ** [prepare] *)

(** [l.remove(x)]: the first element equal to [x] goes. *)
Fixpoint list_remove_first (x : dict) (l : list dict) : list dict :=
  match l with
  | [] => []
  | y :: r => if bool_decide (x = y) then r else y :: list_remove_first x r
  end.

(** [for dep in self.toolkit_deps: ...] of lines 158 to 161. The list is
    changed while it is walked: the iterator holds a position [i], stops when
    [i] is past the end of the list as it is then, and moves on by one after
    every element, removed or not. [fuel] bounds the number of rounds. *)
Fixpoint remove_loaded_loop (fuel : nat) (prev_loaded_modules : list dict)
    (i : nat) : M unit :=
  match fuel with
  | O => ret tt
  | S fuel =>
      let! st := get in
      match st.(toolkit_deps) !! i with
      | None => ret tt
      | Some dep =>
          let! c :=
            if bool_decide (dep ∈ prev_loaded_modules) then ret true
            else
              let! n := getitem dep "name" in
              ret (bool_decide (VStr st.(name) = n)) in
          when c (modify (set_toolkit_deps (list_remove_first dep st.(toolkit_deps)))) >>
          remove_loaded_loop fuel prev_loaded_modules (S i)
      end
  end.

(** The list has at most [length] elements to visit. *)
Definition remove_loaded (prev_loaded_modules : list dict) : M unit :=
  let! st := get in
  remove_loaded_loop (S (length st.(toolkit_deps))) prev_loaded_modules 0.

(** [modules.addModule(reqs); modules.load()] *)
Definition load_modules (reqs : list modreq) : M unit :=
  modify (fun st => set_process (mod_load h reqs st.(environ) st.(loaded_modules)) st).

Definition prepare (onlymod : pyarg) : M unit :=
  let! ex := _toolkitExists in
  let! st := get in
  when (negb ex)
    (log_error "prepare"
       ("No module found for toolkit name '" +:+ st.(name) +:+ "' (" +:+
        st.(version) +:+ ")")) >>
  if String.eqb st.(name) "dummy" then
    if String.eqb st.(version) "dummy" then ret tt
    else load_modules (ReqDict <$> st.(dependencies))
  else
    let prev_loaded_modules := st.(loaded_modules) in
    load_modules [ReqTuple st.(name) st.(version)] >>
    let! st1 := get in
    modify (set_toolkit_deps st1.(loaded_modules)) >>
    remove_loaded prev_loaded_modules >>
    load_modules (ReqDict <$> st.(dependencies)) >>
    _determineArchitecture >>
    _generate_variables >>
    match onlymod with
    | ABool true => ret tt
    | _ => _addDependencyVariables DepNone >> _setVariables onlymod
    end.

End Toolkit.

(** ** Vocabulary of the statements *)

(** [st] with more log entries. *)
Definition add_logs (ws : list (level * string)) (st : State) : State :=
  mkState st.(name) st.(version) st.(dependencies) st.(vars) st.(arch)
          st.(toolkit_deps) st.(m32flag) st.(opts) st.(environ)
          st.(loaded_modules) (st.(log) ++ ws).

(** A flag template [pre%s] whose prefix holds no conversion. *)
Fixpoint percent_free (s : string) : bool :=
  match s with
  | EmptyString => true
  | String c r => negb (Ascii.eqb c "%") && percent_free r
  end.

Section Vocabulary.

Context (h : Host).

(** The subdirectories of [base] that exist, and the flags they give. *)
Definition existing (base : string) (subdirs : list string) : list string :=
  List.filter (fun sd => isdir h (Str.path_join base sd)) subdirs.

Definition flags_of (pre base : string) (subdirs : list string) : list string :=
  (fun sd => pre +:+ Str.path_join base sd) <$> existing base subdirs.

(** One warning per subdirectory that does not exist. *)
Definition missing_warnings (base : string) (subdirs : list string)
  : list (level * string) :=
  (fun sd => (WARNING, "Directory " +:+ Str.path_join base sd +:+ " was not found"))
    <$> List.filter (fun sd => negb (isdir h (Str.path_join base sd))) subdirs.

(** The state after the two path-flag calls of [_addDependencyVariables]
    for an installation root [root]. *)
Definition with_dep_flags (root : string) (st : State) : State :=
  let st1 :=
    set_vars <["CPPFLAGS" := default EmptyString (vars st !! "CPPFLAGS") +:+ " " +:+
                             Str.join " " (flags_of "-I" root ["include"])]>
      (add_logs (missing_warnings root ["include"]) st) in
  set_vars <["LDFLAGS" := default EmptyString (vars st1 !! "LDFLAGS") +:+ " " +:+
                          Str.join " " (flags_of "-L" root ["lib64"; "lib"])]>
    (add_logs (missing_warnings root ["lib64"; "lib"]) st1).

(** The message of the error for a library without installation root. *)
Definition not_found_msg (n : string) : string :=
  "EasyBuild crashed with an error " +:+ callerInfo h "_addDependencyVariables" +:+
  ": " +:+ n +:+ " was not found in environment (dep: " +:+
  dict_repr h {["name" := VStr n]} +:+ ")".

(** The installation root of [n], when it is set and not empty. *)
Definition root_found (st : State) (n : string) : option string :=
  match getSoftwareRoot h (environ st) (VStr n) with
  | Some r => if String.eqb r EmptyString then None else Some r
  | None => None
  end.

End Vocabulary.

Arguments with_dep_flags : simpl never.

Definition undefined_warning (k : string) : level * string :=
  (WARNING, "Undefined toolkit option " +:+ k +:+ " specified.").

(** The keys of [ks] that the option table does not have. *)
Definition undefined_keys (o : gmap string value) (ks : list string) : list string :=
  List.filter (fun k => bool_decide (o !! k = None)) ks.

(** Everything but the option table and the log is as before. *)
Definition same_toolkit (st st' : State) : Prop :=
  name st' = name st /\ version st' = version st /\
  dependencies st' = dependencies st /\ vars st' = vars st /\
  arch st' = arch st /\ toolkit_deps st' = toolkit_deps st /\
  m32flag st' = m32flag st /\ environ st' = environ st /\
  loaded_modules st' = loaded_modules st.

(** What one round of [_setVariables] does to the environment. *)
Definition apply_var (ds : list string) (env : gmap string string)
    (kv : string * string) : gmap string string :=
  if bool_decide (kv.1 ∈ ds) then env
  else <["SOFTVAR" +:+ kv.1 := kv.2]> (<[kv.1 := kv.2]> env).

(** No key is the mirror name [SOFTVAR<key>] of a key. *)
Definition no_clash (ks : list string) : Prop :=
  forall k k', k ∈ ks -> k' ∈ ks -> k <> "SOFTVAR" +:+ k'.

Definition no_clashb (ks : list string) : bool :=
  forallb (fun k => forallb (fun k' => negb (String.eqb k ("SOFTVAR" +:+ k'))) ks) ks.

(** The priority that a key of the rule table carries before its first
    underscore. *)
Definition priority (meth : string) : string := hd EmptyString (Str.split "_" meth).

(** ** A host and toolkits to run the model on *)

Definition upper_ascii (c : ascii) : ascii :=
  let n := nat_of_ascii c in
  if (97 <=? n)%nat && (n <=? 122)%nat then ascii_of_nat (n - 32) else c.

Fixpoint upper (s : string) : string :=
  match s with
  | EmptyString => EmptyString
  | String c r => String (upper_ascii c) (upper r)
  end.

Definition module_ (n v : string) : dict := {["name" := VStr n; "version" := VStr v]}.

Definition demo_dirs : list string :=
  ["/opt/ATLAS/include"; "/opt/ATLAS/lib"; "/opt/LAPACK/lib"; "/opt/BLACS/lib";
   "/opt/ScaLAPACK/lib"; "/opt/imkl/lib/em64t"; "/opt/imkl/include"].

(** Loading the toolkit module brings a compiler and an MPI library with it;
    a dependency brings itself. *)
Definition demo_provides (r : modreq) : list dict :=
  match r with
  | ReqTuple n v => [module_ "GCC" "4.6.3"; module_ "OpenMPI" "1.4.5"; module_ n v]
  | ReqDict d => [d]
  end.

(** A loaded module sets its [SOFTROOT] and [SOFTVERSION] variables. *)
Definition demo_setenv (env : gmap string string) (m : dict) : gmap string string :=
  match m !! "name", m !! "version" with
  | Some (VStr n), Some (VStr v) =>
      <["SOFTROOT" +:+ upper n := "/opt/" +:+ n]>
        (<["SOFTVERSION" +:+ upper n := v]> env)
  | _, _ => env
  end.

Definition demo_host : Host :=
  mkHost
    (fun d => bool_decide (d ∈ demo_dirs))
    (fun env n => env !! ("SOFTROOT" +:+ upper (str_of n)))
    (fun fn => "(at easybuild/tools/toolkit.py in " +:+ fn +:+ ")")
    (fun a b => bool_decide ((a, b) ∈ [("10.2.6.038", "10.3"); ("11.1.075", "2011")]))
    (Some "GenuineIntel")
    (fun _ _ => true)
    (fun _ _ => [])
    (fun reqs env l =>
       let ms := concat (demo_provides <$> reqs) in
       (foldl demo_setenv env ms, l ++ ms))
    (fun d => "{'name': '" +:+ str_of (default VNone (d !! "name")) +:+ "'}").

(** Toolkit [goalf/1.1.0] in a process that has [zlib] and [ncurses] loaded. *)
Definition goalf : State :=
  init "goalf" "1.1.0" ∅ [module_ "zlib" "1.2.5"; module_ "ncurses" "5.9"].

(** Toolkit [GCC/4.6.3], nothing loaded. *)
Definition gcc463 : State := init "GCC" "4.6.3" ∅ [].

(** A toolkit whose math libraries have their roots in the environment. *)
Definition with_math_roots : State :=
  init "goalf" "1.1.0"
    (list_to_map [("SOFTROOTATLAS", "/opt/ATLAS"); ("SOFTROOTLAPACK", "/opt/LAPACK");
                  ("SOFTROOTBLACS", "/opt/BLACS"); ("SOFTROOTSCALAPACK", "/opt/ScaLAPACK")])
    [].

(** MKL 10.2 with GCC loaded and no Intel compiler. *)
Definition imkl_gcc : State :=
  init "gimkl" "1.0"
    (list_to_map [("MKLROOT", "/opt/imkl"); ("SOFTVERSIONIMKL", "10.2.6.038");
                  ("SOFTROOTGCC", "/opt/GCC")])
    [].

(** The same without GCC. *)
Definition imkl_only : State :=
  init "gimkl" "1.0"
    (list_to_map [("MKLROOT", "/opt/imkl"); ("SOFTVERSIONIMKL", "10.2.6.038")])
    [].

(** An MPICH2 that is not ScaleMP's. *)
Definition mpich2_plain : State :=
  init "gmpich2" "1.0" (list_to_map [("SOFTVERSIONMPICH2", "1.4.1")]) [].

(** A toolkit whose [vars] hold one compiler flag variable. *)
Definition cflags_only : State := set_vars <["CFLAGS" := "-O2"]> gcc463.

(** Two orders of the same two toolkit dependencies. *)
Definition lapack_first : State :=
  set_toolkit_deps [module_ "LAPACK" "3.4.0"; module_ "ATLAS" "3.8.4"] with_math_roots.

Definition atlas_first : State :=
  set_toolkit_deps [module_ "ATLAS" "3.8.4"; module_ "LAPACK" "3.4.0"] with_math_roots.

(** A toolkit without dependencies of its own, right behind a module that
    was loaded before. *)
Definition goalf_alone : State :=
  set_toolkit_deps [module_ "zlib" "1.2.5"; module_ "goalf" "1.1.0"]
    (init "goalf" "1.1.0" ∅ [module_ "zlib" "1.2.5"]).

(** ** Vocabulary of the pipeline and of the MKL rule *)

(** The method that the rule table gives for a dependency name. *)
Definition method_for (dep : string) (m : method) : Prop :=
  exists meth, find_meth dep meth_keys = Some meth /\
               known_preparation_methods !! meth = Some m.

(** The operation leaves [os.environ] alone, whether it returns or raises. *)
Definition env_stable {A} (m : M A) : Prop :=
  forall st, environ (m st).2 = environ st.

(** GCC is loaded: its root is in the environment. *)
Definition gcc_loaded (st : State) : Prop :=
  exists g, environ st !! "SOFTROOTGCC" = Some g /\ g <> EmptyString.

(** The operation never returns normally while GCC is loaded. *)
Definition fatal_with_gcc {A} (m : M A) : Prop :=
  forall st, gcc_loaded st -> forall a, (m st).1 <> Ok a.

(** ** Vocabulary of the further properties *)

(** The message of [prepare] for a toolkit without module. *)
Definition no_toolkit_msg (h : Host) (st : State) : string :=
  "EasyBuild crashed with an error " +:+ callerInfo h "prepare" +:+
  ": No module found for toolkit name '" +:+ name st +:+ "' (" +:+
  version st +:+ ")".

(** The state of [prepare] right after the toolkit module is loaded:
    [toolkit_deps] holds everything that is loaded then. *)
Definition toolkit_loaded (h : Host) (st : State) : State :=
  let st1 := set_process (mod_load h [ReqTuple (name st) (version st)]
                            (environ st) (loaded_modules st)) st in
  set_toolkit_deps (loaded_modules st1) st1.

(** The environment once the dependencies are loaded too. *)
Definition all_loaded_environ (h : Host) (st : State) : gmap string string :=
  (mod_load h (ReqDict <$> dependencies st)
     (environ (toolkit_loaded h st)) (loaded_modules (toolkit_loaded h st))).1.

(** The message of [_generate_variables] for a dependency without rule. *)
Definition unknown_dependency_msg (h : Host) (dep : string) : string :=
  "EasyBuild crashed with an error " +:+ callerInfo h "_generate_variables" +:+
  ": Don't know how to prepare for toolkit dependency " +:+ dep.

(** The message of [_generate_variables] when the fallback on the toolkit
    name fails. *)
Definition unknown_toolkit_msg (h : Host) (n : string) : string :=
  "EasyBuild crashed with an error " +:+ callerInfo h "_generate_variables" +:+
  ": Don't know how to prepare toolkit '" +:+ n +:+ "'.".

(** The three variables that [_generate_variables] starts from. *)
Definition with_empty_flags (st : State) : State :=
  set_vars (fun v => <["LIBS" := EmptyString]>
                       (<["CPPFLAGS" := EmptyString]>
                          (<["LDFLAGS" := EmptyString]> v))) st.

(** The test of line 160: the module was loaded before, or it has the name
    of the toolkit. *)
Definition to_remove (prev : list dict) (nm : string) (dep : dict) : bool :=
  bool_decide (dep ∈ prev) || bool_decide (dep !! "name" = Some (VStr nm)).

(** No module to remove is followed at once by another one. *)
Fixpoint isolated (f : dict -> bool) (l : list dict) : bool :=
  match l with
  | a :: (b :: _) as r => (if f a then negb (f b) else true) && isolated f r
  | _ => true
  end.

(** Every module that was not loaded before has a [name]. *)
Definition named (prev : list dict) (l : list dict) : Prop :=
  Forall (fun dep => dep ∈ prev \/ is_Some (dep !! "name")) l.


(** The message of [getDependencyVersion] when no version is available. *)
Definition no_version_msg (h : Host) (n : value) (suffix : string) : string :=
  "EasyBuild crashed with an error " +:+ callerInfo h "getDependencyVersion" +:+
  ": No toolkit version for dependency name " +:+ str_of n +:+
  " (suffix " +:+ suffix +:+ ") found".

(** The message of [prepareGCC] for a 32-bit toolkit. *)
Definition gcc_32bit_msg (h : Host) : string :=
  "EasyBuild crashed with an error " +:+ callerInfo h "prepareGCC" +:+
  ": ERROR: 32-bit not supported yet for GCC based toolkits.".

(** The option table has the keys that the constructor gives it. *)
Definition constructed_opts (st : State) : Prop := dom (opts st) = dom default_opts.

(** The flag table of [prepareGCC]. *)
Definition gcc_flagOptions : gmap string flagval :=
  list_to_map
    [("i8", FStr "fdefault-integer-8"); ("unroll", FStr "funroll-loops");
     ("f2c", FStr "ff2c");
     ("loop", FList ["ftree-switch-conversion"; "floop-interchange";
                     "floop-strip-mine"; "floop-block"])]
  ∪ flagOptions.

(** The level that [_getOptimizationLevel] picks from an option table. *)
Definition level_of (o : gmap string value) : string :=
  if from_option truthy false (o !! "noopt") then "O0"
  else if from_option truthy false (o !! "opt") then "O3"
  else if from_option truthy false (o !! "lowopt") then "O1"
  else "O2".

(** The flag table of [prepareIcc]. *)
Definition icc_flagOptions : gmap string flagval :=
  list_to_map [("intel-static", FStr "static-intel"); ("no-icc", FStr "no-icc")]
  ∪ flagOptions.

(** The OpenMP libraries that [prepareIcc] adds to [LIBS]. *)
Definition icc_libs (h : Host) (icc : string) : string :=
  if LooseVersion_lt h icc "2011" then " -liomp5 -lguide -lpthread"
  else " -liomp5 -lpthread".

(** The message of [prepareIMKL] without [MKLROOT]. *)
Definition mklroot_msg (h : Host) : string :=
  "EasyBuild crashed with an error " +:+ callerInfo h "prepareIMKL" +:+
  ": MKLROOT not found in environment".

(** A compiler of the environment as [prepareQLogicMPI] quotes it. *)
Definition quoted_env (st : State) (k : string) : string :=
  dq +:+ str_of_opt (environ st !! k) +:+ dq.

(** [st'] is [st] with other values of [vars] at the keys that satisfy [P]
    and with more log records: every other attribute, the environment and
    the loaded modules are the same. *)
Definition extends (P : string -> Prop) (st st' : State) : Prop :=
  name st' = name st /\ version st' = version st /\
  dependencies st' = dependencies st /\ arch st' = arch st /\
  toolkit_deps st' = toolkit_deps st /\ m32flag st' = m32flag st /\
  opts st' = opts st /\ environ st' = environ st /\
  loaded_modules st' = loaded_modules st /\
  (forall k, ~ P k -> vars st' !! k = vars st !! k) /\
  log st `prefix_of` log st'.

(** A computation that, returning or raising, only [extends] the state. *)
Definition frame {A} (P : string -> Prop) (m : M A) : Prop :=
  forall st, extends P st (m st).2.

(** The two variables of [_addDependencyVariables]. *)
Definition path_flag (k : string) : Prop := k = "CPPFLAGS" \/ k = "LDFLAGS".

(** [bool(os.getenv(k))] in a given environment. *)
Definition env_true (env : gmap string string) (k : string) : bool :=
  match env !! k with
  | Some s => negb (String.eqb s EmptyString)
  | None => false
  end.

(** The test of [prepareIMPI] for an Intel-based toolkit. *)
Definition intel_based (env : gmap string string) : bool :=
  env_true env "SOFTROOTICC" && env_true env "SOFTROOTIFORT" &&
  negb (env_true env "SOFTROOTGCC").

(** ** [build_log.py]: the caller's position and the name of the log file *)

Module BuildLog.

(** [l.remove(x)]: the first occurrence of [x] goes; [None] stands for the
    [ValueError] that Python raises when there is none. *)
Fixpoint remove (x : string) (l : list string) : option (list string) :=
  match l with
  | [] => None
  | y :: r => if String.eqb x y then Some r else (y ::.) <$> remove x r
  end.

(** The loop of [callerInfo], lines 55 to 59: it walks a copy of
    [filepath_dirs] and removes from [filepath_dirs] itself. *)
Fixpoint strip_dirs (copy filepath_dirs : list string) : option (list string) :=
  match copy with
  | [] => Some filepath_dirs
  | dirName :: rest =>
      if negb (String.eqb dirName "easybuild")
      then remove dirName filepath_dirs ≫= strip_dirs rest
      else Some filepath_dirs
  end.

(** [callerInfo], given what [findCaller] returns. *)
Definition callerInfo (caller : string * Z * string) : option string :=
  let '(filepath, line, function_name) := caller in
  let filepath_dirs := Str.split "/" filepath in
  dirs ← strip_dirs filepath_dirs filepath_dirs;
  Some ("(at " +:+ Str.join "/" dirs +:+ ":" +:+ pretty line +:+ " in " +:+
        function_name +:+ ")").

(** The loop of [logFilename], lines 155 to 158, over the files that exist;
    [fuel] bounds the number of rounds. *)
Fixpoint logFilename_loop (fuel : nat) (files : gset string)
    (filename : string) (counter : Z) : option string :=
  match fuel with
  | O => None
  | S fuel =>
      if bool_decide (filename ∈ files) then
        let counter := (counter + 1)%Z in
        logFilename_loop fuel files (filename +:+ "." +:+ pretty counter) counter
      else Some filename
  end.

(** [logFilename], where [formatted] is what the log format of the
    configuration gives for the name, the version, the date and the time.
    One round more than there are files is enough. *)
Definition logFilename (files : gset string) (formatted : string) : option string :=
  logFilename_loop (S (size files)) files ("/tmp/" +:+ formatted) 1.

End BuildLog.

(** The name of the log file after [n] rounds: every round appends a dot
    and its number, starting at [2]. *)
Fixpoint numbered (base : string) (n : nat) : string :=
  match n with
  | O => base
  | S n => numbered base n +:+ "." +:+ pretty (Z.of_nat (S (S n)))
  end.

(** ** More hosts and toolkits to run the model on *)

(** A host whose module system has no module at all. *)
Definition no_modules (h : Host) : Host :=
  mkHost (isdir h) (getSoftwareRoot h) (callerInfo h) (LooseVersion_lt h)
         (vendor_id h) (fun _ _ => false) (fun _ _ => [])
         (mod_load h) (dict_repr h).

(** A host that has two versions of every module. *)
Definition stocked (h : Host) : Host :=
  mkHost (isdir h) (getSoftwareRoot h) (callerInfo h) (LooseVersion_lt h)
         (vendor_id h) (mod_exists h)
         (fun _ suffix => ["1.0" +:+ suffix; "2.0" +:+ suffix])
         (mod_load h) (dict_repr h).

(** The dummy toolkit. *)
Definition dummy_toolkit : State := init "dummy" "dummy" ∅ [].

(** A 32-bit GCC toolkit. *)
Definition gcc463_32bit : State := init "GCC" "4.6.3-32bit" ∅ [].

(** A toolkit whose own dependencies include a library without rule. *)
Definition goalf_with_ncurses : State :=
  set_toolkit_deps [module_ "GCC" "4.6.3"; module_ "ncurses" "5.9";
                    module_ "OpenMPI" "1.4.5"] goalf.

(** The modules loaded for [goalf] after [zlib]. *)
Definition goalf_after_zlib : State :=
  set_toolkit_deps [module_ "zlib" "1.2.5"; module_ "GCC" "4.6.3";
                    module_ "OpenMPI" "1.4.5"; module_ "goalf" "1.1.0"]
    (init "goalf" "1.1.0" ∅ [module_ "zlib" "1.2.5"]).

(** An Intel toolkit with the compilers loaded, the architecture detected,
    [LIBS] started, and both [usempi] and [cciscxx] asked for. *)
Definition ictce : State :=
  set_opts (fun o => <["usempi" := VBool true]> (<["cciscxx" := VBool true]> o))
    (set_arch (Some "Intel")
       (set_vars <["LIBS" := EmptyString]>
          (init "ictce" "4.0.6"
             (list_to_map [("SOFTROOTICC", "/opt/icc"); ("SOFTROOTIFORT", "/opt/ifort");
                           ("SOFTVERSIONICC", "2011.6.233")])
             []))).

(** A toolkit with FFTW 3 loaded. *)
Definition with_fftw3 : State :=
  init "goalf" "1.1.0" (list_to_map [("SOFTVERSIONFFTW", "3.3.1")]) [].

(** Toolkit [goalf/1.1.0], nothing loaded. *)
Definition goalf_fresh : State := init "goalf" "1.1.0" ∅ [].

(** * Properties *)

(** Running the small operations of the monad. *)
Ltac mrun :=
  cbv beta iota delta
    [addvar var opt setvar getenv environ_getitem env_set getitem when
     log_warning replace_in_var bind get ret modify raise].

(** Lookups in a map after a series of updates at literal keys. *)
Ltac lk := repeat first [rewrite lookup_insert_eq | rewrite lookup_insert_ne by done].

(** ** Strings *)

Lemma app_cons c s t : String c s +:+ t = String c (s +:+ t).
Proof. reflexivity. Qed.

Lemma app_nil_right s : s +:+ EmptyString = s.
Proof. induction s as [|c s IH]; [done|]. by rewrite app_cons, IH. Qed.

Lemma length_app s t : String.length (s +:+ t) = String.length s + String.length t.
Proof. induction s as [|c s IH]; [done|]. rewrite app_cons. simpl. by rewrite IH. Qed.

Lemma app_neq_self s t : t <> EmptyString -> s +:+ t <> s.
Proof.
  intros Ht Heq. apply (f_equal String.length) in Heq. rewrite length_app in Heq.
  destruct t; [done|]. simpl in Heq. lia.
Qed.

Lemma format_go_prefix pre d :
  percent_free pre = true ->
  Str.format_go (pre +:+ "%s") (Some d) = Some (pre +:+ d).
Proof.
  induction pre as [|c pre IH]; intros Hp.
  - unfold String.app; simpl. by rewrite app_nil_right.
  - simpl in Hp. apply andb_prop in Hp as [Hc Hp].
    rewrite !app_cons. simpl. destruct (Ascii.eqb c "%"); [done|].
    by rewrite IH.
Qed.

(** ** The log *)

Lemma add_logs_nil st : add_logs [] st = st.
Proof. destruct st; unfold add_logs; simpl. by rewrite app_nil_r. Qed.

Lemma add_logs_app ws1 ws2 st :
  add_logs ws2 (add_logs ws1 st) = add_logs (ws1 ++ ws2) st.
Proof. unfold add_logs; simpl. by rewrite app_assoc. Qed.

Lemma add_log_add_logs lv msg st : add_log lv msg st = add_logs [(lv, msg)] st.
Proof. reflexivity. Qed.

(** ** Loops *)

Lemma for_each_cons {A} (x : A) r body st :
  for_each (x :: r) body st =
    match body x st with
    | (Ok _, st') => for_each r body st'
    | (Raise e, st') => (Raise e, st')
    end.
Proof. reflexivity. Qed.

Section PathFlags.

Context (h : Host).

(** ** [_flagsForSubdirs] and [_addDependencyVariables] *)

Lemma flagsForSubdirs_loop_ok base subdirs pre flags st :
  percent_free pre = true ->
  _flagsForSubdirs_loop h base subdirs (pre +:+ "%s") flags st =
    (Ok (flags ++ flags_of h pre base subdirs),
     add_logs (missing_warnings h base subdirs) st).
Proof.
  intros Hp. revert flags st.
  induction subdirs as [|sd subdirs IH]; intros flags st; simpl.
  - unfold ret, flags_of. simpl. by rewrite app_nil_r, add_logs_nil.
  - unfold flags_of, existing, missing_warnings in *. simpl.
    destruct (isdir h (Str.path_join base sd)) eqn:Hd; simpl.
    + unfold Str.format1. rewrite format_go_prefix by done.
      rewrite IH. by rewrite <- app_assoc.
    + unfold bind, log_warning, modify. rewrite IH.
      by rewrite add_log_add_logs, add_logs_app.
Qed.

Lemma flagsForSubdirs_run base subdirs pre varskey st :
  percent_free pre = true ->
  _flagsForSubdirs h base subdirs (pre +:+ "%s") varskey st =
    (Ok tt,
     set_vars <[varskey := default EmptyString (vars st !! varskey) +:+ " " +:+
                           Str.join " " (flags_of h pre base subdirs)]>
       (add_logs (missing_warnings h base subdirs) st)).
Proof.
  intros Hp. unfold _flagsForSubdirs, bind.
  rewrite flagsForSubdirs_loop_ok by done. simpl.
  destruct (vars st !! varskey) as [old|] eqn:Hv; simpl.
  - mrun; simpl. by rewrite Hv.
  - mrun; simpl. rewrite lookup_insert_eq. unfold set_vars; simpl.
    by rewrite insert_insert_eq.
Qed.

Lemma addDependencyVariables_named n st :
  _addDependencyVariables h (DepDict {["name" := VStr n]}) st =
    match root_found h st n with
    | Some r => (Ok tt, with_dep_flags h r st)
    | None => (Raise (EasyBuildError (not_found_msg h n)),
               add_log ERROR (not_found_msg h n) st)
    end.
Proof.
  unfold _addDependencyVariables, bind, get; simpl.
  rewrite bool_decide_eq_false_2 by apply map_non_empty_singleton.
  simpl. unfold bind at 1. unfold _addDependencyVariables_body, bind at 1.
  unfold getitem. rewrite lookup_singleton_eq. unfold ret at 1, bind at 1, get at 1.
  unfold root_found.
  destruct (getSoftwareRoot h (environ st) (VStr n)) as [r|]; simpl.
  - destruct (String.eqb r EmptyString); simpl.
    + unfold bind, log_error; simpl. reflexivity.
    + unfold bind at 1, ret at 1. unfold bind at 1.
      rewrite (flagsForSubdirs_run r ["include"] "-I") by done.
      rewrite (flagsForSubdirs_run r ["lib64"; "lib"] "-L") by done.
      reflexivity.
  - unfold bind, log_error; simpl. reflexivity.
Qed.

Lemma with_dep_flags_vars r st k :
  k <> "CPPFLAGS" -> k <> "LDFLAGS" ->
  vars (with_dep_flags h r st) !! k = vars st !! k.
Proof.
  intros H1 H2. unfold with_dep_flags; simpl.
  rewrite lookup_insert_ne by done. by rewrite lookup_insert_ne.
Qed.

(** C10. For every base path, list of subdirectories and variable key, and
    for a flag template such as [-L%s] or [-I%s], [_flagsForSubdirs] returns
    normally and leaves the key in [vars] with its prior value (the empty
    string when it was absent) followed by one space and the space-joined
    flags of the subdirectories that exist. When none of them exists the
    value is the prior value with one more space at its end, which is not
    the prior value. *)
Theorem flagsForSubdirs_appends base subdirs pre varskey st :
  percent_free pre = true ->
  let prior := default EmptyString (vars st !! varskey) in
  let r := _flagsForSubdirs h base subdirs (pre +:+ "%s") varskey st in
  r.1 = Ok tt /\
  vars r.2 !! varskey =
    Some (prior +:+ " " +:+ Str.join " " (flags_of h pre base subdirs)) /\
  (existing h base subdirs = [] ->
   vars r.2 !! varskey = Some (prior +:+ " ") /\ prior +:+ " " <> prior).
Proof.
  intros Hp prior r. subst r. rewrite flagsForSubdirs_run by done. simpl.
  rewrite lookup_insert_eq. split; [done|]. split; [done|].
  intros He. unfold flags_of. rewrite He. simpl. split; [done|].
  by apply app_neq_self.
Qed.

(** ** The rules that extend the lines of earlier rules *)

(** C8. When [LIBBLAS] and [LIBBLAS_MT] are set, then after [prepareLAPACK]
    [LIBLAPACK] is [LIBBLAS] followed by [ -llapack] and [LIBLAPACK_MT] is
    [LIBBLAS_MT] followed by [ -llapack -lpthread], the two BLAS lines being
    what they were; and the rule returns normally when LAPACK has an
    installation root. *)
Theorem prepareLAPACK_after_BLAS st blas blas_mt :
  vars st !! "LIBBLAS" = Some blas ->
  vars st !! "LIBBLAS_MT" = Some blas_mt ->
  let r := prepareLAPACK h st in
  vars r.2 !! "LIBBLAS" = Some blas /\
  vars r.2 !! "LIBBLAS_MT" = Some blas_mt /\
  vars r.2 !! "LIBLAPACK" = Some (blas +:+ " -llapack") /\
  vars r.2 !! "LIBLAPACK_MT" = Some (blas_mt +:+ " -llapack -lpthread") /\
  (is_Some (root_found h st "LAPACK") -> r.1 = Ok tt).
Proof.
  intros Hb Hm r. subst r. unfold prepareLAPACK. mrun. simpl. rewrite Hb. simpl.
  rewrite lookup_insert_ne by done. rewrite Hm. simpl.
  rewrite addDependencyVariables_named.
  match goal with |- context [root_found h ?s "LAPACK"] =>
    change (root_found h s "LAPACK") with (root_found h st "LAPACK") end.
  destruct (root_found h st "LAPACK") as [root|]; cbn [fst snd].
  - rewrite !with_dep_flags_vars by done. cbn [vars set_vars]. lk.
    by rewrite Hb, Hm.
  - cbn [vars set_vars add_log]. lk. rewrite Hb, Hm.
    repeat split; try done; by intros [? ?].
Qed.

(** What [prepareScaLAPACK] does to the two lines: [LIBSCALAPACK] gets
    [ -lscalapack] appended; [LIBSCALAPACK_MT] gets a space, the whole new
    [LIBSCALAPACK] line and [ -lpthread] appended. The rule returns normally
    when ScaLAPACK has an installation root. *)
Lemma prepareScaLAPACK_lines st lib lib_mt :
  vars st !! "LIBSCALAPACK" = Some lib ->
  vars st !! "LIBSCALAPACK_MT" = Some lib_mt ->
  let r := prepareScaLAPACK h st in
  vars r.2 !! "LIBSCALAPACK" = Some (lib +:+ " -lscalapack") /\
  vars r.2 !! "LIBSCALAPACK_MT" =
    Some (lib_mt +:+ " " +:+ (lib +:+ " -lscalapack") +:+ " -lpthread") /\
  (is_Some (root_found h st "ScaLAPACK") -> r.1 = Ok tt).
Proof.
  intros Hl Hm r. subst r. unfold prepareScaLAPACK. mrun. simpl. rewrite Hl. simpl.
  lk. rewrite Hm. simpl. lk. simpl.
  rewrite addDependencyVariables_named.
  match goal with |- context [root_found h ?s "ScaLAPACK"] =>
    change (root_found h s "ScaLAPACK") with (root_found h st "ScaLAPACK") end.
  destruct (root_found h st "ScaLAPACK") as [root|]; cbn [fst snd].
  - rewrite !with_dep_flags_vars by done. cbn [vars set_vars]. by lk.
  - cbn [vars set_vars add_log]. lk.
    repeat split; try done; by intros [? ?].
Qed.

(** ** [getDependencyVersion] *)

(** C7. For a descriptor with an explicit version the result is the version,
    the toolkit part and the descriptor's suffix, in this order, and the
    state is untouched. The toolkit part is empty for a descriptor marked
    independent of the toolkit, [-<name>-<version>] for a toolkit that is not
    the dummy one, the toolkit version for a dummy toolkit whose version is
    not [dummy], and empty for the dummy toolkit of version [dummy]. *)
Theorem getDependencyVersion_explicit st (dependency : dict) v :
  dependency !! "version" = Some v ->
  let suffix := str_of (default (VStr EmptyString) (dependency !! "suffix")) in
  let independent := from_option truthy false (dependency !! "dummy") in
  (independent = true ->
   getDependencyVersion h dependency st =
     (Ok (str_of v +:+ EmptyString +:+ suffix), st)) /\
  (independent = false -> name st <> "dummy" ->
   getDependencyVersion h dependency st =
     (Ok (str_of v +:+ ("-" +:+ name st +:+ "-" +:+ version st) +:+ suffix), st)) /\
  (independent = false -> name st = "dummy" -> version st <> "dummy" ->
   getDependencyVersion h dependency st =
     (Ok (str_of v +:+ version st +:+ suffix), st)) /\
  (independent = false -> name st = "dummy" -> version st = "dummy" ->
   getDependencyVersion h dependency st =
     (Ok (str_of v +:+ EmptyString +:+ suffix), st)).
Proof.
  intros Hv suffix independent. subst suffix independent.
  unfold getDependencyVersion, toolkit_suffix. mrun. rewrite Hv.
  assert (Hcases : forall n ver : string,
            (n <> "dummy" -> String.eqb n "dummy" = false) /\
            (n = "dummy" -> String.eqb n "dummy" = true) /\
            (ver <> "dummy" -> String.eqb ver "dummy" = false) /\
            (ver = "dummy" -> String.eqb ver "dummy" = true)).
  { intros n ver. repeat split; intros Hn;
      first [by apply String.eqb_neq | by apply String.eqb_eq]. }
  destruct (Hcases (name st) (version st)) as (Hn1 & Hn2 & Hv1 & Hv2).
  destruct (dependency !! "dummy") as [d|]; simpl.
  - destruct (truthy d).
    + split; [done|]. repeat split; intros Hd; discriminate Hd.
    + split; [intros Hd; discriminate Hd|]. split; [|split].
      * intros _ Hn. by rewrite (Hn1 Hn).
      * intros _ Hn Hver. by rewrite (Hn2 Hn), (Hv1 Hver).
      * intros _ Hn Hver. by rewrite (Hn2 Hn), (Hv2 Hver).
  - split; [intros Hd; discriminate Hd|]. split; [|split].
    + intros _ Hn. by rewrite (Hn1 Hn).
    + intros _ Hn Hver. by rewrite (Hn2 Hn), (Hv1 Hver).
    + intros _ Hn Hver. by rewrite (Hn2 Hn), (Hv2 Hver).
Qed.

End PathFlags.

(** ** The statements above at concrete toolkits *)

Lemma flagsForSubdirs_appends_witness :
  let r := _flagsForSubdirs demo_host "/opt/ATLAS" ["lib64"; "lib"] "-L%s" "LDFLAGS" gcc463 in
  let r' := _flagsForSubdirs demo_host "/opt/FFTW" ["lib64"; "lib"] "-L%s" "LDFLAGS" r.2 in
  r.1 = Ok tt /\ vars r.2 !! "LDFLAGS" = Some " -L/opt/ATLAS/lib" /\
  r'.1 = Ok tt /\ vars r'.2 !! "LDFLAGS" = Some " -L/opt/ATLAS/lib ".
Proof.
  intros r r'.
  pose proof (flagsForSubdirs_appends demo_host "/opt/ATLAS" ["lib64"; "lib"]
                "-L" "LDFLAGS" gcc463 eq_refl) as (H1 & H2 & _).
  pose proof (flagsForSubdirs_appends demo_host "/opt/FFTW" ["lib64"; "lib"]
                "-L" "LDFLAGS" r.2 eq_refl) as (H3 & _ & H4).
  destruct (H4 eq_refl) as [H5 _].
  split; [exact H1|]. split; [exact H2|]. split; [exact H3|exact H5].
Defined.

Lemma prepareLAPACK_after_BLAS_witness :
  let st := (prepareATLAS demo_host with_math_roots).2 in
  let r := prepareLAPACK demo_host st in
  r.1 = Ok tt /\
  vars r.2 !! "LIBBLAS" = Some " -latlas -llapack -lcblas -lf77blas" /\
  vars r.2 !! "LIBLAPACK" = Some " -latlas -llapack -lcblas -lf77blas -llapack" /\
  vars r.2 !! "LIBLAPACK_MT" =
    Some " -latlas -llapack -lptcblas -lptf77blas -lpthread -llapack -lpthread".
Proof.
  intros st r.
  destruct (prepareLAPACK_after_BLAS demo_host st
              " -latlas -llapack -lcblas -lf77blas"
              " -latlas -llapack -lptcblas -lptf77blas -lpthread"
              eq_refl eq_refl) as (H1 & _ & H3 & H4 & H5).
  split; [apply H5; by eexists|]. split; [exact H1|]. split; [exact H3|exact H4].
Defined.

(** C6. After the BLACS rule both lines are [ -lblacsF77init -lblacs ].
    [prepareScaLAPACK] then returns normally and appends [ -lscalapack] to
    [LIBSCALAPACK], but the threaded line does not become its prior value
    followed by [ -lscalapack -lpthread]: the BLACS libraries of the
    sequential line are in it a second time. *)
Theorem prepareScaLAPACK_repeats_sequential_line :
  let st := (prepareBLACS demo_host with_math_roots).2 in
  let r := prepareScaLAPACK demo_host st in
  vars st !! "LIBSCALAPACK" = Some " -lblacsF77init -lblacs " /\
  vars st !! "LIBSCALAPACK_MT" = Some " -lblacsF77init -lblacs " /\
  r.1 = Ok tt /\
  vars r.2 !! "LIBSCALAPACK" = Some " -lblacsF77init -lblacs  -lscalapack" /\
  vars r.2 !! "LIBSCALAPACK_MT" =
    Some " -lblacsF77init -lblacs   -lblacsF77init -lblacs  -lscalapack -lpthread" /\
  vars r.2 !! "LIBSCALAPACK_MT" <>
    Some (" -lblacsF77init -lblacs " +:+ " -lscalapack" +:+ " -lpthread").
Proof.
  intros st r.
  assert (Hl : vars st !! "LIBSCALAPACK" = Some " -lblacsF77init -lblacs ")
    by (vm_compute; reflexivity).
  assert (Hm : vars st !! "LIBSCALAPACK_MT" = Some " -lblacsF77init -lblacs ")
    by (vm_compute; reflexivity).
  assert (Hr : is_Some (root_found demo_host st "ScaLAPACK"))
    by (vm_compute; eauto).
  destruct (prepareScaLAPACK_lines demo_host st _ _ Hl Hm) as (H1 & H2 & H3).
  split; [exact Hl|]. split; [exact Hm|]. split; [exact (H3 Hr)|].
  split; [exact H1|]. split; [exact H2|].
  fold r in H2. rewrite H2. vm_compute. discriminate.
Qed.

Lemma getDependencyVersion_explicit_witness :
  getDependencyVersion demo_host {["name" := VStr "FFTW"; "version" := VStr "3.3.1"]} gcc463 =
    (Ok "3.3.1-GCC-4.6.3", gcc463).
Proof.
  assert (Hv : ({["name" := VStr "FFTW"; "version" := VStr "3.3.1"]} : dict)
               !! "version" = Some (VStr "3.3.1")) by reflexivity.
  destruct (getDependencyVersion_explicit demo_host gcc463 _ _ Hv) as (_ & H2 & _).
  apply H2; [reflexivity|discriminate].
Defined.

(** ** [setOptions] *)

Lemma elem_of_keys {A} (m : gmap string A) k : k ∈ keys m <-> is_Some (m !! k).
Proof.
  unfold keys. rewrite list_elem_of_fmap. split.
  - intros [[k' v] [-> Hin]]. apply elem_of_map_to_list in Hin. simpl. eauto.
  - intros [v Hv]. exists (k, v). split; [done|]. by apply elem_of_map_to_list.
Qed.

Lemma undefined_keys_dom o1 o2 ks :
  dom o1 = dom o2 -> undefined_keys o1 ks = undefined_keys o2 ks.
Proof.
  intros Hd. unfold undefined_keys. apply List.filter_ext. intros k.
  apply bool_decide_ext. rewrite <- !not_elem_of_dom. by rewrite Hd.
Qed.

Lemma setOptions_body_run options k st :
  setOptions_body options k st =
    match opts st !! k with
    | Some _ =>
        match options !! k with
        | Some v => (Ok tt, set_opts <[k := v]> st)
        | None => (Raise (KeyError k), st)
        end
    | None =>
        (Ok tt, add_log WARNING ("Undefined toolkit option " +:+ k +:+ " specified.") st)
    end.
Proof.
  unfold setOptions_body. mrun.
  destruct (opts st !! k); [|done]. by destruct (options !! k).
Qed.

Lemma setOptions_over_spec ks options st :
  (forall k, k ∈ ks -> is_Some (options !! k)) ->
  let r := setOptions_over ks options st in
  r.1 = Ok tt /\
  dom (opts r.2) = dom (opts st) /\
  (forall k v, k ∈ ks -> is_Some (opts st !! k) -> options !! k = Some v ->
               opts r.2 !! k = Some v) /\
  (forall k, k ∉ ks -> opts r.2 !! k = opts st !! k) /\
  log r.2 = log st ++ (undefined_warning <$> undefined_keys (opts st) ks) /\
  same_toolkit st r.2.
Proof.
  revert st. induction ks as [|k ks IH]; intros st Hin r; subst r.
  - unfold setOptions_over; simpl. unfold same_toolkit.
    rewrite app_nil_r. repeat split; try done.
    intros k v Hk. by apply elem_of_nil in Hk.
  - assert (Hin' : forall k', k' ∈ ks -> is_Some (options !! k')).
    { intros k' Hk'. apply Hin, elem_of_cons. by right. }
    destruct (Hin k) as [v Hv].
    { apply elem_of_cons. by left. }
    unfold setOptions_over in *. rewrite for_each_cons, setOptions_body_run.
    destruct (opts st !! k) as [old|] eqn:Ho.
    + rewrite Hv.
      destruct (IH (set_opts <[k:=v]> st) Hin') as (H1 & H2 & H3 & H4 & H5 & H6).
      simpl in H1, H2, H3, H4, H5, H6.
      destruct (for_each ks (setOptions_body options) (set_opts <[k:=v]> st))
        as [r st'] eqn:Hrun.
      cbn [fst snd] in *. subst r.
      assert (Hdom : dom (<[k:=v]> (opts st)) = dom (opts st)).
      { apply dom_insert_lookup_L. rewrite Ho. eauto. }
      split; [done|]. split; [by rewrite H2|]. split; [|split; [|split]].
      * intros k' v' Hk' Hs Hv'.
        destruct (decide (k' ∈ ks)) as [Hks|Hks].
        -- apply H3; try done.
           destruct (decide (k = k')) as [->|Hne]; [by rewrite lookup_insert_eq|].
           by rewrite lookup_insert_ne.
        -- apply elem_of_cons in Hk' as [->|?]; [|done].
           rewrite H4 by done. rewrite lookup_insert_eq. congruence.
      * intros k' Hk'. apply not_elem_of_cons in Hk' as [Hne Hk'].
        rewrite H4 by done. by rewrite lookup_insert_ne.
      * rewrite H5. unfold undefined_keys at 2. simpl.
        rewrite Ho. rewrite bool_decide_eq_false_2 by done.
        f_equal. f_equal. by apply undefined_keys_dom.
      * unfold same_toolkit in *. simpl in *. done.
    + destruct (IH (add_log WARNING ("Undefined toolkit option " +:+ k +:+ " specified.") st)
                  Hin') as (H1 & H2 & H3 & H4 & H5 & H6).
      simpl in H1, H2, H3, H4, H5, H6.
      destruct (for_each ks (setOptions_body options)
                  (add_log WARNING ("Undefined toolkit option " +:+ k +:+ " specified.") st))
        as [r st'] eqn:Hrun.
      cbn [fst snd] in *. subst r.
      split; [done|]. split; [done|]. split; [|split; [|split]].
      * intros k' v' Hk' Hs Hv'.
        destruct (decide (k' ∈ ks)) as [Hks|Hks]; [by apply H3|].
        apply elem_of_cons in Hk' as [->|?]; [|done].
        rewrite Ho in Hs. by destruct Hs.
      * intros k' Hk'. apply not_elem_of_cons in Hk' as [Hne Hk']. by apply H4.
      * rewrite H5. unfold undefined_keys at 2. simpl.
        rewrite Ho. rewrite bool_decide_eq_true_2 by done.
        simpl. by rewrite <- app_assoc.
      * unfold same_toolkit in *. simpl in *. done.
Qed.

(** The constructor leaves exactly the twenty options of the table. *)
Lemma init_opts_dom n v env loaded : dom (opts (init n v env loaded)) = dom default_opts.
Proof.
  unfold init. cbn [opts]. destruct (Str.endswith "32bit" v); [|done].
  by apply dom_insert_lookup_L.
Qed.

(** C9. Whatever the order in which the keys of [options] are visited,
    [setOptions] returns normally; the key set of [opts] is what it was; a
    key that [opts] has takes the value that [options] gives it; a key that
    [options] lacks keeps its value; a key that [opts] lacks stays absent
    and is answered by a warning; only warnings are logged, one per such
    key; and nothing else of the toolkit changes. *)
Theorem setOptions_closed_option_set options ks st :
  ks ≡ₚ keys options ->
  let r := setOptions_over ks options st in
  r.1 = Ok tt /\
  dom (opts r.2) = dom (opts st) /\
  (forall k v, options !! k = Some v -> is_Some (opts st !! k) ->
               opts r.2 !! k = Some v) /\
  (forall k, options !! k = None -> opts r.2 !! k = opts st !! k) /\
  (forall k, is_Some (options !! k) -> opts st !! k = None ->
             opts r.2 !! k = None /\ undefined_warning k ∈ log r.2) /\
  log r.2 = log st ++ (undefined_warning <$> undefined_keys (opts st) ks) /\
  same_toolkit st r.2.
Proof.
  intros Hp r.
  assert (Hks : forall k, k ∈ ks <-> is_Some (options !! k)).
  { intros k. rewrite Hp. apply elem_of_keys. }
  destruct (setOptions_over_spec ks options st) as (H1 & H2 & H3 & H4 & H5 & H6).
  { intros k Hk. by apply Hks. }
  fold r in H1, H2, H3, H4, H5, H6.
  split; [done|]. split; [done|]. split; [|split; [|split; [|done]]].
  - intros k v Hv Hs. apply H3; try done. apply Hks. rewrite Hv. eauto.
  - intros k Hk. apply H4. rewrite Hks, Hk. by intros [? ?].
  - intros k Hk Ho. split.
    + apply not_elem_of_dom. rewrite H2. by apply not_elem_of_dom.
    + rewrite H5. apply elem_of_app. right. apply list_elem_of_fmap.
      exists k. split; [done|]. unfold undefined_keys.
      apply list_elem_of_In, List.filter_In. split.
      * apply list_elem_of_In. by apply Hks.
      * by apply bool_decide_eq_true_2.
Qed.

Lemma setOptions_closed_option_set_witness :
  let options : gmap string value :=
    {["pic" := VBool true; "cstd" := VStr "c99"; "turbo" := VBool true]} in
  let r := setOptions options gcc463 in
  r.1 = Ok tt /\
  dom (opts r.2) = dom default_opts /\
  opts r.2 !! "pic" = Some (VBool true) /\
  opts r.2 !! "turbo" = None /\
  log r.2 = [(WARNING, "Undefined toolkit option turbo specified.")].
Proof.
  intros options r.
  destruct (setOptions_closed_option_set options (keys options) gcc463
              (reflexivity _)) as (H1 & H2 & H3 & _ & H5 & H6 & _).
  split; [exact H1|]. split; [exact H2|].
  split; [apply H3; [reflexivity|by eexists]|].
  split; [apply H5; [by eexists|reflexivity]|].
  exact H6.
Defined.

(** ** [_setVariables] *)

Lemma setVariables_over_run kvs dontset st :
  _setVariables_over kvs dontset st =
    (Ok tt, set_environ (fun e => foldl (apply_var (dontsetlist dontset)) e kvs) st).
Proof.
  revert st. induction kvs as [|[k v] kvs IH]; intros st.
  - by destruct st.
  - unfold _setVariables_over in *. simpl. unfold bind at 1.
    unfold _setVariables_body at 1. unfold apply_var at 2. simpl.
    destruct (bool_decide (k ∈ dontsetlist dontset)).
    + unfold ret. by rewrite IH.
    + mrun. by rewrite IH.
Qed.

Lemma mirror_inj k k' : "SOFTVAR" +:+ k = "SOFTVAR" +:+ k' -> k = k'.
Proof. apply (inj (String.app "SOFTVAR")). Qed.

(** A name that no round writes keeps its value. *)
Lemma apply_vars_untouched ds kvs env x :
  (forall k v, (k, v) ∈ kvs -> k ∉ ds -> x <> k /\ x <> "SOFTVAR" +:+ k) ->
  foldl (apply_var ds) env kvs !! x = env !! x.
Proof.
  revert env. induction kvs as [|[k v] kvs IH]; intros env Hw; [done|].
  simpl. rewrite IH.
  - unfold apply_var; simpl. case_bool_decide as Hk; [done|].
    destruct (Hw k v) as [H1 H2]; [apply elem_of_cons; by left|done|].
    rewrite lookup_insert_ne by done. by rewrite lookup_insert_ne.
  - intros k' v' Hin. apply (Hw k' v'), elem_of_cons. by right.
Qed.

Lemma apply_vars_set ds kvs env k v :
  NoDup kvs.*1 -> no_clash kvs.*1 ->
  (k, v) ∈ kvs -> k ∉ ds ->
  foldl (apply_var ds) env kvs !! k = Some v /\
  foldl (apply_var ds) env kvs !! ("SOFTVAR" +:+ k) = Some v.
Proof.
  revert env. induction kvs as [|[k0 v0] kvs IH]; intros env Hnd Hnc Hin Hk.
  - by apply elem_of_nil in Hin.
  - simpl in Hnd. apply NoDup_cons in Hnd as [Hk0 Hnd].
    assert (Hnc' : no_clash kvs.*1).
    { intros a b Ha Hb. apply Hnc; simpl; apply elem_of_cons; by right. }
    apply elem_of_cons in Hin as [Heq|Hin].
    + injection Heq as <- <-. simpl.
      assert (Hrest : forall k' v', (k', v') ∈ kvs -> k' ∉ ds ->
                (k <> k' /\ k <> "SOFTVAR" +:+ k') /\
                ("SOFTVAR" +:+ k <> k' /\ "SOFTVAR" +:+ k <> "SOFTVAR" +:+ k')).
      { intros k' v' Hin' _.
        assert (Hk' : k' ∈ kvs.*1) by (apply list_elem_of_fmap; by exists (k', v')).
        assert (Hne : k <> k') by (intros ->; done).
        repeat split; try done.
        - apply Hnc; simpl; apply elem_of_cons; [by left|by right].
        - intros Heq. symmetry in Heq. revert Heq.
          apply Hnc; simpl; apply elem_of_cons; [by right|by left].
        - intros Heq%mirror_inj. done. }
      rewrite !apply_vars_untouched by (intros k' v' ? ?; by apply (Hrest k' v')).
      unfold apply_var; simpl. rewrite bool_decide_eq_false_2 by done.
      rewrite lookup_insert_eq. split; [|done].
      destruct (decide ("SOFTVAR" +:+ k = k)) as [->|Hne]; [by rewrite lookup_insert_eq|].
      rewrite lookup_insert_ne by done. by rewrite lookup_insert_eq.
    + simpl. by apply IH.
Qed.

Lemma apply_vars_skipped ds kvs env k :
  no_clash kvs.*1 -> k ∈ kvs.*1 -> k ∈ ds ->
  foldl (apply_var ds) env kvs !! k = env !! k /\
  foldl (apply_var ds) env kvs !! ("SOFTVAR" +:+ k) = env !! ("SOFTVAR" +:+ k).
Proof.
  intros Hnc Hk Hds.
  split; apply apply_vars_untouched; intros k' v' Hin Hk'.
  - assert (k' ∈ kvs.*1) by (apply list_elem_of_fmap; by exists (k', v')).
    split; [by intros ->|]. by apply Hnc.
  - assert (k' ∈ kvs.*1) by (apply list_elem_of_fmap; by exists (k', v')).
    split.
    + intros Heq. symmetry in Heq. revert Heq. by apply Hnc.
    + intros Heq%mirror_inj. by subst.
Qed.

Lemma no_clashb_no_clash ks : no_clashb ks = true -> no_clash ks.
Proof.
  unfold no_clashb, no_clash. intros Hb k k' Hk Hk'.
  rewrite forallb_forall in Hb. apply list_elem_of_In in Hk, Hk'.
  specialize (Hb k Hk). rewrite forallb_forall in Hb. specialize (Hb k' Hk').
  apply negb_true_iff in Hb. by apply String.eqb_neq.
Qed.

(** C3, as the code has it. Let no key of [vars] be the mirror name
    [SOFTVAR<key>] of a key of [vars]. Whatever the order in which the items
    of [vars] are visited, [_setVariables] returns normally; for a key that
    is not in the exclusion list the environment afterwards holds the value
    under the key and under [SOFTVAR<key>]; for a key in the exclusion list
    it holds under the key and under [SOFTVAR<key>] what it held before: the
    mirror is not set either. *)
Theorem setVariables_applies dontset kvs st :
  kvs ≡ₚ items (vars st) ->
  no_clashb (keys (vars st)) = true ->
  let r := _setVariables_over kvs dontset st in
  r.1 = Ok tt /\
  (forall key val, vars st !! key = Some val -> key ∉ dontsetlist dontset ->
     environ r.2 !! key = Some val /\
     environ r.2 !! ("SOFTVAR" +:+ key) = Some val) /\
  (forall key val, vars st !! key = Some val -> key ∈ dontsetlist dontset ->
     environ r.2 !! key = environ st !! key /\
     environ r.2 !! ("SOFTVAR" +:+ key) = environ st !! ("SOFTVAR" +:+ key)).
Proof.
  intros Hp Hb r. subst r. rewrite setVariables_over_run. cbn [fst snd environ set_environ].
  assert (Hnd : NoDup kvs.*1).
  { rewrite Hp. apply NoDup_fst_map_to_list. }
  assert (Hnc : no_clash kvs.*1).
  { apply no_clashb_no_clash in Hb. unfold keys in Hb.
    intros k k' Hk Hk'. apply Hb; by rewrite <- Hp. }
  assert (Hin : forall key val, vars st !! key = Some val -> (key, val) ∈ kvs).
  { intros key val Hv. rewrite Hp. by apply elem_of_map_to_list. }
  split; [done|]. split.
  - intros key val Hv Hk. apply apply_vars_set; auto.
  - intros key val Hv Hk. apply apply_vars_skipped; auto.
    apply list_elem_of_fmap. exists (key, val). split; [done|]. by apply Hin.
Qed.

Lemma setVariables_applies_witness :
  let st := set_vars <["LDFLAGS" := " -L/opt/ATLAS/lib"]> cflags_only in
  let r := _setVariables (AStr "LDFLAGS,LIBS") st in
  r.1 = Ok tt /\
  environ r.2 !! "CFLAGS" = Some "-O2" /\
  environ r.2 !! "SOFTVARCFLAGS" = Some "-O2" /\
  environ r.2 !! "LDFLAGS" = None /\
  environ r.2 !! "SOFTVARLDFLAGS" = None.
Proof.
  intros st r.
  assert (Hb : no_clashb (keys (vars st)) = true) by (vm_compute; reflexivity).
  assert (Hc : vars st !! "CFLAGS" = Some "-O2") by (vm_compute; reflexivity).
  assert (Hl : vars st !! "LDFLAGS" = Some " -L/opt/ATLAS/lib") by (vm_compute; reflexivity).
  assert (Hn : "CFLAGS" ∉ dontsetlist (AStr "LDFLAGS,LIBS"))
    by (apply (bool_decide_eq_false_1 _); vm_compute; reflexivity).
  assert (Hi : "LDFLAGS" ∈ dontsetlist (AStr "LDFLAGS,LIBS"))
    by (apply (bool_decide_eq_true_1 _); vm_compute; reflexivity).
  destruct (setVariables_applies (AStr "LDFLAGS,LIBS") (items (vars st)) st
              (reflexivity _) Hb) as (H1 & H2 & H3).
  destruct (H2 "CFLAGS" "-O2" Hc Hn) as [H4 H5].
  destruct (H3 "LDFLAGS" " -L/opt/ATLAS/lib" Hl Hi) as [H6 H7].
  change r with (_setVariables_over (items (vars st)) (AStr "LDFLAGS,LIBS") st).
  split; [exact H1|].
  split; [exact H4|]. split; [exact H5|].
  split; [exact H6|exact H7].
Defined.

(** With [CFLAGS] excluded, applying [vars = {CFLAGS: -O2}] does not set the
    mirrored variable. *)
Lemma setVariables_excluded_mirror_counterexample :
  vars cflags_only !! "CFLAGS" = Some "-O2" /\
  "CFLAGS" ∈ dontsetlist (AStr "CFLAGS") /\
  environ (_setVariables (AStr "CFLAGS") cflags_only).2 !! "SOFTVARCFLAGS"
    <> Some "-O2".
Proof.
  split; [vm_compute; reflexivity|].
  split; [apply (bool_decide_eq_true_1 _); vm_compute; reflexivity|].
  vm_compute. discriminate.
Qed.

(** Without exclusion both are set. *)
Example setVariables_round_trip :
  let r := _setVariables ANone cflags_only in
  environ r.2 !! "CFLAGS" = Some "-O2" /\ environ r.2 !! "SOFTVARCFLAGS" = Some "-O2".
Proof. split; vm_compute; reflexivity. Qed.

(** Two keys that clash: the mirror of [X] is the key [SOFTVARX], and the
    later of the two writes wins. *)
Example setVariables_clash :
  let kvs := [("X", "1"); ("SOFTVARX", "2")] in
  environ (_setVariables_over kvs ANone gcc463).2 !! "SOFTVARX" = Some "2" /\
  environ (_setVariables_over (reverse kvs) ANone gcc463).2 !! "SOFTVARX" = Some "1".
Proof. split; vm_compute; reflexivity. Qed.

(** ** [prepareMPICH2] *)

(** Without the ScaleMP marker in the version the rule raises an
    [AttributeError], logs nothing and leaves the state as it was. *)
Lemma prepareMPICH2_non_ScaleMP st ver :
  environ st !! "SOFTVERSIONMPICH2" = Some ver ->
  Str.contains "vSMP" ver = false ->
  prepareMPICH2 st =
    (Raise (AttributeError "Toolkit instance has no attribute 'log'"), st).
Proof.
  intros He Hc. unfold prepareMPICH2. mrun. rewrite He. by rewrite Hc.
Qed.

(** C5. With MPICH2 1.4.1 loaded, whose version lacks the marker [vSMP],
    [prepareMPICH2] raises an [AttributeError] and not an [EasyBuildError];
    no MPI wrapper variable is set and nothing is logged. *)
Theorem prepareMPICH2_raises_AttributeError :
  environ mpich2_plain !! "SOFTVERSIONMPICH2" = Some "1.4.1" /\
  Str.contains "vSMP" "1.4.1" = false /\
  prepareMPICH2 mpich2_plain =
    (Raise (AttributeError "Toolkit instance has no attribute 'log'"), mpich2_plain) /\
  (forall msg, (prepareMPICH2 mpich2_plain).1 <> Raise (EasyBuildError msg)) /\
  vars (prepareMPICH2 mpich2_plain).2 = ∅ /\
  log (prepareMPICH2 mpich2_plain).2 = [].
Proof.
  assert (He : environ mpich2_plain !! "SOFTVERSIONMPICH2" = Some "1.4.1")
    by (vm_compute; reflexivity).
  assert (Hc : Str.contains "vSMP" "1.4.1" = false) by reflexivity.
  split; [done|]. split; [done|].
  rewrite (prepareMPICH2_non_ScaleMP _ _ He Hc).
  split; [done|]. split; [by intros msg|]. split; reflexivity.
Qed.

(** With the marker the wrappers are set. *)
Example prepareMPICH2_ScaleMP :
  let st := set_environ <["SOFTVERSIONMPICH2" := "1.2.1-vSMP"]> mpich2_plain in
  let r := prepareMPICH2 st in
  r.1 = Ok tt /\
  vars r.2 !! "MPICC" = Some ("mpicc -cc=" +:+ dq +:+ "None " +:+ dq).
Proof. split; vm_compute; reflexivity. Qed.

(** ** [_generate_variables]: the order of the rules *)

Section Pipeline.

Context (h : Host).

Lemma select_methods_cons dep depnames acc st :
  select_methods h (dep :: depnames) acc st =
    match find_meth dep meth_keys with
    | Some meth =>
        match known_preparation_methods !! meth with
        | Some m => select_methods h depnames (acc ++ [m]) st
        | None => (Raise (KeyError meth), st)
        end
    | None =>
        log_error h "_generate_variables"
          ("Don't know how to prepare for toolkit dependency " +:+ dep) st
    end.
Proof.
  cbn [select_methods]. destruct (find_meth dep meth_keys) as [meth|]; [|done].
  unfold bind, getitem. by destruct (known_preparation_methods !! meth).
Qed.

Lemma select_methods_order depnames acc st ms st' :
  select_methods h depnames acc st = (Ok ms, st') ->
  st' = st /\ exists ms', ms = acc ++ ms' /\ Forall2 method_for depnames ms'.
Proof.
  revert acc. induction depnames as [|dep depnames IH]; intros acc Hrun.
  - cbn [select_methods] in Hrun. unfold ret in Hrun.
    assert (ms = acc) as -> by congruence. assert (st' = st) as -> by congruence.
    split; [done|]. exists []. by rewrite app_nil_r.
  - rewrite select_methods_cons in Hrun.
    destruct (find_meth dep meth_keys) as [meth|] eqn:Hf; [|done].
    destruct (known_preparation_methods !! meth) as [m|] eqn:Hm; [|done].
    apply IH in Hrun as [-> (ms' & -> & HF)].
    split; [done|]. exists (m :: ms'). rewrite <- app_assoc. split; [done|].
    constructor; [|exact HF]. exists meth. split; assumption.
Qed.

Lemma list_remove_first_length x l : length (list_remove_first x l) <= length l.
Proof.
  induction l as [|y l IH]; simpl; [done|].
  case_bool_decide; simpl; lia.
Qed.

Lemma remove_loaded_loop_S fuel prev i st :
  remove_loaded_loop (S fuel) prev i st =
    match toolkit_deps st !! i with
    | None => (Ok tt, st)
    | Some dep =>
        match (if bool_decide (dep ∈ prev) then (Ok true, st)
               else match dep !! "name" with
                    | Some n => (Ok (bool_decide (VStr (name st) = n)), st)
                    | None => (Raise (KeyError "name"), st)
                    end) with
        | (Ok true, _) =>
            remove_loaded_loop fuel prev (S i)
              (set_toolkit_deps (list_remove_first dep (toolkit_deps st)) st)
        | (Ok false, _) => remove_loaded_loop fuel prev (S i) st
        | (Raise e, _) => (Raise e, st)
        end
    end.
Proof.
  cbn [remove_loaded_loop]. unfold bind at 1, get.
  destruct (toolkit_deps st !! i) as [dep|]; [|done].
  unfold bind at 1. case_bool_decide.
  - unfold ret at 1. unfold bind at 1, when, modify. done.
  - unfold bind at 1, getitem. destruct (dep !! "name") as [n|]; [|done].
    unfold ret at 1. unfold ret at 1. unfold bind at 1, when, modify, ret.
    by case_bool_decide.
Qed.

Lemma remove_loaded_loop_fuel fuel fuel' prev i st :
  length (toolkit_deps st) < i + fuel -> fuel <= fuel' ->
  remove_loaded_loop fuel prev i st = remove_loaded_loop fuel' prev i st.
Proof.
  revert fuel' i st. induction fuel as [|fuel IH]; intros fuel' i st Hlen Hle.
  - assert (Hn : toolkit_deps st !! i = None) by (apply lookup_ge_None; lia).
    destruct fuel'; [done|]. rewrite remove_loaded_loop_S. by rewrite Hn.
  - destruct fuel' as [|fuel']; [lia|]. rewrite !remove_loaded_loop_S.
    destruct (toolkit_deps st !! i) as [dep|] eqn:Hd; [|done].
    destruct (if bool_decide (dep ∈ prev) then _ else _) as [[[|]|e] s]; [| |done].
    + apply IH; [|lia]. cbn [toolkit_deps set_toolkit_deps].
      pose proof (list_remove_first_length dep (toolkit_deps st)). lia.
    + apply IH; lia.
Qed.

Lemma list_remove_first_ne x y l :
  x <> y -> list_remove_first x (y :: l) = y :: list_remove_first x l.
Proof. intros Hne. cbn [list_remove_first]. by rewrite bool_decide_eq_false_2. Qed.

Lemma list_remove_first_eq x l : list_remove_first x (x :: l) = l.
Proof. cbn [list_remove_first]. by rewrite bool_decide_eq_true_2. Qed.

Lemma list_remove_first_subseteq x l : list_remove_first x l ⊆ l.
Proof.
  induction l as [|y l IH]; [done|]. cbn [list_remove_first].
  intros z Hz. case_bool_decide.
  - apply elem_of_cons. by right.
  - apply elem_of_cons in Hz as [->|Hz]; apply elem_of_cons; [by left|right; by apply IH].
Qed.

(** Once the loop is past the head of the list, a head that occurs nowhere
    else stays. *)
Lemma remove_loaded_loop_head_stays fuel prev i st b l :
  toolkit_deps st = b :: l -> b ∉ l -> 0 < i ->
  exists l', toolkit_deps (remove_loaded_loop fuel prev i st).2 = b :: l'.
Proof.
  revert i st l. induction fuel as [|fuel IH]; intros i st l Hl Hb Hi.
  - exists l. done.
  - rewrite remove_loaded_loop_S. rewrite Hl.
    destruct i as [|i]; [lia|]. cbn [lookup list_lookup].
    destruct (l !! i) as [dep|] eqn:Hd; [|by exists l].
    assert (Hne : dep <> b).
    { intros ->. apply Hb. by apply list_elem_of_lookup_2 in Hd. }
    destruct (if bool_decide (dep ∈ prev) then _ else _) as [[[|]|e] s].
    + apply (IH _ _ (list_remove_first dep l)); [|  |lia].
      * cbn [toolkit_deps set_toolkit_deps]. by rewrite list_remove_first_ne.
      * intros Hin. apply Hb. by apply list_remove_first_subseteq in Hin.
    + by apply (IH _ _ l); [| |lia].
    + by exists l.
Qed.

(** Two modules that were loaded before, at the head of the list and
    different from what follows: the second one stays in [toolkit_deps]. *)
Lemma remove_loaded_skips_second prev st a b l :
  toolkit_deps st = a :: b :: l -> a ∈ prev -> b ∉ l ->
  b ∈ toolkit_deps (remove_loaded prev st).2.
Proof.
  intros Hl Ha Hb. unfold remove_loaded, bind, get. rewrite Hl.
  cbn [length]. rewrite remove_loaded_loop_S, Hl. cbn [lookup list_lookup].
  rewrite bool_decide_eq_true_2 by done. rewrite list_remove_first_eq.
  destruct (remove_loaded_loop_head_stays (S (S (length l))) prev 1
              (set_toolkit_deps (b :: l) st) b l) as [l' Hl']; [done|done|lia|].
  rewrite Hl'. apply elem_of_cons. by left.
Qed.

End Pipeline.

(** C1. With LAPACK before ATLAS in [toolkit_deps], the code selects
    [prepareLAPACK] (key [4_LAPACK]) before [prepareATLAS] (key [3_ATLAS])
    and calls them in this order: the LAPACK rule finds no [LIBBLAS] and
    raises [KeyError]. With ATLAS first the same two rules succeed. The rules
    run in the order of the dependencies, not of the priorities. *)
Theorem generate_variables_follows_dependency_order :
  (depnames_of (toolkit_deps lapack_first) lapack_first).1 = Ok ["lapack"; "atlas"] /\
  (select_methods demo_host ["lapack"; "atlas"] [] lapack_first).1 =
    Ok [m_prepareLAPACK; m_prepareATLAS] /\
  find_meth "lapack" meth_keys = Some "4_LAPACK" /\
  find_meth "atlas" meth_keys = Some "3_ATLAS" /\
  priority "4_LAPACK" = "4" /\ priority "3_ATLAS" = "3" /\
  (_generate_variables demo_host lapack_first).1 = Raise (KeyError "LIBBLAS") /\
  vars (_generate_variables demo_host lapack_first).2 !! "LIBLAPACK" = None /\
  (_generate_variables demo_host atlas_first).1 = Ok tt /\
  vars (_generate_variables demo_host atlas_first).2 !! "LIBLAPACK" =
    Some " -latlas -llapack -lcblas -lf77blas -llapack".
Proof. repeat split; vm_compute; reflexivity. Qed.


(** ** [prepare]: the dependencies of the toolkit itself *)

(** C2. With [zlib] and [ncurses] loaded before, [prepare] of [goalf/1.1.0]
    leaves [ncurses] in [toolkit_deps]: removing [zlib] moves [ncurses] to
    the position that the loop has just left. The pipeline then fails on it. *)
Theorem prepare_keeps_previously_loaded_module :
  let r := prepare demo_host ANone goalf in
  loaded_modules goalf = [module_ "zlib" "1.2.5"; module_ "ncurses" "5.9"] /\
  loaded_modules r.2 =
    [module_ "zlib" "1.2.5"; module_ "ncurses" "5.9"; module_ "GCC" "4.6.3";
     module_ "OpenMPI" "1.4.5"; module_ "goalf" "1.1.0"] /\
  toolkit_deps r.2 =
    [module_ "ncurses" "5.9"; module_ "GCC" "4.6.3"; module_ "OpenMPI" "1.4.5"] /\
  r.1 = Raise (EasyBuildError
                 ("EasyBuild crashed with an error " +:+
                  callerInfo demo_host "_generate_variables" +:+
                  ": Don't know how to prepare for toolkit dependency ncurses")).
Proof. repeat split; vm_compute; reflexivity. Qed.


(** In the same way the toolkit module itself can stay. *)
Example remove_loaded_keeps_toolkit :
  toolkit_deps (remove_loaded [module_ "zlib" "1.2.5"] goalf_alone).2 = [module_ "goalf" "1.1.0"].
Proof. vm_compute; reflexivity. Qed.


(** ** [prepareIMKL]: GCC and Intel compilers *)

Lemma env_stable_ret {A} (a : A) : env_stable (ret a).
Proof. done. Qed.

Lemma env_stable_raise {A} e : env_stable (@raise A e).
Proof. done. Qed.

Lemma env_stable_get : env_stable get.
Proof. done. Qed.

Lemma env_stable_bind {A B} (m : M A) (k : A -> M B) :
  env_stable m -> (forall a, env_stable (k a)) -> env_stable (bind m k).
Proof.
  intros Hm Hk st. unfold bind. specialize (Hm st).
  destruct (m st) as [[a|e] st1]; simpl in *; [|done].
  by rewrite Hk.
Qed.

Lemma env_stable_getitem {A} (d : gmap string A) k : env_stable (getitem d k).
Proof. unfold getitem. by destruct (d !! k). Qed.

Lemma env_stable_setvar k v : env_stable (setvar k v).
Proof. done. Qed.

Lemma env_stable_var k : env_stable (var k).
Proof. intros st. unfold var, bind, get, getitem. by destruct (vars st !! k). Qed.

Lemma env_stable_opt k : env_stable (opt k).
Proof. intros st. unfold opt, bind, get, getitem. by destruct (opts st !! k). Qed.

Lemma env_stable_getenv k : env_stable (getenv k).
Proof. done. Qed.

Lemma env_stable_env_set k : env_stable (env_set k).
Proof. done. Qed.

Lemma env_stable_environ_getitem k : env_stable (environ_getitem k).
Proof.
  intros st. unfold environ_getitem, bind, get, getitem. by destruct (environ st !! k).
Qed.

Lemma env_stable_addvar k v : env_stable (addvar k v).
Proof. apply env_stable_bind; [apply env_stable_var|intros; apply env_stable_setvar]. Qed.

Lemma env_stable_replace_in_var old new k : env_stable (replace_in_var old new k).
Proof. apply env_stable_bind; [apply env_stable_var|intros; apply env_stable_setvar]. Qed.

Lemma env_stable_log_warning msg : env_stable (log_warning msg).
Proof. done. Qed.

Lemma env_stable_log_error {A} h fn msg : env_stable (@log_error h A fn msg).
Proof. done. Qed.

Lemma env_stable_when c m : env_stable m -> env_stable (when c m).
Proof. intros Hm. destruct c; [done|]. apply env_stable_ret. Qed.

Lemma env_stable_for_each {A} (l : list A) body :
  (forall x, env_stable (body x)) -> env_stable (for_each l body).
Proof.
  intros Hb. induction l as [|x l IH]; [done|].
  cbn [for_each]. apply env_stable_bind; [apply Hb|by intros].
Qed.

Create HintDb env_stable discriminated.
#[local] Hint Resolve env_stable_ret env_stable_raise env_stable_get env_stable_getitem
  env_stable_setvar env_stable_var env_stable_opt env_stable_getenv
  env_stable_env_set env_stable_environ_getitem env_stable_addvar
  env_stable_replace_in_var env_stable_log_warning env_stable_log_error
  env_stable_when : env_stable.

(** Decompose an operation into the pieces that the hints know. *)
Ltac env_stable_tac :=
  repeat first
    [ apply env_stable_bind; [|intros ?]
    | apply env_stable_for_each; intros ?
    | apply env_stable_when
    | match goal with
      | |- env_stable (match ?x with _ => _ end) => destruct x
      end
    | solve [auto with env_stable] ].

Lemma env_stable_flagsForSubdirs_loop h base subdirs flag flags :
  env_stable (_flagsForSubdirs_loop h base subdirs flag flags).
Proof.
  revert flags. induction subdirs as [|sd subdirs IH]; intros flags.
  - apply env_stable_ret.
  - cbn [_flagsForSubdirs_loop]. env_stable_tac; apply IH.
Qed.

Lemma env_stable_flagsForSubdirs h base subdirs flag varskey :
  env_stable (_flagsForSubdirs h base subdirs flag varskey).
Proof.
  unfold _flagsForSubdirs.
  apply env_stable_bind; [apply env_stable_flagsForSubdirs_loop|intros flags].
  env_stable_tac.
Qed.

Lemma fatal_bind {A B} (m : M A) (k : A -> M B) :
  env_stable m -> (forall a, fatal_with_gcc (k a)) -> fatal_with_gcc (bind m k).
Proof.
  intros Hm Hk st Hg b. unfold bind. specialize (Hm st).
  destruct (m st) as [[a|e] st1]; simpl in *; [|done].
  apply Hk. unfold gcc_loaded. by rewrite Hm.
Qed.

Lemma prepareIMKL_fatal_with_gcc h : fatal_with_gcc (prepareIMKL h).
Proof.
  unfold prepareIMKL.
  repeat (apply fatal_bind; [solve [env_stable_tac]|intros ?]).
  destruct a14 as [mklld mklcpp].
  apply fatal_bind; [apply env_stable_flagsForSubdirs|intros _].
  apply fatal_bind; [apply env_stable_flagsForSubdirs|intros _].
  intros st (g & Hg & Hne) r. mrun. rewrite Hg.
  apply String.eqb_neq in Hne. rewrite Hne. cbn [negb].
  rewrite Hg, Hne. cbn [negb orb]. unfold log_error. cbn [fst]. discriminate.
Qed.

(** Whatever else is loaded, with GCC loaded the rule never returns
    normally: the branch that swaps the library name is never taken. *)
Lemma prepareIMKL_never_swaps h st :
  gcc_loaded st -> (prepareIMKL h st).1 <> Ok tt.
Proof. intros Hg. by apply prepareIMKL_fatal_with_gcc. Qed.

(** C4. With MKL and GCC loaded and no Intel compiler, [prepareIMKL] raises
    the error about GCC and Intel compilers both being loaded, and
    [LIBLAPACK] still names [mkl_intel_lp64]; without GCC it returns. *)
Theorem prepareIMKL_fails_with_GCC_alone :
  environ imkl_gcc !! "SOFTROOTICC" = None /\
  environ imkl_gcc !! "SOFTROOTIFORT" = None /\
  environ imkl_gcc !! "SOFTROOTGCC" = Some "/opt/GCC" /\
  (prepareIMKL demo_host imkl_gcc).1 =
    Raise (EasyBuildError
             ("EasyBuild crashed with an error " +:+ callerInfo demo_host "prepareIMKL" +:+
              ": Toolkit preparation with both GCC and Intel compilers loaded is not supported.")) /\
  vars (prepareIMKL demo_host imkl_gcc).2 !! "LIBLAPACK" =
    Some "-Wl,--start-group /opt/imkl/lib/em64t/libmkl_intel_lp64.a /opt/imkl/lib/em64t/libmkl_sequential.a /opt/imkl/lib/em64t/libmkl_core.a -Wl,--end-group" /\
  (prepareIMKL demo_host imkl_only).1 = Ok tt.
Proof. repeat split; vm_compute; reflexivity. Qed.

(** ** The string operations on small inputs *)

Example lower_ex : Str.lower "ScaLAPACK_2" = "scalapack_2".
Proof. reflexivity. Qed.

Example split_ex :
  Str.split "," "CC,,CFLAGS, LIBS" = ["CC"; EmptyString; "CFLAGS"; " LIBS"].
Proof. reflexivity. Qed.

Example split_empty_ex : Str.split "," EmptyString = [EmptyString].
Proof. reflexivity. Qed.

Example replace_ex :
  Str.replace "aa" "b" "aaaxaa" = "baxb" /\ Str.replace EmptyString "-" "abc" = "-a-b-c-".
Proof. split; reflexivity. Qed.

Example endswith_ex :
  Str.endswith "32bit" "4.6.3-32bit" = true /\ Str.endswith "32bit" "2bit" = false.
Proof. split; reflexivity. Qed.

(** ** The toolkit on small inputs *)

Example prepareGCC_default :
  let r := prepareGCC demo_host gcc463 in
  r.1 = Ok tt /\
  vars r.2 !! "CC" = Some "gcc " /\
  vars r.2 !! "F77" = Some "gfortran  " /\
  vars r.2 !! "CFLAGS" = Some "-march=native -O2" /\
  vars r.2 !! "FLIBS" = Some "-lgfortran".
Proof. repeat split; vm_compute; reflexivity. Qed.

(** [noopt] is asked first. *)
Example getOptimizationLevel_noopt_first :
  let both o := <["opt" := VBool true]> (<["noopt" := VBool true]> o) in
  (_getOptimizationLevel (set_opts both gcc463)).1 = Ok "O0" /\
  (_getOptimizationLevel gcc463).1 = Ok "O2".
Proof. split; vm_compute; reflexivity. Qed.

(** The dummy toolkit of version [dummy] loads nothing and sets nothing. *)
Example prepare_dummy :
  let st := init "dummy" "dummy" ∅ [] in
  prepare demo_host ANone st = (Ok tt, st).
Proof. vm_compute; reflexivity. Qed.

(** A dependency without rule is fatal, and no variable has been set. *)
Example generate_variables_unknown :
  let st := set_toolkit_deps [module_ "FFTW" "3.3.1"; module_ "unknownlib" "1"]
              with_math_roots in
  let r := _generate_variables demo_host st in
  r.1 = Raise (EasyBuildError
                 ("EasyBuild crashed with an error " +:+
                  callerInfo demo_host "_generate_variables" +:+
                  ": Don't know how to prepare for toolkit dependency unknownlib")) /\
  vars r.2 = ∅ /\ environ r.2 = environ st.
Proof. repeat split; vm_compute; reflexivity. Qed.

(** A whole preparation: nothing loaded before, the toolkit brings GCC and
    OpenMPI. *)
Example prepare_goalf :
  let r := prepare demo_host ANone (init "goalf" "1.1.0" ∅ []) in
  r.1 = Ok tt /\
  toolkit_deps r.2 = [module_ "GCC" "4.6.3"; module_ "OpenMPI" "1.4.5"] /\
  vars r.2 !! "MPICC" = Some "mpicc " /\
  environ r.2 !! "CC" = Some "gcc " /\
  environ r.2 !! "SOFTVARCC" = Some "gcc ".
Proof. repeat split; vm_compute; reflexivity. Qed.

(** * Further properties *)

(** ** No rule writes to the environment *)

(** As [env_stable_tac], seeing through local definitions and using the
    lemmas about the helpers of the rules. *)
Ltac env_stable_rule :=
  repeat first
    [ solve [auto with env_stable]
    | progress cbv zeta
    | apply env_stable_bind; [|intros ?]
    | apply env_stable_for_each; intros ?
    | apply env_stable_when
    | match goal with
      | |- env_stable (match ?x with _ => _ end) => destruct x
      end ].

Lemma env_stable_addDependencyVariables h dep :
  env_stable (_addDependencyVariables h dep).
Proof.
  unfold _addDependencyVariables.
  apply env_stable_bind; [apply env_stable_get|intros st].
  apply env_stable_for_each. intros [|d|l]; cbn [_addDependencyVariables_body];
    [apply env_stable_raise| |apply env_stable_raise].
  apply env_stable_bind; [apply env_stable_getitem|intros n].
  apply env_stable_bind; [apply env_stable_get|intros st'].
  apply env_stable_bind.
  - destruct (getSoftwareRoot h (environ st') n) as [r|]; [|apply env_stable_log_error].
    destruct (negb (String.eqb r EmptyString));
      [apply env_stable_ret|apply env_stable_log_error].
  - intros root. apply env_stable_bind; [apply env_stable_flagsForSubdirs|intros _].
    apply env_stable_flagsForSubdirs.
Qed.

Lemma env_stable_getOptimizationLevel : env_stable _getOptimizationLevel.
Proof. unfold _getOptimizationLevel. env_stable_rule. Qed.

Lemma env_stable_getOptimalArchitecture h : env_stable (_getOptimalArchitecture h).
Proof. unfold _getOptimalArchitecture. env_stable_rule. Qed.

Lemma env_stable_flagsForOptions_loop kvs flags :
  env_stable (_flagsForOptions_loop kvs flags).
Proof.
  revert flags. induction kvs as [|[key newFlags] kvs IH]; intros flags.
  - apply env_stable_ret.
  - cbn [_flagsForOptions_loop].
    apply env_stable_bind; [apply env_stable_opt|intros v].
    destruct (truthy v); [destruct newFlags|]; apply IH.
Qed.

Lemma env_stable_flagsForOptions override : env_stable (_flagsForOptions override).
Proof. apply env_stable_flagsForOptions_loop. Qed.

Lemma env_stable_use_mpi_compilers : env_stable use_mpi_compilers.
Proof. unfold use_mpi_compilers. env_stable_rule. Qed.

#[local] Hint Resolve env_stable_addDependencyVariables env_stable_getOptimizationLevel
  env_stable_getOptimalArchitecture env_stable_flagsForOptions
  env_stable_use_mpi_compilers env_stable_flagsForSubdirs : env_stable.

Lemma env_stable_prepareSimpleMPI : env_stable prepareSimpleMPI.
Proof. unfold prepareSimpleMPI. env_stable_rule. Qed.

Lemma env_stable_prepareIMKL h : env_stable (prepareIMKL h).
Proof. unfold prepareIMKL. env_stable_rule. Qed.

Lemma env_stable_call h m : env_stable (call h m).
Proof.
  destruct m; cbn [call];
    first [apply env_stable_prepareSimpleMPI | apply env_stable_prepareIMKL | idtac].
  - unfold prepareGCC. env_stable_rule.
  - unfold prepareIcc. env_stable_rule.
  - unfold prepareIMPI. env_stable_rule.
  - unfold prepareMPICH2. env_stable_rule.
  - unfold prepareQLogicMPI. env_stable_rule.
  - unfold prepareATLAS. env_stable_rule.
  - unfold prepareFFTW. env_stable_rule.
  - unfold prepareGotoBLAS. env_stable_rule.
  - unfold prepareLAPACK. env_stable_rule.
  - unfold prepareBLACS. env_stable_rule.
  - unfold prepareFLAME. env_stable_rule.
  - unfold prepareScaLAPACK. env_stable_rule.
Qed.

Lemma env_stable_prepareACML h : env_stable (prepareACML h).
Proof. unfold prepareACML. env_stable_rule. Qed.

Lemma env_stable_depnames_of deps : env_stable (depnames_of deps).
Proof.
  induction deps as [|dep deps IH]; [apply env_stable_ret|].
  cbn [depnames_of]. apply env_stable_bind; [apply env_stable_getitem|intros n].
  destruct n; try apply env_stable_raise.
  apply env_stable_bind; [apply IH|intros r; apply env_stable_ret].
Qed.

Lemma env_stable_select_methods h depnames acc :
  env_stable (select_methods h depnames acc).
Proof.
  revert acc. induction depnames as [|dep depnames IH]; intros acc st.
  - done.
  - rewrite select_methods_cons.
    destruct (find_meth dep meth_keys) as [meth|]; [|done].
    destruct (known_preparation_methods !! meth); [apply IH|done].
Qed.

Lemma generate_variables_stable h :
  env_stable (_generate_variables h) /\
  (forall m, env_stable (call h m)) /\
  env_stable (prepareACML h).
Proof.
  split; [|split; [apply env_stable_call|apply env_stable_prepareACML]].
  unfold _generate_variables.
  apply env_stable_bind; [apply env_stable_get|intros st].
  apply env_stable_bind; [apply env_stable_depnames_of|intros depnames].
  apply env_stable_bind; [apply env_stable_select_methods|intros ms].
  repeat (apply env_stable_bind; [apply env_stable_setvar|intros _]).
  apply env_stable_bind.
  - apply env_stable_for_each. intros m. apply env_stable_call.
  - intros _. destruct ms; [|apply env_stable_ret].
    destruct (known_preparation_methods !! name st);
      [apply env_stable_call|apply env_stable_log_error].
Qed.

(** X1. Whatever the dependencies, the toolkit name and the state of the
    toolkit, [_generate_variables] and every preparation rule leave
    [os.environ] as it is, whether they return or raise: the variables reach
    the environment through [_setVariables] only. *)
Theorem generate_variables_keeps_environ h st :
  environ (_generate_variables h st).2 = environ st /\
  (forall m, environ (call h m st).2 = environ st) /\
  environ (prepareACML h st).2 = environ st.
Proof.
  destruct (generate_variables_stable h) as (H1 & H2 & H3).
  split; [apply H1|]. split; [intros m; apply H2|apply H3].
Qed.

(** ** [prepare] *)

Lemma env_stable_remove_loaded_loop fuel prev i :
  env_stable (remove_loaded_loop fuel prev i).
Proof.
  revert i. induction fuel as [|fuel IH]; intros i st; [done|].
  rewrite remove_loaded_loop_S.
  destruct (toolkit_deps st !! i) as [dep|]; [|done].
  destruct (if bool_decide (dep ∈ prev) then _ else _) as [[[|]|e] s]; [| |done].
  - by rewrite IH.
  - by rewrite IH.
Qed.

Lemma env_stable_remove_loaded prev : env_stable (remove_loaded prev).
Proof.
  unfold remove_loaded. apply env_stable_bind; [apply env_stable_get|intros st].
  apply env_stable_remove_loaded_loop.
Qed.

Lemma env_stable_determineArchitecture h : env_stable (_determineArchitecture h).
Proof.
  unfold _determineArchitecture. destruct (vendor_id h) as [a|]; [|done].
  by destruct (archd !! a).
Qed.

Lemma prepare_missing_toolkit h onlymod st :
  name st <> "dummy" ->
  mod_exists h (VStr (name st)) (VStr (version st)) = false ->
  prepare h onlymod st =
    (Raise (EasyBuildError (no_toolkit_msg h st)), add_log ERROR (no_toolkit_msg h st) st).
Proof.
  intros Hn He. apply String.eqb_neq in Hn.
  unfold prepare, _toolkitExists. mrun. rewrite Hn, He. reflexivity.
Qed.

Lemma prepare_dummy_run h onlymod st :
  name st = "dummy" ->
  prepare h onlymod st =
    (Ok tt,
     if String.eqb (version st) "dummy" then st
     else set_process (mod_load h (ReqDict <$> dependencies st)
                         (environ st) (loaded_modules st)) st).
Proof.
  intros Hn. apply String.eqb_eq in Hn.
  unfold prepare, _toolkitExists, load_modules. mrun. rewrite Hn. cbn [negb].
  rewrite ?Hn. by destruct (String.eqb (version st) "dummy").
Qed.

Lemma prepare_existing h onlymod st :
  name st <> "dummy" ->
  mod_exists h (VStr (name st)) (VStr (version st)) = true ->
  prepare h onlymod st =
    (remove_loaded (loaded_modules st) >>
     load_modules h (ReqDict <$> dependencies st) >>
     _determineArchitecture h >>
     _generate_variables h >>
     match onlymod with
     | ABool true => ret tt
     | _ => _addDependencyVariables h DepNone >> _setVariables onlymod
     end) (toolkit_loaded h st).
Proof.
  intros Hn He. apply String.eqb_neq in Hn.
  unfold prepare, _toolkitExists, load_modules, toolkit_loaded. mrun.
  rewrite Hn, He. cbn [negb]. rewrite ?Hn. reflexivity.
Qed.

Lemma set_toolkit_deps_id st : set_toolkit_deps (toolkit_deps st) st = st.
Proof. by destruct st. Qed.

(** The loop changes [toolkit_deps] and nothing else. *)
Lemma remove_loaded_loop_only_deps fuel prev i st :
  exists l, (remove_loaded_loop fuel prev i st).2 = set_toolkit_deps l st.
Proof.
  revert i st. induction fuel as [|fuel IH]; intros i st.
  - exists (toolkit_deps st). by rewrite set_toolkit_deps_id.
  - rewrite remove_loaded_loop_S.
    destruct (toolkit_deps st !! i) as [dep|];
      [|exists (toolkit_deps st); by rewrite set_toolkit_deps_id].
    destruct (if bool_decide (dep ∈ prev) then _ else _) as [[[|]|e] s].
    + destruct (IH (S i) (set_toolkit_deps (list_remove_first dep (toolkit_deps st)) st))
        as [l Hl]. exists l. by rewrite Hl.
    + apply IH.
    + exists (toolkit_deps st). by rewrite set_toolkit_deps_id.
Qed.

Lemma remove_loaded_only_deps prev st :
  exists l, (remove_loaded prev st).2 = set_toolkit_deps l st.
Proof. unfold remove_loaded, bind, get. apply remove_loaded_loop_only_deps. Qed.

(** X2. A toolkit named [dummy] is prepared without any rule: [prepare]
    returns normally and leaves [vars], [toolkit_deps], [arch], the options
    and the log as they are. With version [dummy] the whole state is
    unchanged; with another version the only effect is the loading of the
    declared dependencies. *)
Theorem prepare_dummy_runs_no_rule h onlymod st :
  name st = "dummy" ->
  let r := prepare h onlymod st in
  r.1 = Ok tt /\
  vars r.2 = vars st /\ toolkit_deps r.2 = toolkit_deps st /\
  arch r.2 = arch st /\ opts r.2 = opts st /\ log r.2 = log st /\
  (version st = "dummy" -> r.2 = st) /\
  (version st <> "dummy" ->
   (environ r.2, loaded_modules r.2) =
     mod_load h (ReqDict <$> dependencies st) (environ st) (loaded_modules st)).
Proof.
  intros Hn r. subst r. rewrite prepare_dummy_run by done. cbn [fst snd].
  destruct (String.eqb (version st) "dummy") eqn:Hv.
  - repeat split; try done. intros Hne. by apply String.eqb_neq in Hne; congruence.
  - repeat split; try done.
    + intros Heq. apply String.eqb_eq in Heq. congruence.
    + intros _. cbn [environ loaded_modules set_process].
      by destruct (mod_load h _ _ _).
Qed.

(** X3. When the module system has no module for a toolkit that is not the
    dummy one, [prepare] raises an [EasyBuildError] that names the toolkit
    and its version; the error is logged, nothing is loaded and no variable
    is set. *)
Theorem prepare_without_toolkit_module h onlymod st :
  name st <> "dummy" ->
  mod_exists h (VStr (name st)) (VStr (version st)) = false ->
  let r := prepare h onlymod st in
  r.1 = Raise (EasyBuildError (no_toolkit_msg h st)) /\
  r.2 = add_log ERROR (no_toolkit_msg h st) st /\
  environ r.2 = environ st /\ loaded_modules r.2 = loaded_modules st /\
  vars r.2 = vars st.
Proof.
  intros Hn He r. subst r. by rewrite prepare_missing_toolkit.
Qed.

(** X4. With [onlymod] equal to [True] the environment changes by the loading
    of modules only: after [prepare] it is the environment left by loading
    the toolkit module or, when the run gets past the toolkit's own
    dependencies (always when it returns normally), the one left by loading
    the declared dependencies too. No variable of [vars] is exported. *)
Theorem prepare_onlymod_environ h st :
  name st <> "dummy" ->
  mod_exists h (VStr (name st)) (VStr (version st)) = true ->
  let r := prepare h (ABool true) st in
  (environ r.2 = environ (toolkit_loaded h st) \/
   environ r.2 = all_loaded_environ h st) /\
  (r.1 = Ok tt -> environ r.2 = all_loaded_environ h st).
Proof.
  intros Hn He r. subst r. rewrite prepare_existing by done.
  unfold bind, load_modules, modify, ret.
  destruct (remove_loaded_only_deps (loaded_modules st) (toolkit_loaded h st)) as [l Hl].
  destruct (remove_loaded (loaded_modules st) (toolkit_loaded h st)) as [[[]|e] s2];
    cbn [snd] in Hl; subst s2; cbn [fst snd];
    [|split; [by left|intros Hd; discriminate Hd]].
  cbn [environ loaded_modules set_toolkit_deps].
  set (s3 := set_process _ _).
  assert (H3 : environ s3 = all_loaded_environ h st) by reflexivity.
  pose proof (env_stable_determineArchitecture h s3) as H4.
  destruct (_determineArchitecture h s3) as [[[]|e] s4]; cbn [fst snd] in *;
    [|split; [right; congruence|intros Hd; discriminate Hd]].
  destruct (generate_variables_stable h) as [Hg _].
  specialize (Hg s4).
  destruct (_generate_variables h s4) as [[[]|e] s5]; cbn [fst snd] in *;
    [|split; [right; congruence|intros Hd; discriminate Hd]].
  split; [right|intros _]; congruence.
Qed.

(** ** [_generate_variables]: unknown dependencies and the fallback *)

Lemma find_meth_elem dep ks meth : find_meth dep ks = Some meth -> meth ∈ ks.
Proof.
  induction ks as [|k ks IH]; [done|]. cbn [find_meth].
  destruct (String.eqb _ _).
  - intros [= ->]. apply elem_of_cons. by left.
  - intros Hf. apply elem_of_cons. right. by apply IH.
Qed.

Lemma meth_keys_lookup meth :
  meth ∈ meth_keys -> is_Some (known_preparation_methods !! meth).
Proof.
  unfold meth_keys. rewrite merge_sort_Permutation. apply elem_of_keys.
Qed.

Lemma select_methods_known h known rest acc st :
  Forall (fun n => is_Some (find_meth n meth_keys)) known ->
  exists acc', select_methods h (known ++ rest) acc st = select_methods h rest acc' st.
Proof.
  intros Hk. revert acc. induction Hk as [|n known [meth Hn] Hk IH]; intros acc.
  - by exists acc.
  - cbn [app]. rewrite select_methods_cons, Hn.
    destruct (meth_keys_lookup meth) as [m Hm]; [by eapply find_meth_elem|].
    rewrite Hm. apply IH.
Qed.

(** X5. When the names of the toolkit dependencies can be read and one of
    them has no rule, [_generate_variables] raises an [EasyBuildError] that
    names the first such dependency; the error is logged and nothing else
    changes: no rule has run and [vars] is untouched. *)
Theorem generate_variables_unknown_dependency h st known dep rest :
  depnames_of (toolkit_deps st) st = (Ok (known ++ dep :: rest), st) ->
  Forall (fun n => is_Some (find_meth n meth_keys)) known ->
  find_meth dep meth_keys = None ->
  _generate_variables h st =
    (Raise (EasyBuildError (unknown_dependency_msg h dep)),
     add_log ERROR (unknown_dependency_msg h dep) st).
Proof.
  intros Hd Hk Hu. unfold _generate_variables.
  unfold bind at 1, get at 1. unfold bind at 1. rewrite Hd.
  unfold bind at 1.
  destruct (select_methods_known h known (dep :: rest) [] st Hk) as [acc' ->].
  rewrite select_methods_cons, Hu. reflexivity.
Qed.

Lemma library_names_are_no_keys meth :
  meth ∈ meth_keys -> known_preparation_methods !! meth_name meth = None.
Proof.
  assert (Hall : forallb (fun m => bool_decide (known_preparation_methods !! meth_name m = None))
                   meth_keys = true) by (vm_compute; reflexivity).
  rewrite forallb_forall in Hall. intros Hin.
  apply list_elem_of_In, Hall in Hin. by apply bool_decide_eq_true_1 in Hin.
Qed.

Lemma generate_variables_fallback_fails h st :
  toolkit_deps st = [] ->
  known_preparation_methods !! name st = None ->
  _generate_variables h st =
    (Raise (EasyBuildError (unknown_toolkit_msg h (name st))),
     add_log ERROR (unknown_toolkit_msg h (name st)) (with_empty_flags st)).
Proof.
  intros Hd Hn. unfold _generate_variables.
  unfold bind at 1, get at 1. rewrite Hd. cbn [depnames_of select_methods].
  mrun. cbn [for_each]. unfold ret. cbn [name set_vars]. rewrite Hn. reflexivity.
Qed.

(** X6. The fallback on the toolkit name looks the bare name up in a table
    whose keys carry a priority prefix. So for a toolkit without
    dependencies of its own that is named after any library of the table
    ([GCC], [icc], [OpenMPI], ...) [_generate_variables] raises the error
    about not knowing the toolkit, after setting [LDFLAGS], [CPPFLAGS] and
    [LIBS] to the empty string; no rule runs. *)
Theorem generate_variables_fallback_by_library_name h st meth :
  toolkit_deps st = [] ->
  meth ∈ meth_keys ->
  name st = meth_name meth ->
  _generate_variables h st =
    (Raise (EasyBuildError (unknown_toolkit_msg h (name st))),
     add_log ERROR (unknown_toolkit_msg h (name st)) (with_empty_flags st)).
Proof.
  intros Hd Hm Hn. apply generate_variables_fallback_fails; [done|].
  rewrite Hn. by apply library_names_are_no_keys.
Qed.

(** ** The loop of [prepare] over the loaded modules *)

Lemma list_remove_first_sublist x l : list_remove_first x l `sublist_of` l.
Proof.
  induction l as [|y l IH]; [done|]. cbn [list_remove_first].
  case_bool_decide; [by apply sublist_cons|by apply sublist_skip].
Qed.

Lemma remove_loaded_loop_sublist fuel prev i st :
  toolkit_deps (remove_loaded_loop fuel prev i st).2 `sublist_of` toolkit_deps st.
Proof.
  revert i st. induction fuel as [|fuel IH]; intros i st; [done|].
  rewrite remove_loaded_loop_S.
  destruct (toolkit_deps st !! i) as [dep|]; [|done].
  destruct (if bool_decide (dep ∈ prev) then _ else _) as [[[|]|e] s]; [| |done].
  - etrans; [apply IH|]. apply list_remove_first_sublist.
  - apply IH.
Qed.

(** X7. Whatever was loaded before, the loop of [prepare] only removes:
    what it leaves in [toolkit_deps] is a sublist of what it found there, in
    the same order, and it changes nothing else of the state. *)
Theorem remove_loaded_sublist prev st :
  toolkit_deps (remove_loaded prev st).2 `sublist_of` toolkit_deps st /\
  (remove_loaded prev st).2 =
    set_toolkit_deps (toolkit_deps (remove_loaded prev st).2) st.
Proof.
  split.
  - unfold remove_loaded, bind, get. apply remove_loaded_loop_sublist.
  - destruct (remove_loaded_only_deps prev st) as [l Hl]. by rewrite Hl.
Qed.

Lemma list_remove_first_app_notin x (pre suf : list dict) :
  x ∉ pre -> list_remove_first x (pre ++ x :: suf) = pre ++ suf.
Proof.
  induction pre as [|y pre IH]; intros Hx; cbn [app].
  - apply list_remove_first_eq.
  - apply not_elem_of_cons in Hx as [Hne Hx].
    rewrite list_remove_first_ne by done. by rewrite IH.
Qed.

Lemma remove_loaded_loop_isolated fuel prev st pre suf :
  toolkit_deps st = pre ++ suf ->
  NoDup (pre ++ suf) -> named prev suf ->
  isolated (to_remove prev (name st)) suf = true ->
  length suf < fuel ->
  remove_loaded_loop fuel prev (length pre) st =
    (Ok tt, set_toolkit_deps
              (pre ++ List.filter (fun d => negb (to_remove prev (name st) d)) suf) st).
Proof.
  revert st pre suf. induction fuel as [|fuel IH];
    intros st pre suf Hl Hnd Hnm Hiso Hlen; [lia|].
  rewrite remove_loaded_loop_S, Hl.
  destruct suf as [|a suf].
  - rewrite lookup_ge_None_2 by (rewrite app_nil_r; lia).
    cbn [List.filter]. rewrite <- Hl. by rewrite set_toolkit_deps_id.
  - rewrite list_lookup_middle by done.
    apply Forall_cons in Hnm as [Ha Hnm].
    assert (Hc : (if bool_decide (a ∈ prev) then (Ok true, st)
                  else match a !! "name" with
                       | Some n => (Ok (bool_decide (VStr (name st) = n)), st)
                       | None => (Raise (KeyError "name"), st)
                       end) = (Ok (to_remove prev (name st) a), st)).
    { unfold to_remove. case_bool_decide as Hp; [done|]. cbn [orb].
      destruct Ha as [?|[n Hn]]; [done|]. rewrite Hn. do 2 f_equal.
      apply bool_decide_ext. split; [by intros <-|by intros [= ->]]. }
    rewrite Hc. cbn [List.filter].
    destruct (to_remove prev (name st) a) eqn:Hr; cbn [negb].
    + assert (Hpre : a ∉ pre).
      { apply NoDup_app in Hnd as (_ & Hd & _). intros Hin.
        apply (Hd a Hin). apply elem_of_cons. by left. }
      rewrite list_remove_first_app_notin by done.
      destruct suf as [|b suf].
      * cbn [List.filter]. rewrite !app_nil_r.
        destruct fuel as [|fuel]; [reflexivity|]. rewrite remove_loaded_loop_S.
        cbn [toolkit_deps set_toolkit_deps].
        by rewrite lookup_ge_None_2 by lia.
      * cbn [isolated] in Hiso. rewrite Hr in Hiso.
        apply andb_prop in Hiso as [Hb Hiso]. apply negb_true_iff in Hb.
        cbn [List.filter]. rewrite Hb. cbn [negb].
        replace (S (length pre)) with (length (pre ++ [b]))
          by (rewrite List.length_app; cbn [length]; lia).
        rewrite (IH (set_toolkit_deps (pre ++ b :: suf) st) (pre ++ [b]) suf).
        -- cbn [name set_toolkit_deps]. by rewrite <- app_assoc.
        -- cbn [toolkit_deps set_toolkit_deps]. by rewrite <- app_assoc.
        -- rewrite <- app_assoc. cbn [app].
           apply NoDup_app in Hnd as (H1 & H2 & H3). apply NoDup_cons in H3 as [_ H3].
           apply NoDup_app. split; [done|]. split; [|done].
           intros x Hx Hin. apply (H2 x Hx). apply elem_of_cons. by right.
        -- by apply Forall_cons in Hnm as [_ Hnm].
        -- destruct suf; [done|]. cbn [isolated] in Hiso.
           by apply andb_prop in Hiso as [_ Hiso].
        -- cbn [length] in *. lia.
    + replace (S (length pre)) with (length (pre ++ [a]))
        by (rewrite List.length_app; cbn [length]; lia).
      rewrite (IH st (pre ++ [a]) suf).
      * by rewrite <- app_assoc.
      * by rewrite <- app_assoc.
      * by rewrite <- app_assoc.
      * done.
      * destruct suf; [done|]. cbn [isolated] in Hiso. rewrite Hr in Hiso.
        by apply andb_prop in Hiso as [_ Hiso].
      * cbn [length] in *. lia.
Qed.

(** ** [prepare] when the modules to remove are isolated *)

(** X8. Let the loaded modules be pairwise different, let every module that
    was not loaded before have a name, and let no module to remove (loaded
    before, or named as the toolkit) be followed at once by another module
    to remove. Then the loop of [prepare] returns normally and leaves in
    [toolkit_deps] exactly the modules that are not to remove, in their
    order. *)
Theorem remove_loaded_when_isolated prev st :
  NoDup (toolkit_deps st) ->
  named prev (toolkit_deps st) ->
  isolated (to_remove prev (name st)) (toolkit_deps st) = true ->
  remove_loaded prev st =
    (Ok tt,
     set_toolkit_deps
       (List.filter (fun d => negb (to_remove prev (name st) d)) (toolkit_deps st)) st).
Proof.
  intros Hnd Hnm Hiso. unfold remove_loaded, bind, get.
  apply (remove_loaded_loop_isolated _ prev st [] (toolkit_deps st));
    [reflexivity|exact Hnd|exact Hnm|exact Hiso|lia].
Qed.

(** ** [addDependencies] and [getDependencyVersion] *)




Lemma string_app_assoc a b c : (a +:+ b) +:+ c = a +:+ b +:+ c.
Proof. induction a as [|x a IH]; [done|]. by rewrite !app_cons, IH. Qed.

(** X10. For a descriptor with a name and without explicit version,
    [getDependencyVersion] asks the module system for the versions that are
    available for the name and the toolkit suffix: it returns the last one,
    and with none available it raises an [EasyBuildError] that names the
    dependency and the suffix. *)
Theorem getDependencyVersion_available h st (dependency : dict) n :
  dependency !! "version" = None ->
  dependency !! "name" = Some n ->
  let suffix := toolkit_suffix st dependency +:+
                str_of (default (VStr EmptyString) (dependency !! "suffix")) in
  let matches := mod_available h n suffix in
  (forall m, last matches = Some m ->
     getDependencyVersion h dependency st = (Ok m, st)) /\
  (matches = [] ->
     getDependencyVersion h dependency st =
       (Raise (EasyBuildError (no_version_msg h n suffix)),
        add_log ERROR (no_version_msg h n suffix) st)).
Proof.
  intros Hv Hn suffix matches. subst suffix matches.
  unfold getDependencyVersion. mrun. rewrite Hv, Hn. split.
  - intros m Hm. by rewrite Hm.
  - intros He. rewrite He. cbn [last]. unfold log_error, no_version_msg.
    by rewrite string_app_assoc.
Qed.

(** ** Rules that cannot succeed, and rules that need an earlier rule *)

(** X11. [prepareACML] never returns normally: for a 32-bit toolkit it raises
    the [EasyBuildError] about ACML, and otherwise it hands a list of
    descriptors where [_addDependencyVariables] takes one descriptor, which
    raises a [TypeError] before any variable is set. *)
Theorem prepareACML_never_returns h st :
  (prepareACML h st).1 <> Ok tt /\
  (forall b32, opts st !! "32bit" = Some b32 -> truthy b32 = false ->
     exists what, prepareACML h st = (Raise (TypeError what), st)).
Proof.
  unfold prepareACML. split.
  - mrun. destruct (opts st !! "32bit") as [b|]; [|by cbn].
    destruct (truthy b); [by cbn|].
    unfold _addDependencyVariables. mrun.
    rewrite bool_decide_eq_false_2 by done. by cbn.
  - intros b32 Hb Ht. eexists. mrun. rewrite Hb, Ht.
    unfold _addDependencyVariables. mrun.
    rewrite bool_decide_eq_false_2 by done. by cbn.
Qed.

(** X12. The rules that extend a line need the rule that starts it. Without
    [LIBBLAS], [prepareLAPACK] raises [KeyError] and changes nothing; with
    [LIBBLAS] but without [LIBBLAS_MT] it raises [KeyError] after having set
    [LIBLAPACK]. In the same way [prepareScaLAPACK] without
    [LIBSCALAPACK_MT] raises after having extended [LIBSCALAPACK], and
    [prepareFLAME] without [LIBLAPACK] raises and changes nothing. *)
Theorem extending_rules_need_their_line h st :
  (vars st !! "LIBBLAS" = None ->
   prepareLAPACK h st = (Raise (KeyError "LIBBLAS"), st)) /\
  (forall blas, vars st !! "LIBBLAS" = Some blas -> vars st !! "LIBBLAS_MT" = None ->
   prepareLAPACK h st =
     (Raise (KeyError "LIBBLAS_MT"),
      set_vars <["LIBLAPACK" := blas +:+ " -llapack"]> st)) /\
  (vars st !! "LIBSCALAPACK" = None ->
   prepareScaLAPACK h st = (Raise (KeyError "LIBSCALAPACK"), st)) /\
  (forall lib, vars st !! "LIBSCALAPACK" = Some lib ->
   vars st !! "LIBSCALAPACK_MT" = None ->
   prepareScaLAPACK h st =
     (Raise (KeyError "LIBSCALAPACK_MT"),
      set_vars <["LIBSCALAPACK" := lib +:+ " -lscalapack"]> st)) /\
  (vars st !! "LIBLAPACK" = None ->
   prepareFLAME h st = (Raise (KeyError "LIBLAPACK"), st)).
Proof.
  split; [|split; [|split; [|split]]].
  - intros Hb. unfold prepareLAPACK. mrun. by rewrite Hb.
  - intros blas Hb Hm. unfold prepareLAPACK. mrun. rewrite Hb. cbn [vars set_vars].
    rewrite lookup_insert_ne by done. by rewrite Hm.
  - intros Hl. unfold prepareScaLAPACK. mrun. by rewrite Hl.
  - intros lib Hl Hm. unfold prepareScaLAPACK. mrun. rewrite Hl. cbn [vars set_vars].
    rewrite lookup_insert_ne by done. by rewrite Hm.
  - intros Hl. unfold prepareFLAME. mrun. by rewrite Hl.
Qed.

(** ** 32-bit toolkits and GCC *)

(** X13. A toolkit whose version ends in [32bit] is constructed with the
    option [32bit] set and the flag [ -m32]; [prepareGCC] refuses it with an
    [EasyBuildError] before setting any variable. *)
Theorem prepareGCC_refuses_32bit h n v env loaded :
  Str.endswith "32bit" v = true ->
  let st := init n v env loaded in
  opts st !! "32bit" = Some (VBool true) /\
  m32flag st = " -m32" /\
  prepareGCC h st =
    (Raise (EasyBuildError (gcc_32bit_msg h)), add_log ERROR (gcc_32bit_msg h) st).
Proof.
  intros Hv st. subst st. unfold init. rewrite Hv. cbn [opts m32flag].
  split; [by rewrite lookup_insert_eq|]. split; [done|].
  unfold prepareGCC. mrun. cbn [opts]. by rewrite lookup_insert_eq.
Qed.

(** ** Architecture *)

Lemma archd_values a v : archd !! a = Some v -> v = "Intel" \/ v = "AMD".
Proof.
  unfold archd. cbn [list_to_map foldr uncurry].
  intros [[_ <-]|[_ H]]%lookup_insert_Some; [by left|].
  apply lookup_insert_Some in H as [[_ <-]|[_ H]]; [by right|].
  by rewrite lookup_empty in H.
Qed.

(** X14. When [_determineArchitecture] returns normally it has set [arch] to
    [Intel] or [AMD], and [_getOptimalArchitecture] then returns [xHOST] or
    [msse3] without raising; before any detection, with [arch] unset,
    [_getOptimalArchitecture] raises an [EasyBuildError]. *)
Theorem optimal_architecture_after_detection h st :
  let r := _determineArchitecture h st in
  (r.1 = Ok tt ->
   (arch r.2 = Some "Intel" /\ _getOptimalArchitecture h r.2 = (Ok "xHOST", r.2)) \/
   (arch r.2 = Some "AMD" /\ _getOptimalArchitecture h r.2 = (Ok "msse3", r.2))) /\
  (arch st = None -> forall flag, (_getOptimalArchitecture h st).1 <> Ok flag).
Proof.
  intros r. subst r. split.
  - unfold _determineArchitecture.
    destruct (vendor_id h) as [a|]; [|intros Hd; discriminate Hd].
    destruct (archd !! a) as [v|] eqn:Ha; [|intros Hd; discriminate Hd].
    intros _. unfold modify. cbn [fst snd arch set_arch].
    destruct (archd_values a v Ha) as [-> | ->]; [left|right];
      (split; [done|]); unfold _getOptimalArchitecture; mrun; reflexivity.
  - intros Ha flag. unfold _getOptimalArchitecture. mrun. rewrite Ha. by cbn.
Qed.

(** ** Running one step *)

Lemma run_bind {A B} (m : M A) (k : A -> M B) st :
  bind m k st =
    match m st with
    | (Ok a, st') => k a st'
    | (Raise e, st') => (Raise e, st')
    end.
Proof. reflexivity. Qed.

Lemma opt_run k st :
  opt k st =
    match opts st !! k with
    | Some v => (Ok v, st)
    | None => (Raise (KeyError k), st)
    end.
Proof. unfold opt. mrun. by destruct (opts st !! k). Qed.

Lemma var_run k st :
  var k st =
    match vars st !! k with
    | Some v => (Ok v, st)
    | None => (Raise (KeyError k), st)
    end.
Proof. unfold var. mrun. by destruct (vars st !! k). Qed.

Lemma setvar_run k v st : setvar k v st = (Ok tt, set_vars <[k := v]> st).
Proof. reflexivity. Qed.

(** ** [prepareGCC] on the options of the constructor *)

Lemma constructed_opts_lookup st k :
  constructed_opts st -> k ∈ dom default_opts -> is_Some (opts st !! k).
Proof. intros Hd Hk. apply elem_of_dom. by rewrite Hd. Qed.

Lemma getOptimizationLevel_run st :
  constructed_opts st ->
  _getOptimizationLevel st = (Ok (level_of (opts st)), st).
Proof.
  intros Hc. unfold _getOptimizationLevel, level_of.
  destruct (constructed_opts_lookup st "noopt" Hc) as [a Ha]; [by vm_compute|].
  destruct (constructed_opts_lookup st "opt" Hc) as [b Hb]; [by vm_compute|].
  destruct (constructed_opts_lookup st "lowopt" Hc) as [c Hl]; [by vm_compute|].
  mrun. rewrite Ha, ?Hb, ?Hl. cbn [from_option].
  destruct (truthy a); [done|]. rewrite ?Hb.
  destruct (truthy b); [done|]. rewrite ?Hl.
  by destruct (truthy c).
Qed.

Lemma flagsForOptions_loop_run kvs flags st :
  Forall (fun kv => is_Some (opts st !! kv.1)) kvs ->
  exists flags', _flagsForOptions_loop kvs flags st = (Ok (flags ++ flags'), st).
Proof.
  intros Hk. revert flags. induction Hk as [|[k nf] kvs [v Hv] Hk IH]; intros flags.
  - exists []. by rewrite app_nil_r.
  - cbn [_flagsForOptions_loop]. mrun. cbn [fst] in Hv. rewrite Hv.
    destruct (truthy v); [destruct nf as [s|l]|].
    + destruct (IH (flags ++ [s])) as [f' ->]. exists (s :: f').
      by rewrite <- app_assoc.
    + destruct (IH (flags ++ l)) as [f' ->]. exists (l ++ f').
      by rewrite <- app_assoc.
    + apply IH.
Qed.

Lemma gcc_flag_keys_constructed :
  Forall (fun kv : string * flagval => kv.1 ∈ dom default_opts) (items gcc_flagOptions).
Proof.
  apply Forall_forall. intros kv Hin.
  assert (Hall : forallb (fun kv : string * flagval => bool_decide (kv.1 ∈ dom default_opts))
                   (items gcc_flagOptions) = true) by (vm_compute; reflexivity).
  rewrite forallb_forall in Hall. apply list_elem_of_In, Hall in Hin.
  by apply bool_decide_eq_true_1 in Hin.
Qed.

(** X15. For a toolkit that has the options of the constructor and is not a
    32-bit one, [prepareGCC] returns normally. It sets [CC], [F77], [F90]
    and [FLIBS] to the GCC commands, [CXX] to [g++] or, with [cciscxx], to
    the value of [CC]; and since the optimisation level is always among the
    flags, [CFLAGS], [CXXFLAGS], [FFLAGS] and [F90FLAGS] are always set, the
    last three to the same dash-joined list of flags that holds the level. *)
Theorem prepareGCC_on_constructed_options h st b32 cciscxx :
  constructed_opts st ->
  opts st !! "32bit" = Some b32 -> truthy b32 = false ->
  opts st !! "cciscxx" = Some cciscxx ->
  let r := prepareGCC h st in
  r.1 = Ok tt /\
  vars r.2 !! "CC" = Some ("gcc " +:+ m32flag st) /\
  vars r.2 !! "CXX" =
    Some (if truthy cciscxx then "gcc " +:+ m32flag st else "g++ " +:+ m32flag st) /\
  vars r.2 !! "F77" = Some ("gfortran " +:+ m32flag st +:+ " ") /\
  vars r.2 !! "F90" = Some ("gfortran " +:+ m32flag st) /\
  vars r.2 !! "FLIBS" = Some "-lgfortran" /\
  is_Some (vars r.2 !! "CFLAGS") /\
  exists flags,
    level_of (opts st) ∈ flags /\
    vars r.2 !! "CXXFLAGS" = Some (dashed flags) /\
    vars r.2 !! "FFLAGS" = Some (dashed flags) /\
    vars r.2 !! "F90FLAGS" = Some (dashed flags).
Proof.
  intros Hc H32 Ht Hcc r. subst r.
  destruct (prepareGCC h st) as [res stf] eqn:Hrun. cbn [fst snd].
  revert Hrun. unfold prepareGCC.
  rewrite run_bind, opt_run, H32, Ht. cbn [when].
  rewrite run_bind. unfold ret at 1. rewrite run_bind. unfold get at 1.
  do 4 (rewrite run_bind, setvar_run).
  set (st1 := set_vars _ (set_vars _ (set_vars _ (set_vars _ st)))).
  rewrite run_bind, opt_run. change (opts st1) with (opts st). rewrite Hcc.
  assert (Hcxx : exists st2,
            when (truthy cciscxx) (let! cc := var "CC" in setvar "CXX" cc) st1 = (Ok tt, st2) /\
            opts st2 = opts st /\
            (forall k, k <> "CXX" -> vars st2 !! k = vars st1 !! k) /\
            vars st2 !! "CXX" =
              Some (if truthy cciscxx then "gcc " +:+ m32flag st else "g++ " +:+ m32flag st)).
  { destruct (truthy cciscxx); cbn [when].
    - eexists. mrun. subst st1. cbn [vars set_vars]. lk. split; [reflexivity|].
      cbn [opts vars set_vars]. split; [done|]. split; [|by lk].
      intros k Hk. by rewrite lookup_insert_ne.
    - exists st1. unfold ret. split; [done|]. split; [done|]. split; [done|].
      subst st1. cbn [vars set_vars]. by lk. }
  destruct Hcxx as (st2 & Hw & Ho2 & Hv2 & Hcxx). rewrite run_bind, Hw.
  assert (Hc2 : constructed_opts st2) by (unfold constructed_opts; by rewrite Ho2).
  rewrite run_bind, opt_run.
  destruct (constructed_opts_lookup st2 "optarch" Hc2) as [oa ->]; [by vm_compute|].
  rewrite run_bind, getOptimizationLevel_run by done.
  rewrite run_bind. unfold _flagsForOptions. fold gcc_flagOptions.
  destruct (flagsForOptions_loop_run (items gcc_flagOptions) [] st2) as [more Hmore].
  { eapply Forall_impl; [apply gcc_flag_keys_constructed|].
    intros kv Hkv. by apply constructed_opts_lookup. }
  rewrite Hmore. cbn [app].
  rewrite run_bind, opt_run.
  destruct (constructed_opts_lookup st2 "cstd" Hc2) as [cstd ->]; [by vm_compute|].
  set (flags := ((if truthy oa then ["march=native"] else []) ++ [level_of (opts st2)]) ++ more).
  assert (Hlvl : level_of (opts st) ∈ flags).
  { subst flags. rewrite Ho2. apply elem_of_app. left. apply elem_of_app. right.
    apply elem_of_cons. by left. }
  clearbody flags.
  assert (Hpos : forall copts, (0 <? length (flags ++ copts))%nat = true).
  { clear -Hlvl. intros copts.
    destruct flags; [by apply elem_of_nil in Hlvl|reflexivity]. }
  assert (Hpos' : (0 <? length flags)%nat = true).
  { clear -Hlvl. destruct flags; [by apply elem_of_nil in Hlvl|reflexivity]. }
  rewrite Hpos, Hpos'. cbn [when].
  do 4 (rewrite run_bind, setvar_run). rewrite setvar_run.
  intros Hrun. apply pair_equal_spec in Hrun as [<- <-].
  cbn [vars set_vars]. clear Hw Hmore Hc Hc2 Hpos Hpos'. lk. split; [reflexivity|].
  rewrite (Hv2 "CC"), (Hv2 "F77"), (Hv2 "F90") by done.
  subst st1. cbn [vars set_vars]. lk.
  split; [reflexivity|]. split; [exact Hcxx|]. split; [done|]. split; [done|]. split; [done|].
  split; [eauto|]. exists flags. done.
Qed.

(** ** What [_flagsForSubdirs] and [_addDependencyVariables] leave alone *)

Lemma extends_refl P st : extends P st st.
Proof. unfold extends. by repeat split. Qed.

Lemma extends_trans P st1 st2 st3 :
  extends P st1 st2 -> extends P st2 st3 -> extends P st1 st3.
Proof.
  unfold extends.
  intros (?&?&?&?&?&?&?&?&?&Hv1&Hl1) (?&?&?&?&?&?&?&?&?&Hv2&Hl2).
  repeat split; try congruence.
  - intros k Hk. by rewrite Hv2, Hv1.
  - by etrans.
Qed.

Lemma frame_ret {A} P (a : A) : frame P (ret a).
Proof. intros st. apply extends_refl. Qed.

Lemma frame_raise {A} P e : frame P (@raise A e).
Proof. intros st. apply extends_refl. Qed.

Lemma frame_get P : frame P get.
Proof. intros st. apply extends_refl. Qed.

Lemma frame_bind {A B} P (m : M A) (k : A -> M B) :
  frame P m -> (forall a, frame P (k a)) -> frame P (bind m k).
Proof.
  intros Hm Hk st. unfold bind. specialize (Hm st).
  destruct (m st) as [[a|e] st']; cbn [snd] in *; [|done].
  eapply extends_trans; [exact Hm|apply Hk].
Qed.

Lemma frame_for_each {A} P (l : list A) body :
  (forall x, frame P (body x)) -> frame P (for_each l body).
Proof.
  intros Hb. induction l as [|x l IH]; [apply frame_ret|].
  cbn [for_each]. apply frame_bind; [apply Hb|intros _; apply IH].
Qed.

Lemma frame_getitem {A} P (d : gmap string A) k : frame P (getitem d k).
Proof. unfold getitem. destruct (d !! k); [apply frame_ret|apply frame_raise]. Qed.

Lemma frame_var P k : frame P (var k).
Proof. apply frame_bind; [apply frame_get|intros s; apply frame_getitem]. Qed.

Lemma frame_setvar (P : string -> Prop) k v : P k -> frame P (setvar k v).
Proof.
  intros Hk st. unfold extends. cbn. repeat split; try done.
  intros k' Hk'. rewrite lookup_insert_ne; [done|]. by intros ->.
Qed.

Lemma frame_addvar (P : string -> Prop) k v : P k -> frame P (addvar k v).
Proof.
  intros Hk. apply frame_bind; [apply frame_var|intros s; by apply frame_setvar].
Qed.

Lemma frame_log_warning P msg : frame P (log_warning msg).
Proof.
  intros st. unfold extends. cbn. repeat split; try done. by apply prefix_app_r.
Qed.

Lemma frame_log_error {A} P h fn msg : frame P (@log_error h A fn msg).
Proof.
  intros st. unfold extends. cbn. repeat split; try done. by apply prefix_app_r.
Qed.

Lemma frame_flagsForSubdirs_loop P h base subdirs flag flags :
  frame P (_flagsForSubdirs_loop h base subdirs flag flags).
Proof.
  revert flags. induction subdirs as [|d r IH]; intros flags; [apply frame_ret|].
  cbn [_flagsForSubdirs_loop]. destruct (isdir h _).
  - destruct (Str.format1 flag _); [apply IH|apply frame_raise].
  - apply frame_bind; [apply frame_log_warning|intros _; apply IH].
Qed.

Lemma frame_flagsForSubdirs (P : string -> Prop) h base subdirs flag varskey :
  P varskey -> frame P (_flagsForSubdirs h base subdirs flag varskey).
Proof.
  intros Hk. unfold _flagsForSubdirs.
  apply frame_bind; [apply frame_flagsForSubdirs_loop|intros flags].
  apply frame_bind; [apply frame_get|intros s].
  apply frame_bind; [|intros _; by apply frame_addvar].
  destruct (vars s !! varskey); [apply frame_ret|by apply frame_setvar].
Qed.

Lemma frame_addDependencyVariables h dep : frame path_flag (_addDependencyVariables h dep).
Proof.
  unfold _addDependencyVariables.
  apply frame_bind; [apply frame_get|intros s].
  apply frame_for_each. intros [|d|l]; cbn [_addDependencyVariables_body];
    [apply frame_raise| |apply frame_raise].
  apply frame_bind; [apply frame_getitem|intros n].
  apply frame_bind; [apply frame_get|intros s'].
  apply frame_bind.
  - destruct (getSoftwareRoot h _ n) as [r|]; [|apply frame_log_error].
    destruct (negb _); [apply frame_ret|apply frame_log_error].
  - intros root. apply frame_bind; [|intros _];
      apply frame_flagsForSubdirs; [by left|by right].
Qed.

(** X16. [_flagsForSubdirs] changes the variable that it is given and the log,
    and [_addDependencyVariables], for any argument, changes [CPPFLAGS],
    [LDFLAGS] and the log: whether they return or raise, every other
    variable, the options, the dependencies, the environment and the loaded
    modules stay as they are, and the log only grows. *)
Theorem addDependencyVariables_changes_path_flags_only h dep base subdirs flag varskey st :
  extends path_flag st (_addDependencyVariables h dep st).2 /\
  extends (fun k => k = varskey) st (_flagsForSubdirs h base subdirs flag varskey st).2.
Proof.
  split; [apply frame_addDependencyVariables|by apply frame_flagsForSubdirs].
Qed.

(** ** The MPI rules *)

Lemma use_mpi_compilers_run st cc cxx f77 f90 :
  vars st !! "MPICC" = Some cc -> vars st !! "MPICXX" = Some cxx ->
  vars st !! "MPIF77" = Some f77 -> vars st !! "MPIF90" = Some f90 ->
  use_mpi_compilers st =
    (Ok tt, set_vars <["F90" := f90]> (set_vars <["F77" := f77]>
              (set_vars <["CXX" := cxx]> (set_vars <["CC" := cc]> st)))).
Proof.
  intros Hcc Hcxx H77 H90. unfold use_mpi_compilers.
  rewrite for_each_cons, run_bind, var_run.
  change ("MPI" +:+ "CC") with "MPICC". rewrite Hcc, setvar_run.
  rewrite for_each_cons, run_bind, var_run.
  change ("MPI" +:+ "CXX") with "MPICXX". cbn [vars set_vars].
  rewrite lookup_insert_ne by done. rewrite Hcxx, setvar_run.
  rewrite for_each_cons, run_bind, var_run.
  change ("MPI" +:+ "F77") with "MPIF77". cbn [vars set_vars].
  rewrite !lookup_insert_ne by done. rewrite H77, setvar_run.
  rewrite for_each_cons, run_bind, var_run.
  change ("MPI" +:+ "F90") with "MPIF90". cbn [vars set_vars].
  rewrite !lookup_insert_ne by done. rewrite H90, setvar_run.
  reflexivity.
Qed.

(** X17. [prepareSimpleMPI], and with it [prepareOpenMPI] and
    [prepareMVAPICH2], returns normally whenever the options [cciscxx] and
    [usempi] exist. The four MPI wrappers are set from the 32-bit flag,
    [MPICXX] being [MPICC] under [cciscxx]; under [usempi] the four plain
    compilers become the wrappers, [CXX] following [MPICXX], and otherwise
    they are not touched. *)
Theorem prepareSimpleMPI_sets_wrappers st cciscxx usempi :
  opts st !! "cciscxx" = Some cciscxx ->
  opts st !! "usempi" = Some usempi ->
  let r := prepareSimpleMPI st in
  let mpicc := "mpicc " +:+ m32flag st in
  let mpicxx := if truthy cciscxx then mpicc else "mpicxx " +:+ m32flag st in
  r.1 = Ok tt /\ prepareOpenMPI st = r /\ prepareMVAPICH2 st = r /\
  vars r.2 !! "MPICC" = Some mpicc /\
  vars r.2 !! "MPICXX" = Some mpicxx /\
  vars r.2 !! "MPIF77" = Some ("mpif77 " +:+ m32flag st) /\
  vars r.2 !! "MPIF90" = Some ("mpif90 " +:+ m32flag st) /\
  (if truthy usempi
   then vars r.2 !! "CC" = Some mpicc /\ vars r.2 !! "CXX" = Some mpicxx /\
        vars r.2 !! "F77" = Some ("mpif77 " +:+ m32flag st) /\
        vars r.2 !! "F90" = Some ("mpif90 " +:+ m32flag st)
   else vars r.2 !! "CC" = vars st !! "CC" /\ vars r.2 !! "CXX" = vars st !! "CXX" /\
        vars r.2 !! "F77" = vars st !! "F77" /\ vars r.2 !! "F90" = vars st !! "F90").
Proof.
  intros Hcc Hu r mpicc mpicxx.
  assert (Hr : exists stw,
    r = (if truthy usempi then use_mpi_compilers else ret tt) stw /\
    vars stw = <["MPICXX" := mpicxx]> (<["MPIF90" := "mpif90 " +:+ m32flag st]>
                 (<["MPIF77" := "mpif77 " +:+ m32flag st]>
                    (<["MPICXX" := "mpicxx " +:+ m32flag st]>
                       (<["MPICC" := mpicc]> (vars st)))))).
  { subst r. unfold prepareSimpleMPI.
    rewrite run_bind. unfold get at 1.
    do 4 (rewrite run_bind, setvar_run).
    rewrite run_bind, opt_run. cbn [opts set_vars]. rewrite Hcc.
    destruct (truthy cciscxx) eqn:Hc; cbn [when].
    - rewrite run_bind, run_bind, var_run. cbn [vars set_vars]. lk.
      rewrite setvar_run, run_bind, opt_run. cbn [opts set_vars]. rewrite Hu.
      eexists. split; [reflexivity|]. cbn [vars set_vars]. subst mpicxx. done.
    - rewrite run_bind. unfold ret at 1. rewrite run_bind, opt_run.
      cbn [opts set_vars]. rewrite Hu.
      eexists. split; [reflexivity|]. cbn [vars set_vars]. subst mpicxx.
      rewrite (insert_id (<["MPIF90" := _]> _) "MPICXX"); [done|]. by lk. }
  destruct Hr as (stw & Hr & Hw).
  assert (H1 : vars stw !! "MPICC" = Some mpicc) by (rewrite Hw; by lk).
  assert (H2 : vars stw !! "MPICXX" = Some mpicxx) by (rewrite Hw; by lk).
  assert (H3 : vars stw !! "MPIF77" = Some ("mpif77 " +:+ m32flag st)) by (rewrite Hw; by lk).
  assert (H4 : vars stw !! "MPIF90" = Some ("mpif90 " +:+ m32flag st)) by (rewrite Hw; by lk).
  split; [|split; [reflexivity|split; [reflexivity|]]].
  - rewrite Hr. destruct (truthy usempi); [|done].
    by rewrite (use_mpi_compilers_run stw _ _ _ _ H1 H2 H3 H4).
  - rewrite Hr. destruct (truthy usempi).
    + rewrite (use_mpi_compilers_run stw _ _ _ _ H1 H2 H3 H4).
      cbn [snd vars set_vars]. lk. by rewrite H1, H2, H3, H4.
    + unfold ret. cbn [snd]. rewrite H1, H2, H3, H4. rewrite Hw. by lk.
Qed.

Lemma env_set_run k st : env_set k st = (Ok (env_true (environ st) k), st).
Proof. reflexivity. Qed.

Lemma getenv_run k st : getenv k st = (Ok (environ st !! k), st).
Proof. reflexivity. Qed.

(** X18. For an Intel-based toolkit ([SOFTROOTICC] and [SOFTROOTIFORT] set,
    [SOFTROOTGCC] not) whose options [usempi] and [cciscxx] exist,
    [prepareIMPI] returns normally with the Intel wrappers and with
    [I_MPI_CC] and [I_MPI_CXX]. [usempi] is applied before [cciscxx] there:
    with both, [MPICXX] is the C wrapper but [CXX] is still the C++ one. *)
Theorem prepareIMPI_intel_based st usempi cciscxx :
  intel_based (environ st) = true ->
  opts st !! "usempi" = Some usempi ->
  opts st !! "cciscxx" = Some cciscxx ->
  let r := prepareIMPI st in
  r.1 = Ok tt /\
  vars r.2 !! "MPICC" = Some ("mpiicc " +:+ m32flag st) /\
  vars r.2 !! "MPICXX" =
    Some (if truthy cciscxx then "mpiicc " +:+ m32flag st else "mpiicpc " +:+ m32flag st) /\
  vars r.2 !! "MPIF77" = Some ("mpiifort " +:+ m32flag st) /\
  vars r.2 !! "MPIF90" = Some ("mpiifort " +:+ m32flag st) /\
  vars r.2 !! "I_MPI_CC" = Some "icc" /\
  vars r.2 !! "I_MPI_CXX" = Some "icpc" /\
  (if truthy usempi
   then vars r.2 !! "CC" = Some ("mpiicc " +:+ m32flag st) /\
        vars r.2 !! "CXX" = Some ("mpiicpc " +:+ m32flag st)
   else vars r.2 !! "CC" = vars st !! "CC" /\ vars r.2 !! "CXX" = vars st !! "CXX").
Proof.
  intros Hi Hu Hc r. subst r.
  destruct (prepareIMPI st) as [res stf] eqn:Hrun. cbn [fst snd]. revert Hrun.
  unfold prepareIMPI.
  rewrite run_bind, env_set_run, run_bind, env_set_run, run_bind, env_set_run.
  rewrite run_bind. unfold get at 1. fold (intel_based (environ st)). rewrite Hi.
  do 4 (rewrite run_bind, setvar_run).
  rewrite run_bind, opt_run. cbn [opts set_vars]. rewrite Hu.
  set (st4 := set_vars _ (set_vars _ (set_vars _ (set_vars _ st)))).
  assert (Hm : exists st5,
    when (truthy usempi) use_mpi_compilers st4 = (Ok tt, st5) /\ opts st5 = opts st /\
    (forall k, k ∉ ["CC"; "CXX"; "F77"; "F90"] -> vars st5 !! k = vars st4 !! k) /\
    (if truthy usempi
     then vars st5 !! "CC" = Some ("mpiicc " +:+ m32flag st) /\
          vars st5 !! "CXX" = Some ("mpiicpc " +:+ m32flag st)
     else vars st5 !! "CC" = vars st !! "CC" /\ vars st5 !! "CXX" = vars st !! "CXX")).
  { destruct (truthy usempi); cbn [when].
    - erewrite (use_mpi_compilers_run st4); [| subst st4; cbn [vars set_vars]; by lk ..].
      eexists. split; [reflexivity|]. cbn [opts vars set_vars]. split; [done|].
      split; [|by lk].
      intros k Hk. rewrite !lookup_insert_ne; [done|intros <-; apply Hk ..].
      + apply elem_of_cons; by left.
      + apply elem_of_cons; right; apply elem_of_cons; by left.
      + do 2 (apply elem_of_cons; right). apply elem_of_cons; by left.
      + do 3 (apply elem_of_cons; right). apply elem_of_cons; by left.
    - exists st4. unfold ret. split; [done|]. split; [done|]. split; [done|].
      subst st4. cbn [vars set_vars]. by lk. }
  destruct Hm as (st5 & Hw & Ho & Hv & Hcomp). rewrite run_bind, Hw. clear Hw.
  do 2 (rewrite run_bind, setvar_run).
  rewrite run_bind, opt_run. cbn [opts set_vars]. rewrite Ho, Hc.
  assert (Hk : forall k, k ∈ ["MPICC"; "MPICXX"; "MPIF77"; "MPIF90"] ->
                         k ∉ ["CC"; "CXX"; "F77"; "F90"]).
  { intros k Hin. apply (bool_decide_eq_true_1 _).
    repeat (apply elem_of_cons in Hin as [->|Hin]; [vm_compute; reflexivity|]).
    by apply elem_of_nil in Hin. }
  assert (H1 : vars st5 !! "MPICC" = Some ("mpiicc " +:+ m32flag st)).
  { rewrite Hv; [subst st4; cbn [vars set_vars]; by lk|].
    apply Hk, (bool_decide_eq_true_1 _). vm_compute; reflexivity. }
  assert (H2 : vars st5 !! "MPICXX" = Some ("mpiicpc " +:+ m32flag st)).
  { rewrite Hv; [subst st4; cbn [vars set_vars]; by lk|].
    apply Hk, (bool_decide_eq_true_1 _). vm_compute; reflexivity. }
  assert (H3 : vars st5 !! "MPIF77" = Some ("mpiifort " +:+ m32flag st)).
  { rewrite Hv; [subst st4; cbn [vars set_vars]; by lk|].
    apply Hk, (bool_decide_eq_true_1 _). vm_compute; reflexivity. }
  assert (H4 : vars st5 !! "MPIF90" = Some ("mpiifort " +:+ m32flag st)).
  { rewrite Hv; [subst st4; cbn [vars set_vars]; by lk|].
    apply Hk, (bool_decide_eq_true_1 _). vm_compute; reflexivity. }
  clearbody st4. clear Hv Hk.
  destruct (truthy cciscxx); cbn [when].
  - rewrite run_bind, var_run. cbn [vars set_vars]. lk. rewrite H1, setvar_run.
    intros Hrun. apply pair_equal_spec in Hrun as [<- <-].
    cbn [vars set_vars]. lk. rewrite H1, H3, H4.
    repeat (split; [reflexivity|]). destruct (truthy usempi); exact Hcomp.
  - unfold ret. intros Hrun. apply pair_equal_spec in Hrun as [<- <-].
    cbn [vars set_vars]. lk. rewrite H1, H2, H3, H4.
    repeat (split; [reflexivity|]). destruct (truthy usempi); exact Hcomp.
Qed.

(** X19. With any other compiler, [prepareIMPI] builds the four wrappers from
    the compilers that [vars] holds, so it needs [CC], [CXX], [F77] and [F90]
    there: without [CC] it raises [KeyError] and changes nothing, with all
    four it returns normally and leaves them as they are, whatever
    [usempi] says. *)
Theorem prepareIMPI_other_compiler st :
  intel_based (environ st) = false ->
  let r := prepareIMPI st in
  (vars st !! "CC" = None -> r = (Raise (KeyError "CC"), st)) /\
  (forall cc cxx f77 f90,
     vars st !! "CC" = Some cc -> vars st !! "CXX" = Some cxx ->
     vars st !! "F77" = Some f77 -> vars st !! "F90" = Some f90 ->
     r.1 = Ok tt /\
     vars r.2 !! "MPICC" = Some ("mpicc -cc=" +:+ cc +:+ " " +:+ m32flag st +:+ " ") /\
     vars r.2 !! "MPICXX" = Some ("mpicxx -cxx=" +:+ cxx +:+ " " +:+ m32flag st +:+ " ") /\
     vars r.2 !! "MPIF77" = Some ("mpif77 -fc=" +:+ f77 +:+ " " +:+ m32flag st +:+ " ") /\
     vars r.2 !! "MPIF90" = Some ("mpif90 -fc=" +:+ f90 +:+ " " +:+ m32flag st +:+ " ") /\
     vars r.2 !! "CC" = Some cc /\ vars r.2 !! "CXX" = Some cxx /\
     vars r.2 !! "F77" = Some f77 /\ vars r.2 !! "F90" = Some f90).
Proof.
  intros Hi r. subst r.
  destruct (prepareIMPI st) as [res stf] eqn:Hrun. cbn [fst snd]. revert Hrun.
  unfold prepareIMPI.
  rewrite run_bind, env_set_run, run_bind, env_set_run, run_bind, env_set_run.
  rewrite run_bind. unfold get at 1. fold (intel_based (environ st)). rewrite Hi.
  intros Hrun. split.
  - intros Hcc. revert Hrun. rewrite run_bind, var_run, Hcc. by intros <-.
  - intros cc cxx f77 f90 Hcc Hcxx H77 H90. revert Hrun.
    rewrite run_bind, var_run, Hcc, run_bind, setvar_run.
    rewrite run_bind, var_run. cbn [vars set_vars]. lk. rewrite Hcxx, run_bind, setvar_run.
    rewrite run_bind, var_run. cbn [vars set_vars]. lk. rewrite H77, run_bind, setvar_run.
    rewrite run_bind, var_run. cbn [vars set_vars]. lk. rewrite H90, setvar_run.
    intros Hrun. apply pair_equal_spec in Hrun as [<- <-].
    cbn [vars set_vars]. lk. by rewrite Hcc, Hcxx, H77, H90.
Qed.

(** ** [prepareFFTW] *)

(** X20. Without [SOFTVERSIONFFTW] in the environment [prepareFFTW] raises an
    [AttributeError] and changes nothing. With it, and with the option
    [usempi], the rule leaves [LIBFFT] set, whether or not the lookup of the
    FFTW installation that follows succeeds: to the library with suffix [3]
    for a version that starts with [3.] and without suffix otherwise,
    followed under [usempi] by the MPI library of the same suffix. *)
Theorem prepareFFTW_sets_LIBFFT h st :
  let r := prepareFFTW h st in
  (environ st !! "SOFTVERSIONFFTW" = None ->
   r = (Raise (AttributeError "'NoneType' object has no attribute 'startswith'"), st)) /\
  (forall ver usempi,
     environ st !! "SOFTVERSIONFFTW" = Some ver ->
     opts st !! "usempi" = Some usempi ->
     let suffix := if Str.startswith "3." ver then "3" else EmptyString in
     vars r.2 !! "LIBFFT" =
       Some (if truthy usempi
             then (" -lfftw" +:+ suffix +:+ " ") +:+ " -lfftw" +:+ suffix +:+ "_mpi "
             else " -lfftw" +:+ suffix +:+ " ")).
Proof.
  intros r. subst r.
  destruct (prepareFFTW h st) as [res stf] eqn:Hrun. cbn [fst snd]. revert Hrun.
  unfold prepareFFTW. rewrite run_bind, getenv_run. intros Hrun. split.
  - intros Hn. revert Hrun. rewrite Hn. by intros <-.
  - intros ver usempi Hv Hu. revert Hrun. rewrite Hv.
    set (suffix := if Str.startswith "3." ver then "3" else EmptyString).
    rewrite run_bind. unfold ret at 1.
    rewrite run_bind, setvar_run, run_bind, opt_run. cbn [opts set_vars]. rewrite Hu.
    assert (Hf : forall st', vars (_addDependencyVariables h (DepDict {["name" := VStr "FFTW"]}) st').2
                             !! "LIBFFT" = vars st' !! "LIBFFT").
    { intros st'. apply (frame_addDependencyVariables h _ st').
      intros [Hk|Hk]; discriminate Hk. }
    destruct (truthy usempi); cbn [when].
    + rewrite run_bind. unfold addvar. rewrite run_bind, var_run.
      cbn [vars set_vars]. lk. rewrite setvar_run.
      intros Hrun. apply (f_equal snd) in Hrun. cbn [snd] in Hrun. subst stf.
      rewrite Hf. cbn [vars set_vars]. by lk.
    + rewrite run_bind. unfold ret at 1.
      intros Hrun. apply (f_equal snd) in Hrun. cbn [snd] in Hrun. subst stf.
      rewrite Hf. cbn [vars set_vars]. by lk.
Qed.

(** ** [prepareIcc] *)

Lemma icc_flag_keys_constructed :
  Forall (fun kv : string * flagval => kv.1 ∈ dom default_opts) (items icc_flagOptions).
Proof.
  apply Forall_forall. intros kv Hin.
  assert (Hall : forallb (fun kv : string * flagval => bool_decide (kv.1 ∈ dom default_opts))
                   (items icc_flagOptions) = true) by (vm_compute; reflexivity).
  rewrite forallb_forall in Hall. apply list_elem_of_In, Hall in Hin.
  by apply bool_decide_eq_true_1 in Hin.
Qed.

Lemma getOptimalArchitecture_run h st a oa :
  arch st = Some a -> optarchs !! a = Some oa ->
  _getOptimalArchitecture h st = (Ok oa, st).
Proof.
  intros Ha Ho. unfold _getOptimalArchitecture. rewrite run_bind. unfold get at 1.
  rewrite Ha. cbn [mbind option_bind]. by rewrite Ho.
Qed.

Lemma environ_getitem_run k st :
  environ_getitem k st =
    match environ st !! k with
    | Some v => (Ok v, st)
    | None => (Raise (KeyError k), st)
    end.
Proof. unfold environ_getitem. mrun. by destruct (environ st !! k). Qed.

(** X21. Let the toolkit have the options of the constructor, a detected
    architecture, [SOFTVERSIONICC] in the environment and [LIBS] among its
    variables. Then [prepareIcc] returns normally: it sets the four
    compilers to the Intel ones, [CXX] being [CC] under [cciscxx]; it sets
    [CXXFLAGS] and [FFLAGS] to the same dash-joined flags, which hold the
    optimisation level, and leaves [F90FLAGS] as it was; and it appends the
    OpenMP libraries to [LIBS], with [-lguide] for a compiler older than
    [2011]. *)
Theorem prepareIcc_on_constructed_options h st cciscxx a oa icc libs :
  constructed_opts st ->
  opts st !! "cciscxx" = Some cciscxx ->
  arch st = Some a -> optarchs !! a = Some oa ->
  environ st !! "SOFTVERSIONICC" = Some icc ->
  vars st !! "LIBS" = Some libs ->
  let r := prepareIcc h st in
  r.1 = Ok tt /\
  vars r.2 !! "CC" = Some ("icc" +:+ m32flag st) /\
  vars r.2 !! "CXX" =
    Some (if truthy cciscxx then "icc" +:+ m32flag st else "icpc" +:+ m32flag st) /\
  vars r.2 !! "F77" = Some ("ifort" +:+ m32flag st) /\
  vars r.2 !! "F90" = Some ("ifort" +:+ m32flag st) /\
  vars r.2 !! "LIBS" = Some (libs +:+ icc_libs h icc) /\
  vars r.2 !! "F90FLAGS" = vars st !! "F90FLAGS" /\
  is_Some (vars r.2 !! "CFLAGS") /\
  exists flags,
    level_of (opts st) ∈ flags /\
    vars r.2 !! "CXXFLAGS" = Some (dashed flags) /\
    vars r.2 !! "FFLAGS" = Some (dashed flags).
Proof.
  intros Hc Hcc Ha Hoa Hicc Hlibs r. subst r.
  destruct (prepareIcc h st) as [res stf] eqn:Hrun. cbn [fst snd].
  revert Hrun. unfold prepareIcc.
  rewrite run_bind. unfold get at 1.
  do 4 (rewrite run_bind, setvar_run).
  set (st1 := set_vars _ (set_vars _ (set_vars _ (set_vars _ st)))).
  rewrite run_bind, opt_run. change (opts st1) with (opts st). rewrite Hcc.
  assert (Hcxx : exists st2,
            when (truthy cciscxx) (let! cc := var "CC" in setvar "CXX" cc) st1 = (Ok tt, st2) /\
            opts st2 = opts st /\ arch st2 = arch st /\ environ st2 = environ st /\
            (forall k, k <> "CXX" -> vars st2 !! k = vars st1 !! k) /\
            vars st2 !! "CXX" =
              Some (if truthy cciscxx then "icc" +:+ m32flag st else "icpc" +:+ m32flag st)).
  { destruct (truthy cciscxx); cbn [when].
    - eexists. mrun. subst st1. cbn [vars set_vars]. lk. split; [reflexivity|].
      cbn [opts arch environ vars set_vars]. do 3 (split; [done|]). split; [|by lk].
      intros k Hk. by rewrite lookup_insert_ne.
    - exists st1. unfold ret. do 5 (split; [done|]).
      subst st1. cbn [vars set_vars]. by lk. }
  destruct Hcxx as (st2 & Hw & Ho2 & Ha2 & He2 & Hv2 & Hcxx). rewrite run_bind, Hw.
  assert (Hc2 : constructed_opts st2) by (unfold constructed_opts; by rewrite Ho2).
  rewrite run_bind, opt_run.
  destruct (constructed_opts_lookup st2 "optarch" Hc2) as [optarch ->]; [by vm_compute|].
  rewrite run_bind.
  assert (Hfl : (if truthy optarch
                 then let! a := _getOptimalArchitecture h in ret [a]
                 else ret []) st2 = (Ok (if truthy optarch then [oa] else []), st2)).
  { destruct (truthy optarch); [|done].
    rewrite run_bind, (getOptimalArchitecture_run h st2 a oa); [done|congruence|done]. }
  rewrite Hfl.
  rewrite run_bind, getOptimizationLevel_run by done.
  rewrite run_bind. unfold _flagsForOptions. fold icc_flagOptions.
  destruct (flagsForOptions_loop_run (items icc_flagOptions) [] st2) as [more Hmore].
  { eapply Forall_impl; [apply icc_flag_keys_constructed|].
    intros kv Hkv. by apply constructed_opts_lookup. }
  rewrite Hmore. cbn [app].
  rewrite run_bind, opt_run.
  destruct (constructed_opts_lookup st2 "cstd" Hc2) as [cstd ->]; [by vm_compute|].
  set (flags := ((if truthy optarch then [oa] else []) ++ [level_of (opts st2)]) ++ more).
  assert (Hlvl : level_of (opts st) ∈ flags).
  { subst flags. rewrite Ho2. apply elem_of_app. left. apply elem_of_app. right.
    apply elem_of_cons. by left. }
  clearbody flags.
  assert (Hpos : forall copts, (0 <? length (flags ++ copts))%nat = true).
  { clear -Hlvl. intros copts.
    destruct flags; [by apply elem_of_nil in Hlvl|reflexivity]. }
  assert (Hpos' : (0 <? length flags)%nat = true).
  { clear -Hlvl. destruct flags; [by apply elem_of_nil in Hlvl|reflexivity]. }
  rewrite Hpos, Hpos'. cbn [when].
  do 3 (rewrite run_bind, setvar_run).
  rewrite run_bind, environ_getitem_run. cbn [environ set_vars]. rewrite He2, Hicc.
  assert (Hadd : forall s, vars s !! "LIBS" = Some libs ->
            (if LooseVersion_lt h icc "2011"
             then addvar "LIBS" " -liomp5 -lguide -lpthread"
             else addvar "LIBS" " -liomp5 -lpthread") s =
            (Ok tt, set_vars <["LIBS" := libs +:+ icc_libs h icc]> s)).
  { intros s Hs. unfold icc_libs.
    destruct (LooseVersion_lt h icc "2011"); unfold addvar;
      by rewrite run_bind, var_run, Hs, setvar_run. }
  rewrite Hadd.
  2:{ cbn [vars set_vars]. rewrite !lookup_insert_ne by done.
      rewrite (Hv2 "LIBS") by done. subst st1. cbn [vars set_vars].
      by rewrite !lookup_insert_ne. }
  intros Hrun. apply pair_equal_spec in Hrun as [<- <-].
  cbn [vars set_vars]. clear Hw Hmore Hc Hc2 Hpos Hpos' Hfl Hadd. lk.
  split; [reflexivity|].
  rewrite (Hv2 "CC"), (Hv2 "F77"), (Hv2 "F90"), (Hv2 "F90FLAGS") by done.
  subst st1. cbn [vars set_vars]. lk.
  split; [reflexivity|]. split; [exact Hcxx|]. do 4 (split; [reflexivity|]).
  split; [eauto|]. exists flags. done.
Qed.

(** X22. A toolkit that is fresh from the constructor and is not a 32-bit one
    has [optarch] as its only option, so [prepareGCC] gives it the flags
    [-march=native -O2] for all four languages. *)
Theorem prepareGCC_default_flags h n v env loaded :
  Str.endswith "32bit" v = false ->
  let r := prepareGCC h (init n v env loaded) in
  r.1 = Ok tt /\
  vars r.2 =
    list_to_map
      [("CC", "gcc "); ("CXX", "g++ "); ("F77", "gfortran  "); ("F90", "gfortran ");
       ("CFLAGS", "-march=native -O2"); ("CXXFLAGS", "-march=native -O2");
       ("FFLAGS", "-march=native -O2"); ("F90FLAGS", "-march=native -O2");
       ("FLIBS", "-lgfortran")].
Proof.
  intros H32 r. subst r. unfold init. rewrite H32.
  split; vm_compute; reflexivity.
Qed.

(** ** [build_log.py] *)

Lemma strip_dirs_self l :
  exists pre kept,
    BuildLog.strip_dirs l l = Some kept /\ l = pre ++ kept /\
    ("easybuild" ∉ pre) /\ (kept = [] \/ head kept = Some "easybuild").
Proof.
  induction l as [|d l (pre & kept & Hs & Hl & Hpre & Hk)].
  - exists [], []. repeat split; [apply not_elem_of_nil|by left].
  - cbn [BuildLog.strip_dirs]. destruct (String.eqb d "easybuild") eqn:Hd; cbn [negb].
    + apply String.eqb_eq in Hd as ->. exists [], ("easybuild" :: l).
      repeat split; [apply not_elem_of_nil|by right].
    + cbn [BuildLog.remove]. rewrite String.eqb_refl. cbn [mbind option_bind].
      exists (d :: pre), kept. rewrite Hs. split; [done|]. split; [by rewrite Hl|].
      split; [|done]. apply not_elem_of_cons. split; [|done].
      intros <-. by rewrite String.eqb_refl in Hd.
Qed.

(** X23. [callerInfo] never fails, whatever [findCaller] returns: every
    removal finds its element. Of the directories of the file path it keeps
    the part that starts at the first [easybuild], and nothing when no
    directory has that name; what it drops holds no [easybuild]. *)
Theorem callerInfo_strips_to_easybuild filepath line function_name :
  exists pre kept,
    Str.split "/" filepath = pre ++ kept /\
    ("easybuild" ∉ pre) /\ (kept = [] \/ head kept = Some "easybuild") /\
    BuildLog.callerInfo (filepath, line, function_name) =
      Some ("(at " +:+ Str.join "/" kept +:+ ":" +:+ pretty line +:+ " in " +:+
            function_name +:+ ")").
Proof.
  destruct (strip_dirs_self (Str.split "/" filepath)) as (pre & kept & Hs & Hl & Hpre & Hk).
  exists pre, kept. unfold BuildLog.callerInfo. rewrite Hs. done.
Qed.

Lemma numbered_length base n :
  String.length (numbered base n) < String.length (numbered base (S n)).
Proof.
  cbn [numbered]. rewrite !length_app. cbn [String.length]. lia.
Qed.

Lemma logFilename_loop_spec files base fuel (X : gset string) i :
  (forall f, f ∈ files -> String.length (numbered base i) <= String.length f -> f ∈ X) ->
  size X < fuel ->
  exists n, i <= n /\
    BuildLog.logFilename_loop fuel files (numbered base i) (Z.of_nat (S i)) =
      Some (numbered base n) /\
    (numbered base n ∉ files) /\
    forall j, i <= j < n -> numbered base j ∈ files.
Proof.
  revert X i. induction fuel as [|fuel IH]; intros X i HX Hsize; [lia|].
  cbn [BuildLog.logFilename_loop]. case_bool_decide as Hin.
  - assert (HinX : numbered base i ∈ X) by (apply HX; [done|lia]).
    destruct (IH (X ∖ {[numbered base i]}) (S i)) as (n & Hn & Hrun & Hfresh & Hbelow).
    + intros f Hf Hlen. pose proof (numbered_length base i).
      apply elem_of_difference. split; [apply HX; [done|lia]|].
      intros ->%elem_of_singleton. lia.
    + assert (Hsub : ({[numbered base i]} : gset string) ⊆ X)
        by (by apply singleton_subseteq_l).
      pose proof (subseteq_size _ _ Hsub) as Hle.
      rewrite (size_difference _ _ Hsub). rewrite size_singleton in *. lia.
    + exists n. split; [lia|]. split; [|split; [done|]].
      * replace (Z.of_nat (S i) + 1)%Z with (Z.of_nat (S (S i))) by lia. exact Hrun.
      * intros j Hj. destruct (decide (j = i)) as [->|]; [done|]. apply Hbelow. lia.
  - exists i. split; [lia|]. split; [done|]. split; [done|]. intros j Hj. lia.
Qed.

(** X24. [logFilename] terminates when finitely many files exist, and the
    name that it returns is not the name of an existing file. The numbers
    pile up: the result is the first of [base], [base.2], [base.2.3], ...
    that does not exist, so it is [base] itself when that is free. *)
Theorem logFilename_finds_free_name files formatted :
  let base := "/tmp/" +:+ formatted in
  exists n,
    BuildLog.logFilename files formatted = Some (numbered base n) /\
    (numbered base n ∉ files) /\
    (forall j, j < n -> numbered base j ∈ files) /\
    (base ∉ files -> n = 0).
Proof.
  intros base. unfold BuildLog.logFilename. fold base.
  destruct (logFilename_loop_spec files base (S (size files)) files 0)
    as (n & _ & Hrun & Hfresh & Hbelow); [done|lia|].
  exists n. split; [exact Hrun|]. split; [done|]. split.
  - intros j Hj. apply Hbelow. lia.
  - intros Hb. destruct n as [|n]; [done|]. exfalso. apply Hb, (Hbelow 0). lia.
Qed.

(** ** Rules that set their lines before they look for the installation *)

Lemma addDependencyVariables_keeps h dep st k :
  k <> "CPPFLAGS" -> k <> "LDFLAGS" ->
  vars (_addDependencyVariables h dep st).2 !! k = vars st !! k.
Proof.
  intros H1 H2. apply (frame_addDependencyVariables h dep st). by intros [?|?].
Qed.

(** X25. [prepareATLAS], [prepareGotoBLAS] and [prepareBLACS] set their two
    lines first and look for the installation afterwards: in every state,
    and whether the installation is found or the rule raises, the lines are
    set when the rule is left. *)
Theorem blas_rules_set_their_lines h st :
  vars (prepareATLAS h st).2 !! "LIBBLAS" = Some " -latlas -llapack -lcblas -lf77blas" /\
  vars (prepareATLAS h st).2 !! "LIBBLAS_MT" =
    Some " -latlas -llapack -lptcblas -lptf77blas -lpthread" /\
  vars (prepareGotoBLAS h st).2 !! "LIBBLAS" = Some "-lgoto" /\
  vars (prepareGotoBLAS h st).2 !! "LIBBLAS_MT" = Some "-lgoto" /\
  vars (prepareBLACS h st).2 !! "LIBSCALAPACK" = Some " -lblacsF77init -lblacs " /\
  vars (prepareBLACS h st).2 !! "LIBSCALAPACK_MT" = Some " -lblacsF77init -lblacs ".
Proof.
  assert (Ha : forall k, k <> "CPPFLAGS" -> k <> "LDFLAGS" ->
            vars (prepareATLAS h st).2 !! k =
            <["LIBBLAS_MT" := " -latlas -llapack -lptcblas -lptf77blas -lpthread"]>
              (<["LIBBLAS" := " -latlas -llapack -lcblas -lf77blas"]> (vars st)) !! k).
  { intros k H1 H2. unfold prepareATLAS.
    rewrite run_bind, setvar_run, run_bind, setvar_run.
    by rewrite addDependencyVariables_keeps. }
  assert (Hg : forall k, k <> "CPPFLAGS" -> k <> "LDFLAGS" ->
            vars (prepareGotoBLAS h st).2 !! k =
            <["LIBBLAS_MT" := "-lgoto"]> (<["LIBBLAS" := "-lgoto"]> (vars st)) !! k).
  { intros k H1 H2. unfold prepareGotoBLAS.
    rewrite run_bind, setvar_run, run_bind, var_run. cbn [vars set_vars].
    rewrite lookup_insert_eq, run_bind, setvar_run.
    by rewrite addDependencyVariables_keeps. }
  assert (Hb : forall k, k <> "CPPFLAGS" -> k <> "LDFLAGS" ->
            vars (prepareBLACS h st).2 !! k =
            <["LIBSCALAPACK_MT" := " -lblacsF77init -lblacs "]>
              (<["LIBSCALAPACK" := " -lblacsF77init -lblacs "]> (vars st)) !! k).
  { intros k H1 H2. unfold prepareBLACS.
    rewrite run_bind, setvar_run, run_bind, var_run. cbn [vars set_vars].
    rewrite lookup_insert_eq, run_bind, setvar_run.
    by rewrite addDependencyVariables_keeps. }
  rewrite !Ha, !Hg, !Hb by done. by lk.
Qed.

(** X26. [prepareIMKL] asks for [MKLROOT] before anything else: when the
    environment does not have it, or has it empty, the rule raises an
    [EasyBuildError], logs it and sets no variable. *)
Theorem prepareIMKL_needs_MKLROOT h st :
  env_true (environ st) "MKLROOT" = false ->
  prepareIMKL h st =
    (Raise (EasyBuildError (mklroot_msg h)), add_log ERROR (mklroot_msg h) st).
Proof.
  unfold env_true, prepareIMKL. intros He.
  rewrite run_bind, getenv_run, run_bind.
  destruct (environ st !! "MKLROOT") as [r|]; [|reflexivity].
  by rewrite He.
Qed.

(** X27. [prepareQLogicMPI] builds the wrappers from the compilers of the
    process environment, not from those that an earlier rule left in
    [vars]; a compiler that the environment does not have is quoted as
    [None]. With the option [usempi] present the rule returns normally, and
    under [usempi] the plain compilers become the wrappers. *)
Theorem prepareQLogicMPI_quotes_environment st usempi :
  opts st !! "usempi" = Some usempi ->
  let r := prepareQLogicMPI st in
  r.1 = Ok tt /\
  vars r.2 !! "MPICC" = Some ("mpicc -cc=" +:+ quoted_env st "CC") /\
  vars r.2 !! "MPICXX" = Some ("mpicxx -CC=" +:+ quoted_env st "CXX") /\
  vars r.2 !! "MPIF77" = Some ("mpif77 -fc=" +:+ quoted_env st "F77") /\
  vars r.2 !! "MPIF90" = Some ("mpif90 -f90=" +:+ quoted_env st "F90") /\
  (environ st !! "CC" = None -> quoted_env st "CC" = dq +:+ "None" +:+ dq) /\
  (if truthy usempi
   then vars r.2 !! "CC" = Some ("mpicc -cc=" +:+ quoted_env st "CC")
   else vars r.2 !! "CC" = vars st !! "CC").
Proof.
  intros Hu r. subst r.
  destruct (prepareQLogicMPI st) as [res stf] eqn:Hrun. cbn [fst snd]. revert Hrun.
  unfold prepareQLogicMPI.
  do 4 (rewrite run_bind, getenv_run, run_bind, setvar_run; cbn [environ set_vars]).
  rewrite run_bind, opt_run. cbn [opts set_vars]. rewrite Hu.
  fold (quoted_env st "CC") (quoted_env st "CXX") (quoted_env st "F77") (quoted_env st "F90").
  destruct (truthy usempi); cbn [when].
  - erewrite use_mpi_compilers_run; [|cbn [vars set_vars]; by lk ..].
    intros Hrun. apply pair_equal_spec in Hrun as [<- <-]. cbn [vars set_vars]. lk.
    repeat (split; [reflexivity|]). split; [|reflexivity].
    intros Hn. unfold quoted_env. by rewrite Hn.
  - unfold ret. intros Hrun. apply pair_equal_spec in Hrun as [<- <-].
    cbn [vars set_vars]. lk.
    repeat (split; [reflexivity|]). split; [|reflexivity].
    intros Hn. unfold quoted_env. by rewrite Hn.
Qed.

(** ** [prepare]: what reaches the environment *)

Lemma bind_ok {A B} (m : M A) (k : A -> M B) st b :
  (bind m k st).1 = Ok b -> exists a s, m st = (Ok a, s) /\ bind m k st = k a s.
Proof.
  unfold bind. destruct (m st) as [[a|e] s]; [by exists a, s|intros Hd; discriminate Hd].
Qed.

Lemma setVariables_run dontset st :
  _setVariables dontset st =
    (Ok tt, set_environ (fun e => foldl (apply_var (dontsetlist dontset)) e (items (vars st))) st).
Proof. unfold _setVariables. rewrite run_bind. unfold get at 1. apply setVariables_over_run. Qed.

(** X28. Let [prepare] return normally for a toolkit that is not the dummy
    one, with an [onlymod] other than [True], and let no variable be named as
    the mirror [SOFTVAR<key>] of a variable. Then every variable that the
    rules and the dependencies left in [vars] and that is not in the
    exclusion list is in the environment afterwards, under its name and
    under its mirror name. *)
Theorem prepare_exports_variables h onlymod st :
  name st <> "dummy" ->
  onlymod <> ABool true ->
  let r := prepare h onlymod st in
  r.1 = Ok tt ->
  no_clash (keys (vars r.2)) ->
  forall k v, vars r.2 !! k = Some v -> k ∉ dontsetlist onlymod ->
    environ r.2 !! k = Some v /\ environ r.2 !! ("SOFTVAR" +:+ k) = Some v.
Proof.
  intros Hn Ho r. subst r.
  destruct (mod_exists h (VStr (name st)) (VStr (version st))) eqn:He.
  2:{ rewrite prepare_missing_toolkit by done. intros Hd; discriminate Hd. }
  rewrite prepare_existing by done.
  assert (Htail : match onlymod with
                  | ABool true => ret tt
                  | _ => _addDependencyVariables h DepNone >> _setVariables onlymod
                  end = (_addDependencyVariables h DepNone >> _setVariables onlymod)).
  { destruct onlymod as [|[|]| |]; done. }
  rewrite Htail. clear Htail.
  generalize (toolkit_loaded h st). intros s0 Hok.
  destruct (bind_ok _ _ _ _ Hok) as (a1 & s1 & _ & E1). rewrite E1 in *. clear E1.
  destruct (bind_ok _ _ _ _ Hok) as (a2 & s2 & _ & E2). rewrite E2 in *. clear E2.
  destruct (bind_ok _ _ _ _ Hok) as (a3 & s3 & _ & E3). rewrite E3 in *. clear E3.
  destruct (bind_ok _ _ _ _ Hok) as (a4 & s4 & _ & E4). rewrite E4 in *. clear E4.
  destruct (bind_ok _ _ _ _ Hok) as (a5 & s5 & _ & E5). rewrite E5 in *. clear E5 Hok.
  rewrite setVariables_run. cbn [fst snd vars environ set_environ].
  intros Hnc k v Hv Hk.
  apply apply_vars_set; [apply NoDup_fst_map_to_list|exact Hnc| |exact Hk].
  by apply elem_of_map_to_list.
Qed.

(** ** The statements above at concrete toolkits *)

Lemma prepare_dummy_runs_no_rule_witness :
  prepare demo_host ANone dummy_toolkit = (Ok tt, dummy_toolkit).
Proof.
  assert (Hn : name dummy_toolkit = "dummy") by reflexivity.
  assert (Hv : version dummy_toolkit = "dummy") by reflexivity.
  pose proof (prepare_dummy_runs_no_rule demo_host ANone dummy_toolkit Hn)
    as (H1 & _ & _ & _ & _ & _ & H2 & _).
  specialize (H2 Hv).
  destruct (prepare demo_host ANone dummy_toolkit) as [res st'].
  cbn [fst snd] in H1, H2. by rewrite H1, H2.
Defined.

Lemma prepare_without_toolkit_module_witness :
  let h := no_modules demo_host in
  (prepare h ANone gcc463).1 = Raise (EasyBuildError (no_toolkit_msg h gcc463)) /\
  loaded_modules (prepare h ANone gcc463).2 = [].
Proof.
  intros h.
  assert (Hn : name gcc463 <> "dummy") by (intros Hn; vm_compute in Hn; discriminate Hn).
  assert (He : mod_exists h (VStr (name gcc463)) (VStr (version gcc463)) = false)
    by reflexivity.
  pose proof (prepare_without_toolkit_module h ANone gcc463 Hn He)
    as (H1 & _ & _ & H2 & _).
  split; [exact H1|exact H2].
Defined.

Lemma prepare_onlymod_environ_witness :
  let r := prepare demo_host (ABool true) gcc463 in
  (environ r.2 = environ (toolkit_loaded demo_host gcc463) \/
   environ r.2 = all_loaded_environ demo_host gcc463) /\
  (r.1 = Ok tt -> environ r.2 = all_loaded_environ demo_host gcc463).
Proof.
  assert (Hn : name gcc463 <> "dummy") by (intros Hn; vm_compute in Hn; discriminate Hn).
  assert (He : mod_exists demo_host (VStr (name gcc463)) (VStr (version gcc463)) = true)
    by reflexivity.
  exact (prepare_onlymod_environ demo_host gcc463 Hn He).
Defined.

Lemma generate_variables_unknown_dependency_witness :
  _generate_variables demo_host goalf_with_ncurses =
    (Raise (EasyBuildError (unknown_dependency_msg demo_host "ncurses")),
     add_log ERROR (unknown_dependency_msg demo_host "ncurses") goalf_with_ncurses).
Proof.
  assert (H1 : depnames_of (toolkit_deps goalf_with_ncurses) goalf_with_ncurses =
               (Ok (["gcc"] ++ "ncurses" :: ["openmpi"]), goalf_with_ncurses))
    by (vm_compute; reflexivity).
  assert (H2 : Forall (fun n => is_Some (find_meth n meth_keys)) ["gcc"]).
  { constructor; [|constructor]. exists "1_GCC". vm_compute; reflexivity. }
  assert (H3 : find_meth "ncurses" meth_keys = None) by (vm_compute; reflexivity).
  exact (generate_variables_unknown_dependency demo_host goalf_with_ncurses
           ["gcc"] "ncurses" ["openmpi"] H1 H2 H3).
Defined.

Lemma generate_variables_fallback_by_library_name_witness :
  _generate_variables demo_host gcc463 =
    (Raise (EasyBuildError (unknown_toolkit_msg demo_host (name gcc463))),
     add_log ERROR (unknown_toolkit_msg demo_host (name gcc463)) (with_empty_flags gcc463)).
Proof.
  assert (H1 : toolkit_deps gcc463 = []) by reflexivity.
  assert (H2 : "1_GCC" ∈ meth_keys)
    by (apply (bool_decide_eq_true_1 _); vm_compute; reflexivity).
  assert (H3 : name gcc463 = meth_name "1_GCC") by (vm_compute; reflexivity).
  exact (generate_variables_fallback_by_library_name demo_host gcc463 "1_GCC" H1 H2 H3).
Defined.

Lemma remove_loaded_when_isolated_witness :
  remove_loaded [module_ "zlib" "1.2.5"] goalf_after_zlib =
    (Ok tt,
     set_toolkit_deps [module_ "GCC" "4.6.3"; module_ "OpenMPI" "1.4.5"] goalf_after_zlib).
Proof.
  assert (H1 : NoDup (toolkit_deps goalf_after_zlib))
    by (apply (bool_decide_eq_true_1 _); vm_compute; reflexivity).
  assert (H2 : named [module_ "zlib" "1.2.5"] (toolkit_deps goalf_after_zlib)).
  { unfold named. apply (bool_decide_eq_true_1 _). vm_compute; reflexivity. }
  assert (H3 : isolated (to_remove [module_ "zlib" "1.2.5"] (name goalf_after_zlib))
                 (toolkit_deps goalf_after_zlib) = true) by (vm_compute; reflexivity).
  assert (H4 : List.filter
                 (fun d => negb (to_remove [module_ "zlib" "1.2.5"] (name goalf_after_zlib) d))
                 (toolkit_deps goalf_after_zlib) =
               [module_ "GCC" "4.6.3"; module_ "OpenMPI" "1.4.5"])
    by (vm_compute; reflexivity).
  pose proof (remove_loaded_when_isolated [module_ "zlib" "1.2.5"] goalf_after_zlib
                H1 H2 H3) as H.
  rewrite H4 in H. exact H.
Defined.

Lemma getDependencyVersion_available_witness :
  getDependencyVersion (stocked demo_host) {["name" := VStr "zlib"]} goalf =
    (Ok "2.0-goalf-1.1.0", goalf).
Proof.
  assert (H1 : ({["name" := VStr "zlib"]} : dict) !! "version" = None) by reflexivity.
  assert (H2 : ({["name" := VStr "zlib"]} : dict) !! "name" = Some (VStr "zlib"))
    by reflexivity.
  pose proof (getDependencyVersion_available (stocked demo_host) goalf
                {["name" := VStr "zlib"]} (VStr "zlib") H1 H2) as [H _].
  apply H. vm_compute; reflexivity.
Defined.

Lemma prepareACML_never_returns_witness :
  exists what, prepareACML demo_host gcc463 = (Raise (TypeError what), gcc463).
Proof.
  assert (H1 : opts gcc463 !! "32bit" = Some (VBool false)) by reflexivity.
  exact (proj2 (prepareACML_never_returns demo_host gcc463) (VBool false) H1 eq_refl).
Defined.

Lemma extending_rules_need_their_line_witness :
  prepareLAPACK demo_host gcc463 = (Raise (KeyError "LIBBLAS"), gcc463) /\
  prepareFLAME demo_host gcc463 = (Raise (KeyError "LIBLAPACK"), gcc463).
Proof.
  assert (H1 : vars gcc463 !! "LIBBLAS" = None) by reflexivity.
  assert (H2 : vars gcc463 !! "LIBLAPACK" = None) by reflexivity.
  pose proof (extending_rules_need_their_line demo_host gcc463) as (Ha & _ & _ & _ & Hb).
  split; [exact (Ha H1)|exact (Hb H2)].
Defined.

Lemma prepareGCC_refuses_32bit_witness :
  prepareGCC demo_host gcc463_32bit =
    (Raise (EasyBuildError (gcc_32bit_msg demo_host)),
     add_log ERROR (gcc_32bit_msg demo_host) gcc463_32bit).
Proof.
  assert (H1 : Str.endswith "32bit" "4.6.3-32bit" = true) by (vm_compute; reflexivity).
  pose proof (prepareGCC_refuses_32bit demo_host "GCC" "4.6.3-32bit" ∅ [] H1) as (_ & _ & H).
  exact H.
Defined.

Lemma optimal_architecture_after_detection_witness :
  let r := _determineArchitecture demo_host gcc463 in
  arch r.2 = Some "Intel" /\ _getOptimalArchitecture demo_host r.2 = (Ok "xHOST", r.2).
Proof.
  intros r.
  assert (H1 : r.1 = Ok tt) by reflexivity.
  destruct (proj1 (optimal_architecture_after_detection demo_host gcc463) H1)
    as [H|[H _]]; [exact H|].
  exfalso. vm_compute in H. discriminate H.
Defined.

Lemma prepareGCC_on_constructed_options_witness :
  let r := prepareGCC demo_host gcc463 in
  r.1 = Ok tt /\ vars r.2 !! "CC" = Some "gcc " /\ vars r.2 !! "CXX" = Some "g++ ".
Proof.
  intros r.
  assert (H1 : constructed_opts gcc463) by reflexivity.
  assert (H2 : opts gcc463 !! "32bit" = Some (VBool false)) by reflexivity.
  assert (H3 : opts gcc463 !! "cciscxx" = Some (VBool false)) by reflexivity.
  pose proof (prepareGCC_on_constructed_options demo_host gcc463 (VBool false) (VBool false)
                H1 H2 eq_refl H3) as (Ha & Hb & Hc & _).
  split; [exact Ha|]. split; [exact Hb|exact Hc].
Defined.

Lemma prepareSimpleMPI_sets_wrappers_witness :
  let r := prepareSimpleMPI gcc463 in
  r.1 = Ok tt /\ vars r.2 !! "MPICC" = Some "mpicc " /\
  vars r.2 !! "MPICXX" = Some "mpicxx " /\ vars r.2 !! "CC" = None.
Proof.
  intros r.
  assert (H1 : opts gcc463 !! "cciscxx" = Some (VBool false)) by reflexivity.
  assert (H2 : opts gcc463 !! "usempi" = Some (VBool false)) by reflexivity.
  pose proof (prepareSimpleMPI_sets_wrappers gcc463 (VBool false) (VBool false) H1 H2)
    as (Ha & _ & _ & Hb & Hc & _ & _ & Hd & _).
  split; [exact Ha|]. split; [exact Hb|]. split; [exact Hc|exact Hd].
Defined.

Lemma prepareIMPI_intel_based_witness :
  let r := prepareIMPI ictce in
  r.1 = Ok tt /\ vars r.2 !! "MPICXX" = Some "mpiicc " /\
  vars r.2 !! "CXX" = Some "mpiicpc ".
Proof.
  intros r.
  assert (H1 : intel_based (environ ictce) = true) by (vm_compute; reflexivity).
  assert (H2 : opts ictce !! "usempi" = Some (VBool true)) by reflexivity.
  assert (H3 : opts ictce !! "cciscxx" = Some (VBool true)) by reflexivity.
  pose proof (prepareIMPI_intel_based ictce (VBool true) (VBool true) H1 H2 H3)
    as (Ha & _ & Hb & _ & _ & _ & _ & _ & Hc).
  split; [exact Ha|]. split; [exact Hb|exact Hc].
Defined.

Lemma prepareIMPI_other_compiler_witness :
  prepareIMPI gcc463 = (Raise (KeyError "CC"), gcc463).
Proof.
  assert (H1 : intel_based (environ gcc463) = false) by (vm_compute; reflexivity).
  assert (H2 : vars gcc463 !! "CC" = None) by reflexivity.
  exact (proj1 (prepareIMPI_other_compiler gcc463 H1) H2).
Defined.

Lemma prepareFFTW_sets_LIBFFT_witness :
  vars (prepareFFTW demo_host with_fftw3).2 !! "LIBFFT" = Some " -lfftw3 ".
Proof.
  assert (H1 : environ with_fftw3 !! "SOFTVERSIONFFTW" = Some "3.3.1") by reflexivity.
  assert (H2 : opts with_fftw3 !! "usempi" = Some (VBool false)) by reflexivity.
  exact (proj2 (prepareFFTW_sets_LIBFFT demo_host with_fftw3) "3.3.1" (VBool false) H1 H2).
Defined.

Lemma prepareIcc_on_constructed_options_witness :
  let r := prepareIcc demo_host ictce in
  r.1 = Ok tt /\ vars r.2 !! "CXX" = Some "icc" /\
  vars r.2 !! "LIBS" = Some " -liomp5 -lpthread" /\ vars r.2 !! "F90FLAGS" = None.
Proof.
  intros r.
  assert (H1 : constructed_opts ictce) by (vm_compute; reflexivity).
  assert (H2 : opts ictce !! "cciscxx" = Some (VBool true)) by reflexivity.
  assert (H3 : arch ictce = Some "Intel") by reflexivity.
  assert (H4 : optarchs !! "Intel" = Some "xHOST") by reflexivity.
  assert (H5 : environ ictce !! "SOFTVERSIONICC" = Some "2011.6.233") by reflexivity.
  assert (H6 : vars ictce !! "LIBS" = Some EmptyString) by reflexivity.
  pose proof (prepareIcc_on_constructed_options demo_host ictce (VBool true) "Intel" "xHOST"
                "2011.6.233" EmptyString H1 H2 H3 H4 H5 H6)
    as (Ha & _ & Hb & _ & _ & Hc & Hd & _).
  split; [exact Ha|]. split; [exact Hb|]. split; [exact Hc|exact Hd].
Defined.

Lemma prepareGCC_default_flags_witness :
  vars (prepareGCC demo_host gcc463).2 !! "CFLAGS" = Some "-march=native -O2".
Proof.
  assert (H1 : Str.endswith "32bit" "4.6.3" = false) by (vm_compute; reflexivity).
  pose proof (prepareGCC_default_flags demo_host "GCC" "4.6.3" ∅ [] H1) as [_ H].
  unfold gcc463. rewrite H. reflexivity.
Defined.

Lemma logFilename_finds_free_name_witness :
  BuildLog.logFilename ∅ "easybuild-GCC-4.6.3.log" = Some "/tmp/easybuild-GCC-4.6.3.log".
Proof.
  destruct (logFilename_finds_free_name ∅ "easybuild-GCC-4.6.3.log") as (n & Hrun & _ & _ & H0).
  rewrite (H0 (not_elem_of_empty _)) in Hrun. exact Hrun.
Defined.

Lemma prepareIMKL_needs_MKLROOT_witness :
  prepareIMKL demo_host gcc463 =
    (Raise (EasyBuildError (mklroot_msg demo_host)),
     add_log ERROR (mklroot_msg demo_host) gcc463).
Proof.
  assert (H1 : env_true (environ gcc463) "MKLROOT" = false) by (vm_compute; reflexivity).
  exact (prepareIMKL_needs_MKLROOT demo_host gcc463 H1).
Defined.

Lemma prepareQLogicMPI_quotes_environment_witness :
  let r := prepareQLogicMPI gcc463 in
  r.1 = Ok tt /\ vars r.2 !! "MPICC" = Some ("mpicc -cc=" +:+ dq +:+ "None" +:+ dq).
Proof.
  intros r.
  assert (H1 : opts gcc463 !! "usempi" = Some (VBool false)) by reflexivity.
  pose proof (prepareQLogicMPI_quotes_environment gcc463 (VBool false) H1)
    as (Ha & Hb & _).
  split; [exact Ha|exact Hb].
Defined.

Lemma prepare_exports_variables_witness :
  let r := prepare demo_host ANone goalf_fresh in
  environ r.2 !! "CC" = Some "gcc " /\ environ r.2 !! "SOFTVARCC" = Some "gcc ".
Proof.
  intros r.
  assert (H1 : name goalf_fresh <> "dummy")
    by (intros Hn; vm_compute in Hn; discriminate Hn).
  assert (H2 : ANone <> ABool true) by (intros Hd; discriminate Hd).
  assert (H3 : r.1 = Ok tt) by (vm_compute; reflexivity).
  assert (H4 : no_clash (keys (vars r.2)))
    by (apply no_clashb_no_clash; vm_compute; reflexivity).
  assert (H5 : vars r.2 !! "CC" = Some "gcc ") by (vm_compute; reflexivity).
  assert (H6 : "CC" ∉ dontsetlist ANone) by apply not_elem_of_nil.
  exact (prepare_exports_variables demo_host ANone goalf_fresh H1 H2 H3 H4 "CC" "gcc " H5 H6).
Defined.
